(** * guardowl.protocols: stability-test protocols over a simulation engine

    A shallow embedding of [src/guardowl/protocols.py].

    - The protocols drive OpenMM through method calls.  Every call that
      reaches the engine or the file system is recorded, in program order,
      in the [calls] of a [World]; so are the log records and the printed
      rows of the minimization benchmark.  The world also holds the heap of
      [StabilityTestParameters] objects and of [StateDataReporter] objects,
      because the protocols mutate them through references.
    - Python exceptions are the [Raise] results of the monad [M]; the world
      reached when an exception is raised is kept, as in Python.
    - Coordinates, energies, tolerances and temperatures are numpy/OpenMM
      doubles in the source.  They are idealised here as real numbers [R]
      (all lengths in angstrom, so that unit conversions are the identity).
      The one place where rounding decides an integer, the number of
      molecules of the minimization benchmark, is computed in IEEE binary64
      with the Standard Library's [SpecFloat].
    - What the engine computes (energies, minimised and propagated
      coordinates) is a parameter, the record [Engine]; what the molecule
      toolkit of the repository provides is the record [Toolkit], and what
      the scenario runners take from the factories of the repository is the
      record [Factories].
    - The water-angle helper of [src/stability_test/analysis.py] and the
      layout of the summary figure of [src/guardowl/vis.py] are embedded
      in the modules [PropertyCalculator] and [MonitoringPlotter]. *)

From Stdlib Require Import ZArith List String Ascii Reals Lra Lia.
From Stdlib Require Import DecimalString DecimalZ SpecFloat.
From stdpp Require Import base list strings gmap.

Local Open Scope string_scope.
Local Open Scope list_scope.
Local Open Scope Z_scope.

(** ** Python values *)

Inductive exn : Type :=
| AssertionError
| RuntimeError (msg : string)
| NameError (name : string)
| AttributeError (msg : string)
| ValueError (msg : string)
| IndexError
| TypeError
| OverflowError
| OpenMMException (msg : string)
| InvalidReference.

Inductive result (A : Type) : Type :=
| Ok (a : A)
| Raise (e : exn).
Arguments Ok {A} a.
Arguments Raise {A} e.

Definition result_bind {A B : Type} (r : result A) (k : A -> result B) : result B :=
  match r with
  | Ok a => k a
  | Raise e => Raise e
  end.

(** [str(z)] for a Python int. *)
Definition str (z : Z) : string := NilZero.string_of_int (Z.to_int z).

(** [seq[i]] for a Python sequence of [n] items: a negative index counts
    from the end, anything out of range raises [IndexError]. *)
Definition py_index (n : nat) (i : Z) : result nat :=
  if (0 <=? i) && (i <? Z.of_nat n) then Ok (Z.to_nat i)
  else if (- Z.of_nat n <=? i) && (i <? 0) then Ok (Z.to_nat (Z.of_nat n + i))
  else Raise IndexError.

Definition getitem {A : Type} (l : list A) (i : Z) : result A :=
  result_bind (py_index (length l) i) (fun k =>
  match l !! k with
  | Some x => Ok x
  | None => Raise IndexError
  end).

Definition setitem {A : Type} (l : list A) (i : Z) (x : A) : result (list A) :=
  result_bind (py_index (length l) i) (fun k => Ok (<[k := x]> l)).

(** ** numpy on idealised doubles *)

Definition vec3 : Type := R * R * R.

Definition vadd (a b : vec3) : vec3 :=
  let '(ax, ay, az) := a in let '(bx, by_, bz) := b in
  (ax + bx, ay + by_, az + bz)%R.

Definition vsub (a b : vec3) : vec3 :=
  let '(ax, ay, az) := a in let '(bx, by_, bz) := b in
  (ax - bx, ay - by_, az - bz)%R.

Definition vscale (a : vec3) (k : R) : vec3 :=
  let '(ax, ay, az) := a in (ax * k, ay * k, az * k)%R.

Definition vdiv (a : vec3) (k : R) : vec3 :=
  let '(ax, ay, az) := a in (ax / k, ay / k, az / k)%R.

(** [np.linalg.norm] of a vector: the Euclidean norm. *)
Definition norm (a : vec3) : R :=
  let '(ax, ay, az) := a in sqrt (ax * ax + ay * ay + az * az).

(** [np.linspace(start, stop, num)], endpoint included: [num] samples
    [i * step + start] with [step = (stop - start) / (num - 1)], the last
    one overwritten by [stop]. *)
Definition linspace (start stop : R) (num : nat) : list R :=
  let div := (num - 1)%nat in
  let step := ((stop - start) / INR div)%R in
  let y := map (fun i : nat => (INR i * step + start)%R) (seq 0 num) in
  if (1 <? num)%nat then <[div := stop]> y else y.

(** ** IEEE binary64, for the benchmark's target count *)

Module Float64.
Definition prec : Z := 53.
Definition emax : Z := 1024.

(** [float(z)], rounded to nearest even. *)
Definition of_int (z : Z) : spec_float := binary_normalize prec emax z 0 false.
Definition mul : spec_float -> spec_float -> spec_float := SFmul prec emax.
Definition div : spec_float -> spec_float -> spec_float := SFdiv prec emax.

(** [int(x)]: truncation toward zero. *)
Definition to_int (x : spec_float) : result Z :=
  match x with
  | S754_zero _ => Ok 0
  | S754_finite s m e =>
      let q := if 0 <=? e then Zpos m * 2 ^ e else Zpos m / 2 ^ (- e) in
      Ok (if s then - q else q)
  | S754_infinity _ => Raise OverflowError
  | S754_nan => Raise (ValueError "cannot convert float NaN to integer")
  end.
End Float64.

(** A Python number: [int] or [float]. *)
Inductive number : Type :=
| Int (z : Z)
| Float (x : spec_float).

Definition to_float (n : number) : spec_float :=
  match n with
  | Int z => Float64.of_int z
  | Float x => x
  end.

(** ** OpenMM objects *)

(** Handles the protocols only pass along. *)
Inductive System : Type := SystemHandle (id : nat).
Inductive Topology : Type := TopologyHandle (id : nat).
Inductive Platform : Type := PlatformHandle (id : nat).

Record TestSystem : Type := {
  topology : Topology;
  positions : list vec3
}.

(** [parameters.temperature]: one int, one float, or a list of ints. *)
Inductive Temperature : Type :=
| TInt (z : Z)
| TFloat (x : R)
| TList (l : list Z).

(** An address in one of the two object heaps of a [World]. *)
Definition loc : Type := nat.

(** The attributes of [openmm.app.StateDataReporter] the protocols touch. *)
Record StateDataReporter : Type := {
  _out : option string;
  _step : bool;
  _reportInterval : Z
}.

(** What the protocols can observe of an [openmm.app.Simulation]. *)
Record Simulation : Type := {
  sim_system : System;
  sim_topology : Topology;
  sim_platform : Platform;
  sim_env : string;
  sim_device_index : Z;
  sim_ensemble : option string;
  integrator_temperature : Temperature;
  context_positions : list vec3
}.

(** [openmm.State]: each part is present when it was asked for. *)
Record State : Type := {
  getPositions : option (list vec3);
  getPotentialEnergy : option R
}.

(** What the engine computes. *)
Record Engine : Type := {
  potential_energy : Simulation -> R;
  minimized : Simulation -> R -> Z -> list vec3;
  propagated : Simulation -> Z -> list vec3
}.

Inductive reporter : Type :=
| DCDReporter (file : string) (reportInterval : Z)
| StateDataReporterAt (r : loc)
| ContinuousProgressReporter (reportInterval total_steps : Z).

Inductive level : Type := DEBUG | INFO | WARNING.

(** The log records of the benchmark pipeline, with the values their
    messages are formatted from. *)
Inductive message : Type :=
| PerformingMinimization (nr_of_molecules_to_test : Z) (nnp_name : string)
| MinimizationTest (counter nr_of_molecules_to_test : Z)
| NoMoleculeGenerated (sdf_file : string)
| SkippingHeavy (name : string) (threshold heavy_atoms : Z)
| UsingLight (name : string) (threshold heavy_atoms : Z)
| SkippingUnknownElements (name : string)
| SdfFile (sdf_file : string)
| SkippingBecause (name : string) (e : string)
| RMSD (_score_minimized d_energy : R).

(** A call that leaves the protocol: to the engine, to the file system or
    to the logger. *)
Inductive call : Type :=
| create_simulation (s : System) (t : Topology) (p : Platform)
    (temperature : Temperature) (env : string) (device_index : Z)
    (ensemble : option string)
| setPositions (p : list vec3)
| minimizeEnergy (tolerance : R) (maxIterations : Z)
| step (n : Z)
| setTemperature (t : R)
| getForce (index : Z)
| setDefaultTemperature (t : R)
| getState (positions energy : bool)
| mkdir (path : string)
| open_w (path : string)
| writeFile (path : string) (t : Topology) (p : list vec3)
| reporters_append (r : reporter)
| log (l : level) (m : message)
| print (row : option (string * (R * R))).

(** ** Parameters *)

(** Modelled from the spec: [guardowl/parameters.py] is not among the
    sources.  The fields are those the protocols read or set, with the
    types of the spec's data model; [simulated_annealing] is the optional
    flag that [_setup_simulation] reads with [getattr]. *)
Module StabilityTestParameters.
Record t : Type := {
  system : System;
  platform : Platform;
  testsystem : TestSystem;
  output_folder : string;
  log_file_name : string;
  protocol_length : Z;
  temperature : Temperature;
  env : string;
  simulated_annealing : bool;
  state_data_reporter : loc;
  device_index : Z;
  ensemble : option string
}.

Definition set_log_file_name (p : t) (name : string) : t :=
  {| system := system p; platform := platform p; testsystem := testsystem p;
     output_folder := output_folder p; log_file_name := name;
     protocol_length := protocol_length p; temperature := temperature p;
     env := env p; simulated_annealing := simulated_annealing p;
     state_data_reporter := state_data_reporter p;
     device_index := device_index p; ensemble := ensemble p |}.

Definition set_temperature (p : t) (T : Temperature) : t :=
  {| system := system p; platform := platform p; testsystem := testsystem p;
     output_folder := output_folder p; log_file_name := log_file_name p;
     protocol_length := protocol_length p; temperature := T;
     env := env p; simulated_annealing := simulated_annealing p;
     state_data_reporter := state_data_reporter p;
     device_index := device_index p; ensemble := ensemble p |}.
End StabilityTestParameters.

(** Modelled from the spec: see [StabilityTestParameters]. *)
Module MinimizationTestParameters.
Record t : Type := {
  system : System;
  platform : Platform;
  testsystem : TestSystem;
  output_folder : string;
  log_file_name : string;
  convergence_criteria : R;
  temperature : Temperature;
  env : string;
  simulated_annealing : option bool;
  device_index : Z;
  ensemble : option string
}.
End MinimizationTestParameters.

(** Modelled from the spec: see [StabilityTestParameters]. *)
Module DOFTestParameters.
Record t : Type := {
  system : System;
  platform : Platform;
  testsystem : TestSystem;
  output_folder : string;
  log_file_name : string;
  bond : list Z;
  bond_length_max : R
}.
End DOFTestParameters.

(** [Union[StabilityTestParameters, MinimizationTestParameters]]: what
    [_setup_simulation] reads of either. *)
Class TestParameters (P : Type) : Type := {
  system : P -> System;
  testsystem : P -> TestSystem;
  platform : P -> Platform;
  temperature : P -> Temperature;
  env : P -> string;
  device_index : P -> Z;
  ensemble : P -> option string;
  (** [getattr(parameters, "simulated_annealing", False)] *)
  getattr_simulated_annealing : P -> bool
}.

#[export] Instance StabilityTestParameters_params :
  TestParameters StabilityTestParameters.t := {|
  system := StabilityTestParameters.system;
  testsystem := StabilityTestParameters.testsystem;
  platform := StabilityTestParameters.platform;
  temperature := StabilityTestParameters.temperature;
  env := StabilityTestParameters.env;
  device_index := StabilityTestParameters.device_index;
  ensemble := StabilityTestParameters.ensemble;
  getattr_simulated_annealing := StabilityTestParameters.simulated_annealing
|}.

#[export] Instance MinimizationTestParameters_params :
  TestParameters MinimizationTestParameters.t := {|
  system := MinimizationTestParameters.system;
  testsystem := MinimizationTestParameters.testsystem;
  platform := MinimizationTestParameters.platform;
  temperature := MinimizationTestParameters.temperature;
  env := MinimizationTestParameters.env;
  device_index := MinimizationTestParameters.device_index;
  ensemble := MinimizationTestParameters.ensemble;
  getattr_simulated_annealing := fun p =>
    match MinimizationTestParameters.simulated_annealing p with
    | Some b => b
    | None => false
    end
|}.

(** ** The world and the monad of effects *)

Record World : Type := {
  parameters_heap : list StabilityTestParameters.t;
  reporter_heap : list StateDataReporter;
  calls : list call
}.

Definition M (A : Type) : Type := World -> result A * World.

Definition ret {A : Type} (a : A) : M A := fun w => (Ok a, w).

Definition bind {A B : Type} (m : M A) (k : A -> M B) : M B :=
  fun w =>
    match m w with
    | (Ok a, w') => k a w'
    | (Raise e, w') => (Raise e, w')
    end.

Definition raise {A : Type} (e : exn) : M A := fun w => (Raise e, w).

Definition lift {A : Type} (r : result A) : M A := fun w => (r, w).

Notation "x <- m ;; k" := (bind m (fun x => k))
  (at level 100, m at next level, right associativity).
Notation "m ;; k" := (bind m (fun _ => k))
  (at level 100, right associativity).

Definition emit (c : call) : M unit :=
  fun w =>
    (Ok tt, {| parameters_heap := parameters_heap w;
               reporter_heap := reporter_heap w;
               calls := calls w ++ [c] |}).

(** [try: m  except ValueError as e: handler(e)] *)
Definition try_except_ValueError {A : Type} (m : M A) (handler : string -> M A) : M A :=
  fun w =>
    match m w with
    | (Raise (ValueError e), w') => handler e w'
    | r => r
    end.

(** A [for] loop without [break], threading the variables it updates. *)
Fixpoint for_each {A S : Type} (body : S -> A -> M S) (l : list A) (s : S) : M S :=
  match l with
  | [] => ret s
  | x :: rest => s' <- body s x ;; for_each body rest s'
  end.

Definition read_parameters (l : loc) : M StabilityTestParameters.t :=
  fun w =>
    match parameters_heap w !! l with
    | Some p => (Ok p, w)
    | None => (Raise InvalidReference, w)
    end.

Definition write_parameters (l : loc) (p : StabilityTestParameters.t) : M unit :=
  fun w =>
    (Ok tt, {| parameters_heap := <[l := p]> (parameters_heap w);
               reporter_heap := reporter_heap w;
               calls := calls w |}).

(** [dataclasses.replace(parms)]: a new object with the same fields; the
    objects the fields refer to are shared. *)
Definition dataclasses_replace (l : loc) : M loc :=
  p <- read_parameters l ;;
  fun w =>
    (Ok (length (parameters_heap w)),
     {| parameters_heap := parameters_heap w ++ [p];
        reporter_heap := reporter_heap w;
        calls := calls w |}).

Definition read_reporter (l : loc) : M StateDataReporter :=
  fun w =>
    match reporter_heap w !! l with
    | Some r => (Ok r, w)
    | None => (Raise InvalidReference, w)
    end.

Definition write_reporter (l : loc) (r : StateDataReporter) : M unit :=
  fun w =>
    (Ok tt, {| parameters_heap := parameters_heap w;
               reporter_heap := <[l := r]> (reporter_heap w);
               calls := calls w |}).

(** ** Calls on a simulation *)

Definition with_positions (sim : Simulation) (p : list vec3) : Simulation :=
  {| sim_system := sim_system sim; sim_topology := sim_topology sim;
     sim_platform := sim_platform sim; sim_env := sim_env sim;
     sim_device_index := sim_device_index sim; sim_ensemble := sim_ensemble sim;
     integrator_temperature := integrator_temperature sim;
     context_positions := p |}.

Definition with_temperature (sim : Simulation) (T : Temperature) : Simulation :=
  {| sim_system := sim_system sim; sim_topology := sim_topology sim;
     sim_platform := sim_platform sim; sim_env := sim_env sim;
     sim_device_index := sim_device_index sim; sim_ensemble := sim_ensemble sim;
     integrator_temperature := T;
     context_positions := context_positions sim |}.

Section EngineCalls.
Context (E : Engine).

Definition SimulationFactory_create_simulation (s : System) (t : Topology)
    (p : Platform) (T : Temperature) (env : string) (device_index : Z)
    (ensemble : option string) : M Simulation :=
  emit (create_simulation s t p T env device_index ensemble) ;;
  ret {| sim_system := s; sim_topology := t; sim_platform := p; sim_env := env;
         sim_device_index := device_index; sim_ensemble := ensemble;
         integrator_temperature := T; context_positions := [] |}.

Definition context_setPositions (sim : Simulation) (p : list vec3) : M Simulation :=
  emit (setPositions p) ;; ret (with_positions sim p).

Definition sim_minimizeEnergy (sim : Simulation) (tolerance : R) (maxIterations : Z)
    : M Simulation :=
  emit (minimizeEnergy tolerance maxIterations) ;;
  ret (with_positions sim (minimized E sim tolerance maxIterations)).

Definition sim_step (sim : Simulation) (n : Z) : M Simulation :=
  emit (step n) ;; ret (with_positions sim (propagated E sim n)).

Definition integrator_setTemperature (sim : Simulation) (t : R) : M Simulation :=
  emit (setTemperature t) ;; ret (with_temperature sim (TFloat t)).

Definition context_getState (sim : Simulation) (positions energy : bool) : M State :=
  emit (getState positions energy) ;;
  ret {| getPositions := if positions then Some (context_positions sim) else None;
         getPotentialEnergy := if energy then Some (potential_energy E sim) else None |}.

(** [state.getPositions()] and [state.getPotentialEnergy()]: OpenMM raises
    when the state was built without that part. *)
Definition state_getPositions (state : State) : M (list vec3) :=
  match getPositions state with
  | Some p => ret p
  | None => raise (OpenMMException "State does not contain positions")
  end.

Definition state_getPotentialEnergy (state : State) : M R :=
  match getPotentialEnergy state with
  | Some e => ret e
  | None => raise (OpenMMException "State does not contain energies")
  end.

(** [PDBFile.writeFile(topology, positions, open(path, "w"))] *)
Definition PDBFile_writeFile (t : Topology) (p : list vec3) (path : string) : M unit :=
  emit (open_w path) ;; emit (writeFile path t p).

End EngineCalls.

(** ** class StabilityTest *)

Module StabilityTest.
Section WithEngine.
Context (E : Engine).

(** The name [barostate_force_id] is bound nowhere in the module:
    evaluating it raises [NameError]. *)
Definition barostate_force_id : M Z := raise (NameError "barostate_force_id").

(** The values [for temp in np.linspace(0, parameters.temperature, 10)]
    ranges over: doubles for a scalar temperature; for a list of
    temperatures numpy yields rows, which are no doubles. *)
Definition annealing_temperatures (T : Temperature) : list (option R) :=
  match T with
  | TInt z => map Some (linspace 0 (IZR z) 10)
  | TFloat x => map Some (linspace 0 x 10)
  | TList l => replicate 10 None
  end.

Definition annealing_stage {P : Type} `{TestParameters P} (parameters : P)
    (sim : Simulation) (temp : option R) : M Simulation :=
  sim <- sim_step E sim 100 ;;
  match temp with
  | None => raise TypeError
  | Some temp =>
      sim <- integrator_setTemperature sim temp ;;
      if bool_decide (ensemble parameters = Some "npt") then
        index <- barostate_force_id ;;
        emit (getForce index) ;;
        emit (setDefaultTemperature temp) ;;
        ret sim
      else ret sim
  end.

Definition _setup_simulation {P : Type} `{TestParameters P} (parameters : P)
    (minimization_tolerance : R) (minimize : bool) : M Simulation :=
  sim <- SimulationFactory_create_simulation
           (system parameters) (topology (testsystem parameters))
           (platform parameters) (temperature parameters) (env parameters)
           (device_index parameters) (ensemble parameters) ;;
  sim <- context_setPositions sim (positions (testsystem parameters)) ;;
  sim <- (if minimize
          then sim_minimizeEnergy E sim minimization_tolerance 1000
          else ret sim) ;;
  if getattr_simulated_annealing parameters
  then for_each (annealing_stage parameters)
                (annealing_temperatures (temperature parameters)) sim
  else ret sim.

(** The default [minimization_tolerance]: 1 kJ/mol/angstrom. *)
Definition default_minimization_tolerance : R := 1.

Definition _run_simulation (parameters : StabilityTestParameters.t)
    (sim : Simulation) : M unit :=
  emit (mkdir (StabilityTestParameters.output_folder parameters)) ;;
  let output_file_name :=
    StabilityTestParameters.output_folder parameters +:+ "/" +:+
    StabilityTestParameters.log_file_name parameters in
  PDBFile_writeFile (topology (StabilityTestParameters.testsystem parameters))
                    (positions (StabilityTestParameters.testsystem parameters))
                    (output_file_name +:+ ".pdb") ;;
  let r := StabilityTestParameters.state_data_reporter parameters in
  emit (open_w (output_file_name +:+ ".csv")) ;;
  rep <- read_reporter r ;;
  write_reporter r {| _out := Some (output_file_name +:+ ".csv");
                      _step := _step rep;
                      _reportInterval := _reportInterval rep |} ;;
  rep <- read_reporter r ;;
  (if negb (_step rep)
   then write_reporter r {| _out := _out rep; _step := true;
                            _reportInterval := _reportInterval rep |}
   else ret tt) ;;
  rep <- read_reporter r ;;
  emit (reporters_append (DCDReporter (output_file_name +:+ ".dcd")
                                      (_reportInterval rep))) ;;
  emit (reporters_append (StateDataReporterAt r)) ;;
  emit (reporters_append
          (ContinuousProgressReporter 100
             (StabilityTestParameters.protocol_length parameters))) ;;
  sim <- sim_step E sim (StabilityTestParameters.protocol_length parameters) ;;
  ret tt.

End WithEngine.
End StabilityTest.

(** ** class BondProfileProtocol(DOFTest) *)

Module BondProfileProtocol.

(** [diff / np.linalg.norm(diff)] is a division of reals here.  For two
    atoms at the same position (or one atom given twice) numpy divides by
    zero and the coordinates it returns are nan: the embedding stands for
    the source where [norm diff <> 0], and the theorems about the geometry
    assume it. *)
Definition set_bond_length (positions : list vec3) (atom1 atom2 : Z) (length : R)
    : result (list vec3) :=
  result_bind (getitem positions atom2) (fun p2 =>
  result_bind (getitem positions atom1) (fun p1 =>
  let diff := vsub p2 p1 in
  let position_in_angstrom := positions in
  let normalized_diff := vdiv diff (norm diff) in
  let new_positions := position_in_angstrom in
  result_bind (getitem position_in_angstrom atom1) (fun p1 =>
  setitem new_positions atom2 (vadd p1 (vscale normalized_diff length))))).

Section WithEngine.
Context (E : Engine).

(** The three lists the scan appends to. *)
Record profile : Type := {
  potential_energy_list : list R;
  conformations : list (list vec3);
  bond_length : list R
}.

Definition scan_sample (initial_pos : list vec3) (bond_atom1 bond_atom2 : Z)
    (acc : Simulation * profile) (length : R) : M (Simulation * profile) :=
  let '(sim, prof) := acc in
  new_pos <- lift (set_bond_length initial_pos bond_atom1 bond_atom2 length) ;;
  sim <- context_setPositions sim new_pos ;;
  state <- context_getState E sim true true ;;
  energy <- state_getPotentialEnergy state ;;
  conformation <- state_getPositions state ;;
  ret (sim,
       {| potential_energy_list := potential_energy_list prof ++ [energy];
          conformations := conformations prof ++ [conformation];
          bond_length := bond_length prof ++ [length] |}).

Definition perform_DOF_scan (sim : Simulation) (parameters : DOFTestParameters.t)
    : M profile :=
  match DOFTestParameters.bond parameters with
  | [] => raise AssertionError
  | [bond_atom1; bond_atom2] =>
      let initial_pos := positions (DOFTestParameters.testsystem parameters) in
      let max_bond_stretch := DOFTestParameters.bond_length_max parameters in
      r <- for_each (scan_sample initial_pos bond_atom1 bond_atom2)
             (linspace 0 max_bond_stretch 100)
             (sim, {| potential_energy_list := []; conformations := [];
                      bond_length := [] |}) ;;
      ret (snd r)
  | _ => raise (ValueError "wrong number of values to unpack")
  end.

End WithEngine.
End BondProfileProtocol.

(** ** class PropagationProtocol(StabilityTest) *)

Module PropagationProtocol.
Section WithEngine.
Context (E : Engine).

(** [parms] is the caller's object, passed by reference. *)
Definition perform_stability_test (parms : loc) : M unit :=
  p <- read_parameters parms ;;
  match StabilityTestParameters.temperature p with
  | TInt T =>
      write_parameters parms
        (StabilityTestParameters.set_log_file_name p
           (StabilityTestParameters.log_file_name p +:+ "_" +:+ str T)) ;;
      p <- read_parameters parms ;;
      sim <- StabilityTest._setup_simulation E p
               StabilityTest.default_minimization_tolerance true ;;
      StabilityTest._run_simulation E p sim
  | _ => raise AssertionError
  end.

End WithEngine.
End PropagationProtocol.

(** ** class MinimizationProtocol(StabilityTest) *)

Module MinimizationProtocol.
Section WithEngine.
Context (E : Engine).

Definition perform_stability_test (parms : MinimizationTestParameters.t)
    (minimize : bool) : M State :=
  sim <- StabilityTest._setup_simulation E parms
           (MinimizationTestParameters.convergence_criteria parms) minimize ;;
  let output_file_name :=
    MinimizationTestParameters.output_folder parms +:+ "/" +:+
    MinimizationTestParameters.log_file_name parms in
  state <- context_getState E sim true true ;;
  p <- state_getPositions state ;;
  PDBFile_writeFile (topology (MinimizationTestParameters.testsystem parms)) p
                    (output_file_name +:+ ".pdb") ;;
  ret state.

End WithEngine.
End MinimizationProtocol.

(** ** class MultiTemperatureProtocol(PropagationProtocol) *)

Module MultiTemperatureProtocol.
Section WithEngine.
Context (E : Engine).

(** [_parms = dataclasses.replace(parms)] and the two assignments to
    [_parms.temperature] and [_parms.log_file_name]. *)
Definition derive (parms : loc) (temperature : Z) : M loc :=
  _parms <- dataclasses_replace parms ;;
  c <- read_parameters _parms ;;
  write_parameters _parms (StabilityTestParameters.set_temperature c (TInt temperature)) ;;
  c <- read_parameters _parms ;;
  p <- read_parameters parms ;;
  write_parameters _parms
    (StabilityTestParameters.set_log_file_name c
       (StabilityTestParameters.log_file_name p +:+ "_" +:+ str temperature +:+ "K")) ;;
  ret _parms.

(** The body of [for temperature in parms.temperature]. *)
Definition run_at (parms : loc) (_ : unit) (temperature : Z) : M unit :=
  _parms <- derive parms temperature ;;
  c <- read_parameters _parms ;;
  qsim <- StabilityTest._setup_simulation E c
            StabilityTest.default_minimization_tolerance false ;;
  StabilityTest._run_simulation E c qsim.

Definition perform_stability_test (parms : loc) : M unit :=
  p <- read_parameters parms ;;
  match StabilityTestParameters.temperature p with
  | TList temperatures => for_each (run_at parms) temperatures tt
  | _ => raise (RuntimeError
           "You need to provide mutliple temperatures to run the MultiTemperatureProtocol.")
  end.

End WithEngine.
End MultiTemperatureProtocol.

(** ** Strings of paths *)

(** [s.split(sep)] for a one-character separator. *)
Fixpoint split (sep : ascii) (s : string) : list string :=
  match s with
  | EmptyString => [EmptyString]
  | String c rest =>
      if Ascii.eqb c sep then EmptyString :: split sep rest
      else match split sep rest with
           | x :: xs => String c x :: xs
           | [] => [String c EmptyString]
           end
  end.

(** [s.removesuffix(suffix)] *)
Definition removesuffix (s suffix : string) : string :=
  let n := String.length s in
  let k := String.length suffix in
  if (k <=? n)%nat && String.eqb (substring (n - k) k s) suffix
  then substring 0 (n - k) s
  else s.

(** [os.path.basename(working_dir.removesuffix(".xyz"))], where
    [working_dir = "".join(start_file.split("/")[-1])]. *)
Definition molecule_name (start_file : string) : string :=
  let working_dir := List.last (split "/" start_file) EmptyString in
  List.last (split "/" (removesuffix working_dir ".xyz")) EmptyString.

(** ["".join(start_file.split(".")[0]) + ".sdf"] *)
Definition sdf_file_of (start_file : string) : string :=
  List.hd EmptyString (split "." start_file) +:+ ".sdf".

(** ** run_detect_minimum *)

(** An RDKit molecule: the atomic numbers of [mol.GetAtoms()]. *)
Definition Mol : Type := list Z.

(** One item of [_generate_input_for_minimization_test(files)]. *)
Record entry : Type := {
  minimized_file : string;
  minimized_position : list vec3;
  start_file : string;
  start_position : list vec3
}.

(** [files]: its ["total_number_of_systems"] and the items the generator
    yields from it, in the shuffled order. *)
Record Files : Type := {
  total_number_of_systems : Z;
  entries : list entry
}.

(** Modelled from the spec: [guardowl/setup.py], [utils.py], [testsystems.py]
    and [simulation.py] are not among the sources, and mdtraj is a library.
    [generate_molecule_from_sdf] gives [None] when no molecule can be
    generated; [generate_testsystem] builds a topology and coordinates or
    raises. *)
Record Toolkit : Type := {
  generate_molecule_from_sdf : string -> option Mol;
  generate_testsystem : string -> result TestSystem;
  initialize_system : string -> Topology -> System;
  _IMPLEMENTED_ELEMENTS : list Z;
  rmsd : list vec3 -> list vec3 -> R;
  (** the defaults of the dataclass [MinimizationTestParameters] *)
  default_convergence_criteria : R;
  default_temperature : Temperature;
  default_env : string;
  default_simulated_annealing : option bool;
  default_device_index : Z;
  default_ensemble : option string
}.

(** [MinimizationTestParameters(platform=, system=, testsystem=,
    output_folder=, log_file_name=)] *)
Definition MinimizationTestParameters_init (K : Toolkit) (platform : Platform)
    (system : System) (testsystem : TestSystem) (output_folder log_file_name : string)
    : MinimizationTestParameters.t :=
  {| MinimizationTestParameters.system := system;
     MinimizationTestParameters.platform := platform;
     MinimizationTestParameters.testsystem := testsystem;
     MinimizationTestParameters.output_folder := output_folder;
     MinimizationTestParameters.log_file_name := log_file_name;
     MinimizationTestParameters.convergence_criteria := default_convergence_criteria K;
     MinimizationTestParameters.temperature := default_temperature K;
     MinimizationTestParameters.env := default_env K;
     MinimizationTestParameters.simulated_annealing := default_simulated_annealing K;
     MinimizationTestParameters.device_index := default_device_index K;
     MinimizationTestParameters.ensemble := default_ensemble K |}.

(** [int(nr_of_molecules * (percentage / 100))], in binary64. *)
Definition nr_of_molecules_to_test (nr_of_molecules : Z) (percentage : number)
    : result Z :=
  Float64.to_int
    (Float64.mul (Float64.of_int nr_of_molecules)
                 (Float64.div (to_float percentage) (Float64.of_int 100))).

(** [score[name] = v] on a dict, which keeps insertion order. *)
Fixpoint dict_set {V : Type} (d : list (string * V)) (name : string) (v : V)
    : list (string * V) :=
  match d with
  | [] => [(name, v)]
  | (k, x) :: rest =>
      if String.eqb k name then (k, v) :: rest else (k, x) :: dict_set rest name v
  end.

(** How an iteration of the loop ends: it falls through or [continue]s to
    the next item, or [break]s. *)
Inductive flow : Type := Next | Break.

Section Benchmark.
Context (E : Engine) (K : Toolkit).
Context (nnp nnp_name : string) (platform : Platform) (output_folder : string).
Context (skip_molecules_above_heavy_atom_threshold : Z).

Definition _contains_unknown_elements (name : string) (mol : option Mol) : M bool :=
  match mol with
  | None => raise (AttributeError "'NoneType' object has no attribute 'GetAtoms'")
  | Some atoms =>
      if forallb (fun a => existsb (Z.eqb a) (_IMPLEMENTED_ELEMENTS K)) atoms
      then ret false
      else emit (log DEBUG (SkippingUnknownElements name)) ;; ret true
  end.

Definition _above_threshold (name : string) (mol : option Mol) : M bool :=
  match mol with
  | None => raise (AttributeError "'NoneType' object has no attribute 'GetAtoms'")
  | Some atoms =>
      let heavy_atoms :=
        fold_left (fun heavy a => if a =? 1 then heavy else heavy + 1) atoms 0 in
      if heavy_atoms >? skip_molecules_above_heavy_atom_threshold
      then emit (log DEBUG (SkippingHeavy name
                   skip_molecules_above_heavy_atom_threshold heavy_atoms)) ;;
           ret true
      else emit (log DEBUG (UsingLight name
                   skip_molecules_above_heavy_atom_threshold heavy_atoms)) ;;
           ret false
  end.

Definition with_testsystem_positions (t : TestSystem) (p : list vec3) : TestSystem :=
  {| topology := topology t; positions := p |}.

(** The part of the loop body after the filters: both minimization runs
    and the score of the molecule. *)
Definition score_molecule (name : string) (reference_testsystem : TestSystem)
    (e : entry) : M (R * R) :=
  let reference_testsystem :=
    with_testsystem_positions reference_testsystem (minimized_position e) in
  let system := initialize_system K nnp (topology reference_testsystem) in
  let log_file_name := "ref_" +:+ name +:+ "_" +:+ nnp in
  let params := MinimizationTestParameters_init K platform system
                  reference_testsystem output_folder log_file_name in
  state <- MinimizationProtocol.perform_stability_test E params false ;;
  reference_energy <- state_getPotentialEnergy state ;;
  let reference_traj := positions reference_testsystem in
  let minimize_testsystem :=
    with_testsystem_positions reference_testsystem (start_position e) in
  let system := initialize_system K nnp (topology minimize_testsystem) in
  let log_file_name := "minimize_" +:+ name +:+ "_" +:+ nnp_name in
  let params := MinimizationTestParameters_init K platform system
                  minimize_testsystem output_folder log_file_name in
  state <- MinimizationProtocol.perform_stability_test E params true ;;
  minimized_energy <- state_getPotentialEnergy state ;;
  minimized_positions <- state_getPositions state ;;
  let d_energy := Rabs (reference_energy - minimized_energy) in
  let minimized_traj := minimized_positions in
  let _score_minimized := rmsd K minimized_traj reference_traj in
  ret (_score_minimized, d_energy).

(** One iteration of [for ... in _generate_input_for_minimization_test(files)],
    on the variables [score] and [counter]. *)
Definition minimization_test (nr_of_molecules_to_test : Z)
    (score : list (string * (R * R))) (counter : Z) (e : entry)
    : M (flow * list (string * (R * R)) * Z) :=
  emit (log INFO (MinimizationTest counter nr_of_molecules_to_test)) ;;
  let name := molecule_name (start_file e) in
  let sdf_file := sdf_file_of (start_file e) in
  let mol := generate_molecule_from_sdf K sdf_file in
  (match mol with
   | Some _ => ret tt
   | None => emit (log DEBUG (NoMoleculeGenerated sdf_file))
   end) ;;
  above <- _above_threshold name mol ;;
  if above then ret (Next, score, counter) else
  unknown <- _contains_unknown_elements name mol ;;
  if unknown then ret (Next, score, counter) else
  emit (log DEBUG (SdfFile sdf_file)) ;;
  built <- try_except_ValueError
             (reference_testsystem <- lift (generate_testsystem K sdf_file) ;;
              ret (Some reference_testsystem))
             (fun msg =>
                emit (log WARNING (SkippingBecause name msg)) ;; ret None) ;;
  match built with
  | None => ret (Next, score, counter)
  | Some reference_testsystem =>
      s <- score_molecule name reference_testsystem e ;;
      emit (log DEBUG (RMSD (fst s) (snd s))) ;;
      let score := dict_set score name s in
      let counter := counter + 1 in
      if counter >=? nr_of_molecules_to_test
      then ret (Break, score, counter)
      else ret (Next, score, counter)
  end.

Fixpoint minimization_loop (nr_of_molecules_to_test : Z) (items : list entry)
    (score : list (string * (R * R))) (counter : Z)
    : M (list (string * (R * R)) * Z) :=
  match items with
  | [] => ret (score, counter)
  | e :: rest =>
      r <- minimization_test nr_of_molecules_to_test score counter e ;;
      match r with
      | (Break, score, counter) => ret (score, counter)
      | (Next, score, counter) =>
          minimization_loop nr_of_molecules_to_test rest score counter
      end
  end.

Definition run_detect_minimum (files : Files) (percentage : number)
    : M (list (string * (R * R))) :=
  let nr_of_molecules := total_number_of_systems files in
  nr_of_molecules_to_test <-
    lift (nr_of_molecules_to_test nr_of_molecules percentage) ;;
  emit (log INFO (PerformingMinimization nr_of_molecules_to_test nnp_name)) ;;
  r <- minimization_loop nr_of_molecules_to_test (entries files) [] 0 ;;
  emit (print None) ;;
  for_each (fun _ row => emit (print (Some row))) (fst r) tt ;;
  ret (fst r).

End Benchmark.

(** ** class DOFTest: setup_simulation and perform_scan *)

(** Modelled from the spec: [SimulationFactory.create_simulation] is not
    among the sources.  [DOFTest.setup_simulation] passes it neither a
    [device_index] nor an [ensemble]: these are the defaults it then
    takes. *)
Record CreateSimulationDefaults : Type := {
  create_device_index : Z;
  create_ensemble : option string
}.

(** What [perform_scan] writes: the frames saved to the [.dcd] file and the
    header and rows of the [.csv] file. *)
Record scan_files : Type := {
  dcd_file : string;
  dcd_frames : list (list vec3);
  csv_file : string;
  csv_header : list string;
  csv_rows : list (R * R)
}.

Module DOFTest.
Section WithEngine.
Context (E : Engine) (D : CreateSimulationDefaults).

Definition setup_simulation (parameters : DOFTestParameters.t) : M Simulation :=
  sim <- SimulationFactory_create_simulation
           (DOFTestParameters.system parameters)
           (topology (DOFTestParameters.testsystem parameters))
           (DOFTestParameters.platform parameters)
           (TInt 300) "vacuum" (create_device_index D) (create_ensemble D) ;;
  sim <- context_setPositions sim
           (positions (DOFTestParameters.testsystem parameters)) ;;
  let output_file_name :=
    DOFTestParameters.output_folder parameters +:+ "/" +:+
    DOFTestParameters.log_file_name parameters in
  state <- context_getState E sim true true ;;
  p <- state_getPositions state ;;
  PDBFile_writeFile (topology (DOFTestParameters.testsystem parameters)) p
                    (output_file_name +:+ ".pdb") ;;
  ret sim.

(** The files written are the result: the trajectory of the
    conformations, and the table of [zip(bond_length, potential_energy)]
    under its header. *)
Definition perform_scan (parameters : DOFTestParameters.t) : M scan_files :=
  sim <- setup_simulation parameters ;;
  prof <- BondProfileProtocol.perform_DOF_scan E sim parameters ;;
  let file_path :=
    DOFTestParameters.output_folder parameters +:+ "/" +:+
    DOFTestParameters.log_file_name parameters in
  emit (open_w (file_path +:+ ".csv")) ;;
  ret {| dcd_file := file_path +:+ ".dcd";
         dcd_frames := BondProfileProtocol.conformations prof;
         csv_file := file_path +:+ ".csv";
         csv_header := ["bond distance [A]"; "potential energy [kJ/mol]"];
         csv_rows := combine (BondProfileProtocol.bond_length prof)
                             (BondProfileProtocol.potential_energy_list prof) |}.

End WithEngine.
End DOFTest.

(** ** The scenario runners *)

(** The options of [guardowl.testsystems] the runners build. *)
Inductive TestsystemOption : Type :=
| SmallMoleculeVacuumOption (name smiles : option string)
| LiquidOption_edge_length (name : string) (edge_length : R)
| LiquidOption_positional (name : string) (n : Z)
| SolvatedSystemOption (name : string).

(** Modelled from the spec: [guardowl/testsystems.py], [simulation.py] and
    [parameters.py] are not among the sources.  The two factories build
    what they are asked for or raise; [format_float] is Python's
    formatting of a float; [DOFTestParameters_init] is the constructor of
    [DOFTestParameters] applied to the keyword arguments of
    [run_DOF_scan], the entries of [DOF_definition] among them. *)
Record Factories : Type := {
  TestsystemFactory_generate_testsystem : TestsystemOption -> result TestSystem;
  SystemFactory_initialize_system : string -> Topology -> result System;
  format_float : R -> string;
  DOFTestParameters_init :
    System -> Platform -> TestSystem -> string -> string -> R ->
    gmap string (list Z) -> result DOFTestParameters.t
}.

(** [", ".join(l)] *)
Fixpoint join_comma (l : list string) : string :=
  match l with
  | [] => EmptyString
  | [x] => x
  | x :: rest => x +:+ ", " +:+ join_comma rest
  end.

(** [f"{l}"] for a list of ints. *)
Definition format_list (l : list Z) : string :=
  "[" +:+ join_comma (map str l) +:+ "]".

(** [f"{temperature}"] *)
Definition format_temperature (F : Factories) (T : Temperature) : string :=
  match T with
  | TInt z => str z
  | TFloat x => format_float F x
  | TList l => format_list l
  end.

(** [f"{ensemble}"] for an optional string. *)
Definition format_optional (s : option string) : string :=
  match s with
  | Some s => s
  | None => "None"
  end.

(** A new [StabilityTestParameters] object. *)
Definition new_parameters (p : StabilityTestParameters.t) : M loc :=
  fun w =>
    (Ok (length (parameters_heap w)),
     {| parameters_heap := parameters_heap w ++ [p];
        reporter_heap := reporter_heap w;
        calls := calls w |}).

(** [smiles] and [names] of [run_small_molecule_test]: two strings, or two
    lists of strings. *)
Inductive molecules : Type :=
| OneMolecule (smiles name : string)
| ManyMolecules (smiles names : list string).

(** [Union[str, List[str]]] and [Union[int, List[int]]] *)
Inductive str_or_list : Type := AStr (s : string) | AStrList (l : list string).
Inductive int_or_list : Type := AnInt (z : Z) | AnIntList (l : list Z).

(** A function that ends by returning, by raising one of the exceptions of
    [exn], or by raising [NotImplementedError]. *)
Inductive outcome (A : Type) : Type :=
| Finished (r : result A)
| NotImplementedError (msg : string).
Arguments Finished {A} r.
Arguments NotImplementedError {A} msg.

(** The runners report through [log.info].  The records a runner has
    logged, in order, are the value it returns here; those of a run that
    ends by raising are not kept. *)
Section Runners.
Context (E : Engine) (F : Factories) (D : CreateSimulationDefaults).

(** [_run_protocol(opt)] of [run_small_molecule_test], for the option
    [SmallMoleculeVacuumOption(smiles=smiles, name=name)]. *)
Definition _run_protocol (nnp : string) (temperature : Temperature)
    (reporter : loc) (platform : Platform) (output_folder : string)
    (device_index nr_of_simulation_steps : Z) (smiles name : string)
    : M (list string) :=
  let info1 := "Performing vacuum stability test for " +:+ name +:+ "." in
  testsystem <- lift (TestsystemFactory_generate_testsystem F
                        (SmallMoleculeVacuumOption (Some name) (Some smiles))) ;;
  system <- lift (SystemFactory_initialize_system F nnp (topology testsystem)) ;;
  let log_file_name := "vacuum_" +:+ name in
  let info2 := "Logging to " +:+ output_folder +:+ "/" +:+ log_file_name in
  params <- new_parameters
    {| StabilityTestParameters.system := system;
       StabilityTestParameters.platform := platform;
       StabilityTestParameters.testsystem := testsystem;
       StabilityTestParameters.output_folder := output_folder;
       StabilityTestParameters.log_file_name := log_file_name;
       StabilityTestParameters.protocol_length := nr_of_simulation_steps;
       StabilityTestParameters.temperature := temperature;
       StabilityTestParameters.env := "vacuum";
       StabilityTestParameters.simulated_annealing := false;
       StabilityTestParameters.state_data_reporter := reporter;
       StabilityTestParameters.device_index := device_index;
       StabilityTestParameters.ensemble := Some "nvt" |} ;;
  match temperature with
  | TList _ => MultiTemperatureProtocol.perform_stability_test E params
  | _ => PropagationProtocol.perform_stability_test E params
  end ;;
  p <- read_parameters params ;;
  ret [info1; info2;
       String "010"%char
         ("Saving " +:+ StabilityTestParameters.log_file_name p +:+ " files to " +:+
          StabilityTestParameters.output_folder p)].

Definition run_small_molecule_test (m : molecules) (nnp nnp_name : string)
    (temperature : Temperature) (reporter : loc) (platform : Platform)
    (output_folder : string) (device_index nr_of_simulation_steps : Z)
    : M (list string) :=
  match m with
  | OneMolecule smiles name =>
      _run_protocol nnp temperature reporter platform output_folder
        device_index nr_of_simulation_steps smiles name
  | ManyMolecules smiles names =>
      for_each (fun logged '(smile, name) =>
                  l <- _run_protocol nnp temperature reporter platform
                         output_folder device_index nr_of_simulation_steps
                         smile name ;;
                  ret (logged ++ l))
               (combine smiles names) []
  end.

Definition run_waterbox_test (edge_length : Z) (ensemble nnp nnp_name : string)
    (temperature : Temperature) (reporter : loc) (platform : Platform)
    (output_folder : string) (device_index : Z) (annealing : bool)
    (nr_of_simulation_steps : Z) : M (list string) :=
  let info1 :=
    "Initiating waterbox stability test: " +:+ str edge_length +:+ "A edge, " +:+
    nnp_name +:+ " potential, " +:+ ensemble +:+ " ensemble." in
  testsystem <- lift (TestsystemFactory_generate_testsystem F
                        (LiquidOption_edge_length "water" (IZR edge_length))) ;;
  system <- lift (SystemFactory_initialize_system F nnp (topology testsystem)) ;;
  let log_file_name :=
    "waterbox_" +:+ str edge_length +:+ "A_" +:+ nnp_name +:+ "_" +:+ ensemble in
  let log_file_name :=
    match temperature with
    | TList _ => log_file_name +:+ "_multi-temp"
    | _ => log_file_name +:+ "_" +:+ format_temperature F temperature +:+ "K"
    end in
  let info2 := "Simulation output will be written to " +:+ log_file_name in
  params <- new_parameters
    {| StabilityTestParameters.system := system;
       StabilityTestParameters.platform := platform;
       StabilityTestParameters.testsystem := testsystem;
       StabilityTestParameters.output_folder := output_folder;
       StabilityTestParameters.log_file_name := log_file_name;
       StabilityTestParameters.protocol_length := nr_of_simulation_steps;
       StabilityTestParameters.temperature := temperature;
       StabilityTestParameters.env := "solution";
       StabilityTestParameters.simulated_annealing := annealing;
       StabilityTestParameters.state_data_reporter := reporter;
       StabilityTestParameters.device_index := device_index;
       StabilityTestParameters.ensemble := Some ensemble |} ;;
  PropagationProtocol.perform_stability_test E params ;;
  ret [info1; info2; "Simulation files saved to " +:+ output_folder].

(** The body of the loop of [run_organic_liquid_test]. *)
Definition organic_liquid_run (ensemble nnp nnp_name : string)
    (temperature : Temperature) (reporter : loc) (platform : Platform)
    (output_folder : string) (device_index : Z) (annealing : bool)
    (nr_of_simulation_steps : Z) (logged : list string) (item : string * Z)
    : M (list string) :=
  let '(name, nr_of_molecules) := item in
  let info1 :=
    "Initiating pure liquid stability test for " +:+ str nr_of_molecules +:+
    " molecules of " +:+ name +:+ " at " +:+ format_temperature F temperature +:+
    "K." in
  testsystem <- lift (TestsystemFactory_generate_testsystem F
                        (LiquidOption_positional name nr_of_molecules)) ;;
  system <- lift (SystemFactory_initialize_system F nnp (topology testsystem)) ;;
  let temperature_str :=
    match temperature with
    | TInt z => str z +:+ "K"
    | _ => "multi-temp"
    end in
  let log_file_name :=
    "pure_liquid_" +:+ name +:+ "_" +:+ str nr_of_molecules +:+ "_" +:+
    nnp_name +:+ "_" +:+ ensemble +:+ "_" +:+ temperature_str in
  let info2 := "Simulation output will be written to " +:+ log_file_name in
  params <- new_parameters
    {| StabilityTestParameters.system := system;
       StabilityTestParameters.platform := platform;
       StabilityTestParameters.testsystem := testsystem;
       StabilityTestParameters.output_folder := output_folder;
       StabilityTestParameters.log_file_name := log_file_name;
       StabilityTestParameters.protocol_length := nr_of_simulation_steps;
       StabilityTestParameters.temperature := temperature;
       StabilityTestParameters.env := "solution";
       StabilityTestParameters.simulated_annealing := annealing;
       StabilityTestParameters.state_data_reporter := reporter;
       StabilityTestParameters.device_index := device_index;
       StabilityTestParameters.ensemble := Some ensemble |} ;;
  PropagationProtocol.perform_stability_test E params ;;
  ret (logged ++ [info1; info2; "Simulation files saved to " +:+ output_folder]).

Definition run_organic_liquid_test (molecule_name : str_or_list)
    (nr_of_molecule : int_or_list) (ensemble nnp nnp_name : string)
    (temperature : Temperature) (reporter : loc) (platform : Platform)
    (output_folder : string) (device_index : Z) (annealing : bool)
    (nr_of_simulation_steps : Z) : M (list string) :=
  let molecule_names :=
    match molecule_name with AStr s => [s] | AStrList l => l end in
  let nr_of_molecules :=
    match nr_of_molecule with AnInt z => [z] | AnIntList l => l end in
  for_each (organic_liquid_run ensemble nnp nnp_name temperature reporter platform
              output_folder device_index annealing nr_of_simulation_steps)
           (combine molecule_names nr_of_molecules) [].

Definition run_alanine_dipeptide_test (nnp nnp_name : string)
    (temperature : Temperature) (reporter : loc) (platform : Platform)
    (output_folder : string) (device_index : Z) (ensemble : option string)
    (annealing : bool) (nr_of_simulation_steps : Z) (env : string)
    : M (list string) :=
  let info1 :=
    "Initiating alanine dipeptide stability test in " +:+ env +:+ " using " +:+
    nnp_name +:+ " potential." in
  opt <- (if String.eqb env "vacuum"
          then ret (SmallMoleculeVacuumOption (Some "ala_dipeptide") None)
          else if String.eqb env "solution"
          then ret (SolvatedSystemOption "ala_dipeptide")
          else raise (RuntimeError ("Invalid environment option: " +:+ env))) ;;
  testsystem <- lift (TestsystemFactory_generate_testsystem F opt) ;;
  system <- lift (SystemFactory_initialize_system F nnp (topology testsystem)) ;;
  let env_str :=
    if String.eqb env "vacuum" then "vacuum"
    else env +:+ "_" +:+ format_optional ensemble in
  let log_file_name :=
    "alanine_dipeptide_" +:+ env_str +:+ "_" +:+ nnp_name +:+ "_" +:+
    format_temperature F temperature +:+ "K" in
  let info2 := "Simulation output will be written to " +:+ log_file_name in
  params <- new_parameters
    {| StabilityTestParameters.system := system;
       StabilityTestParameters.platform := platform;
       StabilityTestParameters.testsystem := testsystem;
       StabilityTestParameters.output_folder := output_folder;
       StabilityTestParameters.log_file_name := log_file_name;
       StabilityTestParameters.protocol_length := nr_of_simulation_steps;
       StabilityTestParameters.temperature := temperature;
       StabilityTestParameters.env := env;
       StabilityTestParameters.simulated_annealing := annealing;
       StabilityTestParameters.state_data_reporter := reporter;
       StabilityTestParameters.device_index := device_index;
       StabilityTestParameters.ensemble := ensemble |} ;;
  PropagationProtocol.perform_stability_test E params ;;
  ret [info1; info2; "Simulation files saved to " +:+ output_folder].

(** [run_DOF_scan]; the [reporter] it is passed is used nowhere. *)
Definition run_DOF_scan (nnp nnp_name : string)
    (DOF_definition : gmap string (list Z)) (platform : Platform)
    (output_folder name : string) (bond_length_max : R)
    : World -> outcome (scan_files * list string) * World :=
  fun w =>
    let info1 :=
      "Initiating DOF scan for " +:+ name +:+ " using " +:+ nnp_name +:+ "." in
    match (testsystem <- lift (TestsystemFactory_generate_testsystem F
                                 (SmallMoleculeVacuumOption (Some name) None)) ;;
           system <- lift (SystemFactory_initialize_system F nnp
                             (topology testsystem)) ;;
           ret (testsystem, system)) w with
    | (Raise e, w') => (Finished (Raise e), w')
    | (Ok (testsystem, system), w') =>
        let log_file_name := "DOF_scan_" +:+ name +:+ "_" +:+ nnp_name in
        match DOF_definition !! "bond", DOF_definition !! "angle",
              DOF_definition !! "torsion" with
        | Some bond, _, _ =>
            match (params <- lift (DOFTestParameters_init F system platform
                                     testsystem output_folder log_file_name
                                     bond_length_max DOF_definition) ;;
                   files <- DOFTest.perform_scan E D params ;;
                   ret (files,
                        [info1;
                         "Performing bond scan with DOF definition: " +:+
                         format_list bond;
                         "Scan results saved to " +:+ output_folder])) w' with
            | (r, w'') => (Finished r, w'')
            end
        | None, Some _, _ =>
            (NotImplementedError "Angle DOF scans are not yet implemented.", w')
        | None, None, Some _ =>
            (NotImplementedError "Torsion DOF scans are not yet implemented.", w')
        | None, None, None =>
            (Finished (Raise (ValueError
               "Unsupported DOF type. Supported types are: 'bond', 'angle', 'torsion'.")),
             w')
        end
    end.

End Runners.

(** ** stability_test/analysis.py: class PropertyCalculator *)

Module PropertyCalculator.

(** What the calculator reads of an mdtraj topology: the bonds, and of
    each atom its index, the name of its residue and its element. *)
Record Atom : Type := {
  index : nat;
  residue_name : string;
  element_symbol : string
}.

Record Bond : Type := {
  atom1 : Atom;
  atom2 : Atom
}.

(** The exceptions of this module. *)
Inductive error : Type :=
| AttributeError (msg : string)
| KeyError (key : string).

Inductive raised (A : Type) : Type :=
| Done (a : A)
| Raised (e : error).
Arguments Done {A} a.
Arguments Raised {A} e.

Definition and_then {A B : Type} (r : raised A) (k : A -> raised B) : raised B :=
  match r with
  | Done a => k a
  | Raised e => Raised e
  end.

(** A [for] loop on the variables it updates. *)
Fixpoint for_loop {A S : Type} (body : S -> A -> raised S) (l : list A) (s : S)
    : raised S :=
  match l with
  | [] => Done s
  | x :: rest => and_then (body s x) (for_loop body rest)
  end.

(** A list comprehension whose element expression can raise. *)
Fixpoint comprehension {A B : Type} (f : A -> raised B) (l : list A)
    : raised (list B) :=
  match l with
  | [] => Done []
  | x :: rest =>
      and_then (f x) (fun y =>
      and_then (comprehension f rest) (fun ys => Done (y :: ys)))
  end.

(** The pairs [monitor_water_bond_length] hands to [monitor_bond_length]. *)
Definition water_bond_list (bonds : list Bond) : list (nat * nat) :=
  flat_map (fun bond =>
              if String.eqb (residue_name (atom1 bond)) "HOH" &&
                 String.eqb (residue_name (atom2 bond)) "HOH"
              then [(index (atom1 bond), index (atom2 bond))]
              else [])
           bonds.

(** The dict [water] after the loop over [[bond_1, bond_2]]: atom indices,
    each mapped to itself. *)
Definition water_of (bond_1 bond_2 : Bond) : gmap nat nat :=
  fold_left (fun water bond =>
               <[index (atom2 bond) := index (atom2 bond)]>
                 (<[index (atom1 bond) := index (atom1 bond)]> water))
            [bond_1; bond_2] ∅.

(** [atom.element.symbol] for [atom] a value of [water]: an int. *)
Definition element_symbol_of_int (atom : nat) : raised string :=
  Raised (AttributeError "'int' object has no attribute 'element'").

(** [water[key]] for a string [key]: the keys of [water] are ints. *)
Definition water_getitem (water : gmap nat nat) (key : string) : raised nat :=
  Raised (KeyError key).

(** The body of the loop over [bond_2]. *)
Definition _extract_angles_inner (bond_1 : Bond) (angle_list : list (list nat))
    (bond_2 : Bond) : raised (list (list nat)) :=
  if negb (String.eqb (residue_name (atom1 bond_2)) "HOH") then Done angle_list
  else
    let water := water_of bond_1 bond_2 in
    if negb (size water =? 3)%nat then Done angle_list
    else
      let tmp_water := map snd (map_to_list water) in
      and_then (comprehension element_symbol_of_int tmp_water)
        (fun tmp_water_elements =>
      and_then (water_getitem water "H") (fun h1 =>
      and_then (water_getitem water "O") (fun o =>
      and_then (water_getitem water "H") (fun h2 =>
      Done (angle_list ++ [[h1; o; h2]]))))).

Definition _extract_angles (bonds : list Bond) : raised (list (list nat)) :=
  for_loop (fun angle_list bond_1 =>
              if negb (String.eqb (residue_name (atom1 bond_1)) "HOH")
              then Done angle_list
              else for_loop (_extract_angles_inner bond_1) bonds angle_list)
           bonds [].

(** [md.compute_angles] is a library function: a parameter. *)
Definition monitor_water_angle {Angles : Type}
    (monitor_angle_length : list (list nat) -> raised Angles) (bonds : list Bond)
    : raised Angles :=
  and_then (_extract_angles bonds) monitor_angle_length.

End PropertyCalculator.

(** ** guardowl/vis.py: class MonitoringPlotter *)

Module MonitoringPlotter.

(** The csv file as pandas reads it: its columns in order, each with its
    name and its values. *)
Definition DataFrame : Type := list (string * list R).

(** The column name [#"Step"], quotes included. *)
Definition Step : string :=
  String "#" (String "034" ("Step" +:+ String "034" EmptyString)).

(** [self.data[key]]; [None] stands for [KeyError]. *)
Fixpoint getitem (data : DataFrame) (key : string) : option (list R) :=
  match data with
  | [] => None
  | (name, values) :: rest =>
      if String.eqb name key then Some values else getitem rest key
  end.

(** [nr_of_frames] as the two nested [try] blocks at the head of
    [generate_summary] leave it. *)
Definition nr_of_frames (data : DataFrame) : Z :=
  match getitem data Step with
  | Some values => Z.of_nat (length values)
  | None =>
      match getitem data "bond distance [A]" with
      | Some values => Z.of_nat (length values)
      | None => -1
      end
  end.

(** [max(int((len(labels) / 3) + 1), 2)], the division and the sum in
    binary64. *)
Definition subplot_rows (labels : list string) : result Z :=
  result_bind
    (Float64.to_int
       (SFadd Float64.prec Float64.emax
          (Float64.div (Float64.of_int (Z.of_nat (length labels))) (Float64.of_int 3))
          (Float64.of_int 1)))
    (fun rows => Ok (Z.max rows 2)).

(** The loop over the labels: the cell [axs[row][column]] each label is
    drawn in, and [row] and [column] after the loop. *)
Fixpoint cells (labels : list string) (row column : Z)
    : list (string * (Z * Z)) * (Z * Z) :=
  match labels with
  | [] => ([], (row, column))
  | l :: rest =>
      let column' := column + 1 in
      let '(plots, final) :=
        if column' >? 2 then cells rest (row + 1) 0 else cells rest row column' in
      ((l, (row, column)) :: plots, final)
  end.

(** The figure of [generate_summary(bonded_scan=False)]: the grid of
    subplots, the cell of each label, and the cell [axs[row][column]] the
    text box is put in after the loop. *)
Record figure : Type := {
  frames : Z;
  grid_rows : Z;
  grid_columns : Z;
  plots : list (string * (Z * Z));
  text_box : Z * Z
}.

Definition summary_figure (data : DataFrame) (labels : list string) : result figure :=
  let nr_of_frames := nr_of_frames data in
  if nr_of_frames >? 0 then
    result_bind (subplot_rows labels) (fun rows =>
    let '(plots, final) := cells labels 0 0 in
    Ok {| frames := nr_of_frames; grid_rows := rows; grid_columns := 3;
          plots := plots; text_box := final |})
  else Raise AssertionError.

End MonitoringPlotter.

(** ** A stub engine and sample inputs

    Concrete values on which the protocols are evaluated below. *)

Module Sample.

(** An engine that leaves the atoms where they are and reports energy 0. *)
Definition engine : Engine :=
  {| potential_energy := fun _ => 0%R;
     minimized := fun sim _ _ => context_positions sim;
     propagated := fun sim _ => context_positions sim |}.

(** Two atoms, one angstrom apart on the x axis. *)
Definition diatomic : TestSystem :=
  {| topology := TopologyHandle 0;
     positions := [(0, 0, 0); (1, 0, 0)]%R |}.

Definition simulation : Simulation :=
  {| sim_system := SystemHandle 0; sim_topology := TopologyHandle 0;
     sim_platform := PlatformHandle 0; sim_env := "vacuum";
     sim_device_index := 0; sim_ensemble := None;
     integrator_temperature := TInt 300;
     context_positions := positions diatomic |}.

Definition dof_parameters : DOFTestParameters.t :=
  {| DOFTestParameters.system := SystemHandle 0;
     DOFTestParameters.platform := PlatformHandle 0;
     DOFTestParameters.testsystem := diatomic;
     DOFTestParameters.output_folder := "out";
     DOFTestParameters.log_file_name := "scan";
     DOFTestParameters.bond := [0; 1];
     DOFTestParameters.bond_length_max := 2 |}.

(** The same scan with no stretch at all. *)
Definition dof_parameters_zero : DOFTestParameters.t :=
  {| DOFTestParameters.system := SystemHandle 0;
     DOFTestParameters.platform := PlatformHandle 0;
     DOFTestParameters.testsystem := diatomic;
     DOFTestParameters.output_folder := "out";
     DOFTestParameters.log_file_name := "scan";
     DOFTestParameters.bond := [0; 1];
     DOFTestParameters.bond_length_max := 0 |}.

(** Stability-test parameters with the given temperature, annealing flag
    and ensemble; the reporter is the object at address 0. *)
Definition stability_parameters (T : Temperature) (annealing : bool)
    (ensemble : option string) : StabilityTestParameters.t :=
  {| StabilityTestParameters.system := SystemHandle 0;
     StabilityTestParameters.platform := PlatformHandle 0;
     StabilityTestParameters.testsystem := diatomic;
     StabilityTestParameters.output_folder := "out";
     StabilityTestParameters.log_file_name := "vacuum_ZINC";
     StabilityTestParameters.protocol_length := 5;
     StabilityTestParameters.temperature := T;
     StabilityTestParameters.env := "vacuum";
     StabilityTestParameters.simulated_annealing := annealing;
     StabilityTestParameters.state_data_reporter := 0%nat;
     StabilityTestParameters.device_index := 0;
     StabilityTestParameters.ensemble := ensemble |}.

Definition state_data_reporter : StateDataReporter :=
  {| _out := None; _step := true; _reportInterval := 1 |}.

(** The world of a caller that holds one parameters object, at address 0,
    and its reporter. *)
Definition world (p : StabilityTestParameters.t) : World :=
  {| parameters_heap := [p]; reporter_heap := [state_data_reporter]; calls := [] |}.

Definition minimization_parameters (annealing : option bool)
    (ensemble : option string) : MinimizationTestParameters.t :=
  {| MinimizationTestParameters.system := SystemHandle 0;
     MinimizationTestParameters.platform := PlatformHandle 0;
     MinimizationTestParameters.testsystem := diatomic;
     MinimizationTestParameters.output_folder := "out";
     MinimizationTestParameters.log_file_name := "min";
     MinimizationTestParameters.convergence_criteria := 1;
     MinimizationTestParameters.temperature := TInt 300;
     MinimizationTestParameters.env := "vacuum";
     MinimizationTestParameters.simulated_annealing := annealing;
     MinimizationTestParameters.device_index := 0;
     MinimizationTestParameters.ensemble := ensemble |}.

(** A toolkit over four SDF files: methane, a chain of 30 carbons, a file
    no molecule can be generated from, and a molecule whose topology
    cannot be built. *)
Definition toolkit : Toolkit :=
  {| generate_molecule_from_sdf := fun sdf_file =>
       if String.eqb sdf_file "methane.sdf" then Some [6; 1; 1; 1; 1]
       else if String.eqb sdf_file "c30.sdf" then Some (replicate 30 6)
       else if String.eqb sdf_file "odd.sdf" then Some [6; 8]
       else None;
     generate_testsystem := fun sdf_file =>
       if String.eqb sdf_file "odd.sdf"
       then Raise (ValueError "no topology")
       else Ok diatomic;
     initialize_system := fun _ _ => SystemHandle 0;
     _IMPLEMENTED_ELEMENTS := [1; 6; 7; 8; 9; 16; 17];
     rmsd := fun _ _ => 0%R;
     default_convergence_criteria := 1;
     default_temperature := TInt 300;
     default_env := "vacuum";
     default_simulated_annealing := None;
     default_device_index := 0;
     default_ensemble := Some "nvt" |}.

Definition item (start_file : string) : entry :=
  {| minimized_file := start_file;
     minimized_position := positions diatomic;
     start_file := start_file;
     start_position := positions diatomic |}.

Definition empty_world : World :=
  {| parameters_heap := []; reporter_heap := []; calls := [] |}.

End Sample.

(** ** Sample factories for the scenario runners *)

Module Scenario.

Definition defaults : CreateSimulationDefaults :=
  {| create_device_index := 0; create_ensemble := None |}.

(** Factories that build the diatomic for every option but a molecule
    named [unobtainium], and parameters for a bond scan. *)
Definition factories : Factories :=
  {| TestsystemFactory_generate_testsystem := fun opt =>
       match opt with
       | SmallMoleculeVacuumOption (Some name) _ =>
           if String.eqb name "unobtainium"
           then Raise (RuntimeError "no such molecule")
           else Ok Sample.diatomic
       | _ => Ok Sample.diatomic
       end;
     SystemFactory_initialize_system := fun _ _ => Ok (SystemHandle 0);
     format_float := fun _ => "300.0";
     DOFTestParameters_init := fun system platform testsystem output_folder
                                   log_file_name bond_length_max definition =>
       match definition !! "bond" with
       | Some bond =>
           Ok {| DOFTestParameters.system := system;
                 DOFTestParameters.platform := platform;
                 DOFTestParameters.testsystem := testsystem;
                 DOFTestParameters.output_folder := output_folder;
                 DOFTestParameters.log_file_name := log_file_name;
                 DOFTestParameters.bond := bond;
                 DOFTestParameters.bond_length_max := bond_length_max |}
       | None => Raise TypeError
       end |}.

(** A caller that holds a reporter, at address 0, and no parameters. *)
Definition world : World :=
  {| parameters_heap := []; reporter_heap := [Sample.state_data_reporter];
     calls := [] |}.

End Scenario.

(** * Properties *)

(** ** Running the monad *)

Definition add_calls (w : World) (cs : list call) : World :=
  {| parameters_heap := parameters_heap w;
     reporter_heap := reporter_heap w;
     calls := calls w ++ cs |}.

Lemma add_calls_nil (w : World) : add_calls w [] = w.
Proof. destruct w; unfold add_calls; simpl. by rewrite app_nil_r. Qed.

Lemma add_calls_app (w : World) (a b : list call) :
  add_calls (add_calls w a) b = add_calls w (a ++ b).
Proof. unfold add_calls; simpl. by rewrite app_assoc. Qed.

Lemma emit_run (c : call) (w : World) : emit c w = (Ok tt, add_calls w [c]).
Proof. reflexivity. Qed.

Lemma bind_ok {A B : Type} (m : M A) (k : A -> M B) (w w' : World) (a : A) :
  m w = (Ok a, w') -> bind m k w = k a w'.
Proof. intros H. unfold bind. by rewrite H. Qed.

Lemma bind_raise {A B : Type} (m : M A) (k : A -> M B) (w w' : World) (e : exn) :
  m w = (Raise e, w') -> bind m k w = (Raise e, w').
Proof. intros H. unfold bind. by rewrite H. Qed.

Lemma bind_ret {A B : Type} (a : A) (k : A -> M B) (w : World) :
  bind (ret a) k w = k a w.
Proof. reflexivity. Qed.

Lemma bind_emit {B : Type} (c : call) (k : unit -> M B) (w : World) :
  bind (emit c) k w = k tt (add_calls w [c]).
Proof. reflexivity. Qed.

(** One step of symbolic execution: the first computation of a [bind]
    runs as the lemma [L] says. *)
Ltac mstep L := erewrite bind_ok by (apply L); cbv beta.

Lemma create_simulation_run (s : System) (t : Topology) (p : Platform)
    (T : Temperature) (env : string) (d : Z) (e : option string) (w : World) :
  SimulationFactory_create_simulation s t p T env d e w =
  (Ok {| sim_system := s; sim_topology := t; sim_platform := p; sim_env := env;
         sim_device_index := d; sim_ensemble := e;
         integrator_temperature := T; context_positions := [] |},
   add_calls w [create_simulation s t p T env d e]).
Proof. reflexivity. Qed.

Lemma setPositions_run (sim : Simulation) (p : list vec3) (w : World) :
  context_setPositions sim p w = (Ok (with_positions sim p), add_calls w [setPositions p]).
Proof. reflexivity. Qed.

Lemma minimizeEnergy_run (E : Engine) (sim : Simulation) (tol : R) (n : Z) (w : World) :
  sim_minimizeEnergy E sim tol n w =
  (Ok (with_positions sim (minimized E sim tol n)), add_calls w [minimizeEnergy tol n]).
Proof. reflexivity. Qed.

Lemma step_run (E : Engine) (sim : Simulation) (n : Z) (w : World) :
  sim_step E sim n w =
  (Ok (with_positions sim (propagated E sim n)), add_calls w [step n]).
Proof. reflexivity. Qed.

Lemma setTemperature_run (sim : Simulation) (t : R) (w : World) :
  integrator_setTemperature sim t w =
  (Ok (with_temperature sim (TFloat t)), add_calls w [setTemperature t]).
Proof. reflexivity. Qed.

Lemma getState_run (E : Engine) (sim : Simulation) (w : World) :
  context_getState E sim true true w =
  (Ok {| getPositions := Some (context_positions sim);
         getPotentialEnergy := Some (potential_energy E sim) |},
   add_calls w [getState true true]).
Proof. reflexivity. Qed.

Lemma writeFile_run (t : Topology) (p : list vec3) (path : string) (w : World) :
  PDBFile_writeFile t p path w = (Ok tt, add_calls w [open_w path; writeFile path t p]).
Proof. unfold PDBFile_writeFile. rewrite !bind_emit, emit_run, add_calls_app. reflexivity. Qed.

(** ** Python indexing *)

Lemma getitem_ok {A : Type} (l : list A) (i : Z) (k : nat) (x : A) :
  py_index (length l) i = Ok k -> l !! k = Some x -> getitem l i = Ok x.
Proof. intros Hi Hk. unfold getitem. rewrite Hi. simpl. by rewrite Hk. Qed.

Lemma setitem_ok {A : Type} (l : list A) (i : Z) (k : nat) (x : A) :
  py_index (length l) i = Ok k -> setitem l i x = Ok (<[k := x]> l).
Proof. intros Hi. unfold setitem. by rewrite Hi. Qed.

(** ** linspace *)

Lemma lookup_map {A B : Type} (f : A -> B) (l : list A) (i : nat) :
  map f l !! i = option_map f (l !! i).
Proof.
  revert i. induction l as [|x l IH]; intros [|i]; simpl; try reflexivity. apply IH.
Qed.

Lemma linspace_length (a b : R) (n : nat) : length (linspace a b n) = n.
Proof.
  unfold linspace. destruct (1 <? n)%nat;
    rewrite ?length_insert, length_map, length_seq; reflexivity.
Qed.

(** Sample [i] of [n >= 2] is [i * step + start], the last one included. *)
Lemma linspace_lookup (a b : R) (n i : nat) :
  (2 <= n)%nat -> (i < n)%nat ->
  linspace a b n !! i = Some (INR i * ((b - a) / INR (n - 1)) + a)%R.
Proof.
  intros Hn Hi. unfold linspace.
  assert (Hlt : (1 <? n)%nat = true) by (apply Nat.ltb_lt; lia).
  rewrite Hlt.
  destruct (decide (i = (n - 1)%nat)) as [->|Hne].
  - rewrite list_lookup_insert_eq by (rewrite length_map, length_seq; lia).
    f_equal. field. apply not_0_INR. lia.
  - rewrite list_lookup_insert_ne by congruence.
    rewrite lookup_map, lookup_seq_lt by lia. reflexivity.
Qed.

Lemma linspace_monotone (a b : R) (n i j : nat) (x y : R) :
  (a <= b)%R -> (i <= j)%nat ->
  linspace a b n !! i = Some x -> linspace a b n !! j = Some y -> (x <= y)%R.
Proof.
  intros Hab Hij Hx Hy.
  assert (Hj : (j < n)%nat).
  { apply lookup_lt_Some in Hy. by rewrite linspace_length in Hy. }
  destruct (decide (2 <= n)%nat) as [Hn|Hn].
  - rewrite linspace_lookup in Hx, Hy by lia.
    injection Hx as <-. injection Hy as <-.
    apply Rplus_le_compat_r, Rmult_le_compat_r.
    + apply Rmult_le_pos; [lra|].
      apply Rlt_le, Rinv_0_lt_compat, lt_0_INR. lia.
    + by apply le_INR.
  - assert (i = j) as -> by lia. rewrite Hx in Hy. injection Hy as ->. lra.
Qed.

Lemma linspace_zero (n : nat) : linspace 0 0 n = replicate n 0%R.
Proof.
  apply list_eq. intros i.
  destruct (decide (i < n)%nat) as [Hi|Hi].
  - rewrite lookup_replicate_2 by exact Hi.
    destruct (decide (2 <= n)%nat) as [Hn|Hn].
    + rewrite linspace_lookup by lia. f_equal. unfold Rdiv. ring.
    + assert (n = 1%nat) as -> by lia. assert (i = 0%nat) as -> by lia.
      unfold linspace. simpl. f_equal. unfold Rdiv. ring.
  - rewrite !lookup_ge_None_2; [done| |].
    + rewrite length_replicate. lia.
    + rewrite linspace_length. lia.
Qed.

(** ** The bond scan *)

(** The geometry the spec describes for the sample length [L]: the atom at
    [k2] placed at [p1 + u * L], with [u] the unit vector from [p1] to
    [p2], and every other atom where it was. *)
Definition repositioned (initial_pos : list vec3) (k2 : nat) (p1 p2 : vec3) (L : R)
    : list vec3 :=
  <[k2 := vadd p1 (vscale (vdiv (vsub p2 p1) (norm (vsub p2 p1))) L)]> initial_pos.

Lemma set_bond_length_ok (pos : list vec3) (atom1 atom2 : Z) (k1 k2 : nat)
    (p1 p2 : vec3) (L : R) :
  py_index (length pos) atom1 = Ok k1 -> py_index (length pos) atom2 = Ok k2 ->
  pos !! k1 = Some p1 -> pos !! k2 = Some p2 ->
  BondProfileProtocol.set_bond_length pos atom1 atom2 L = Ok (repositioned pos k2 p1 p2 L).
Proof.
  intros H1 H2 Hp1 Hp2. unfold BondProfileProtocol.set_bond_length.
  rewrite (getitem_ok pos atom2 k2 p2 H2 Hp2), (getitem_ok pos atom1 k1 p1 H1 Hp1).
  simpl. by rewrite (setitem_ok pos atom2 k2 _ H2).
Qed.

(** The calls of one sample. *)
Definition sample_calls (geometry : R -> list vec3) (L : R) : list call :=
  [setPositions (geometry L); getState true true].

Lemma scan_sample_run (E : Engine) (pos : list vec3) (atom1 atom2 : Z) (k1 k2 : nat)
    (p1 p2 : vec3) (sim : Simulation) (prof : BondProfileProtocol.profile)
    (L : R) (w : World) :
  py_index (length pos) atom1 = Ok k1 -> py_index (length pos) atom2 = Ok k2 ->
  pos !! k1 = Some p1 -> pos !! k2 = Some p2 ->
  BondProfileProtocol.scan_sample E pos atom1 atom2 (sim, prof) L w =
  (Ok (with_positions sim (repositioned pos k2 p1 p2 L),
       {| BondProfileProtocol.potential_energy_list :=
            BondProfileProtocol.potential_energy_list prof ++
            [potential_energy E (with_positions sim (repositioned pos k2 p1 p2 L))];
          BondProfileProtocol.conformations :=
            BondProfileProtocol.conformations prof ++ [repositioned pos k2 p1 p2 L];
          BondProfileProtocol.bond_length :=
            BondProfileProtocol.bond_length prof ++ [L] |}),
   add_calls w (sample_calls (repositioned pos k2 p1 p2) L)).
Proof.
  intros H1 H2 Hp1 Hp2. unfold BondProfileProtocol.scan_sample, bind, lift.
  rewrite (set_bond_length_ok pos atom1 atom2 k1 k2 p1 p2 L H1 H2 Hp1 Hp2).
  unfold add_calls. simpl. by rewrite <- app_assoc.
Qed.

Lemma scan_loop_run (E : Engine) (pos : list vec3) (atom1 atom2 : Z) (k1 k2 : nat)
    (p1 p2 : vec3) :
  py_index (length pos) atom1 = Ok k1 -> py_index (length pos) atom2 = Ok k2 ->
  pos !! k1 = Some p1 -> pos !! k2 = Some p2 ->
  forall (lengths : list R) (sim : Simulation) (prof : BondProfileProtocol.profile)
         (w : World),
  exists sim' : Simulation,
    for_each (BondProfileProtocol.scan_sample E pos atom1 atom2) lengths (sim, prof) w =
    (Ok (sim',
         {| BondProfileProtocol.potential_energy_list :=
              BondProfileProtocol.potential_energy_list prof ++
              map (fun L => potential_energy E
                              (with_positions sim (repositioned pos k2 p1 p2 L)))
                  lengths;
            BondProfileProtocol.conformations :=
              BondProfileProtocol.conformations prof ++
              map (repositioned pos k2 p1 p2) lengths;
            BondProfileProtocol.bond_length :=
              BondProfileProtocol.bond_length prof ++ lengths |}),
     add_calls w (flat_map (sample_calls (repositioned pos k2 p1 p2)) lengths)).
Proof.
  intros H1 H2 Hp1 Hp2. induction lengths as [|L lengths IH]; intros sim prof w.
  - exists sim. simpl. rewrite !app_nil_r, add_calls_nil. by destruct prof.
  - simpl for_each.
    erewrite bind_ok by (by eapply scan_sample_run).
    destruct (IH (with_positions sim (repositioned pos k2 p1 p2 L))
                 {| BondProfileProtocol.potential_energy_list :=
                      BondProfileProtocol.potential_energy_list prof ++
                      [potential_energy E
                         (with_positions sim (repositioned pos k2 p1 p2 L))];
                    BondProfileProtocol.conformations :=
                      BondProfileProtocol.conformations prof ++
                      [repositioned pos k2 p1 p2 L];
                    BondProfileProtocol.bond_length :=
                      BondProfileProtocol.bond_length prof ++ [L] |}
                 (add_calls w (sample_calls (repositioned pos k2 p1 p2) L)))
      as [sim' Hrun].
    exists sim'. rewrite Hrun. simpl.
    rewrite add_calls_app, <- !app_assoc. reflexivity.
Qed.

(** C1.  A bond scan over the atoms [atom1], [atom2], two atoms at distinct
    positions, with maximum stretch [M] evaluates 100 samples, at the lengths [i * (M / 99)] for
    [i = 0 .. 99], which run from 0 to [M] and, for [0 <= M], never
    decrease.  Each sample is one [setPositions] followed by one [getState]:
    the geometry set has the second atom at
    [position[atom1] + u * L], with [u] the unit vector between the two
    atoms in the original geometry, and every other atom at its original
    coordinates.  The scan calls neither [minimizeEnergy] nor [step]. *)
Theorem bond_scan_samples (E : Engine) (sim : Simulation)
    (parameters : DOFTestParameters.t) (atom1 atom2 : Z) (k1 k2 : nat)
    (p1 p2 : vec3) (w : World) :
  let initial_pos := positions (DOFTestParameters.testsystem parameters) in
  let max_stretch := DOFTestParameters.bond_length_max parameters in
  let lengths := linspace 0 max_stretch 100 in
  let u := vdiv (vsub p2 p1) (norm (vsub p2 p1)) in
  DOFTestParameters.bond parameters = [atom1; atom2] ->
  py_index (length initial_pos) atom1 = Ok k1 ->
  py_index (length initial_pos) atom2 = Ok k2 ->
  initial_pos !! k1 = Some p1 ->
  initial_pos !! k2 = Some p2 ->
  norm (vsub p2 p1) <> 0%R ->
  exists (prof : BondProfileProtocol.profile) (w' : World)
         (geometry : R -> list vec3),
    BondProfileProtocol.perform_DOF_scan E sim parameters w = (Ok prof, w') /\
    BondProfileProtocol.bond_length prof = lengths /\
    length lengths = 100%nat /\
    (forall i : nat, (i < 100)%nat ->
       lengths !! i = Some (INR i * (max_stretch / 99))%R) /\
    lengths !! 0%nat = Some 0%R /\
    lengths !! 99%nat = Some max_stretch /\
    ((0 <= max_stretch)%R ->
     forall (i j : nat) (x y : R), (i <= j)%nat ->
       lengths !! i = Some x -> lengths !! j = Some y -> (x <= y)%R) /\
    calls w' = calls w ++ flat_map (sample_calls geometry) lengths /\
    BondProfileProtocol.conformations prof = map geometry lengths /\
    (forall L : R,
       geometry L !! k2 = Some (vadd p1 (vscale u L)) /\
       length (geometry L) = length initial_pos /\
       forall j : nat, j <> k2 -> geometry L !! j = initial_pos !! j) /\
    (forall c : call, In c (flat_map (sample_calls geometry) lengths) ->
       (forall t n, c <> minimizeEnergy t n) /\ (forall n, c <> step n)).
Proof.
  intros initial_pos max_stretch lengths u Hbond H1 H2 Hp1 Hp2 Hdistinct.
  destruct (scan_loop_run E initial_pos atom1 atom2 k1 k2 p1 p2 H1 H2 Hp1 Hp2
              lengths sim
              {| BondProfileProtocol.potential_energy_list := [];
                 BondProfileProtocol.conformations := [];
                 BondProfileProtocol.bond_length := [] |} w) as [sim' Hrun].
  assert (Hlookup : forall i : nat, (i < 100)%nat ->
            lengths !! i = Some (INR i * (max_stretch / 99))%R).
  { intros i Hi. unfold lengths. rewrite linspace_lookup by lia.
    f_equal. simpl. field. }
  eexists _, _, (repositioned initial_pos k2 p1 p2).
  split; [|split; [|split; [|split; [|split; [|split; [|split;
    [|split; [|split; [|split]]]]]]]]].
  - unfold BondProfileProtocol.perform_DOF_scan. rewrite Hbond.
    fold initial_pos max_stretch lengths. unfold bind. rewrite Hrun. reflexivity.
  - reflexivity.
  - apply linspace_length.
  - exact Hlookup.
  - rewrite Hlookup by lia. f_equal. simpl. lra.
  - rewrite Hlookup by lia. f_equal. simpl. lra.
  - intros HM i j x y. by apply linspace_monotone.
  - reflexivity.
  - reflexivity.
  - intros L. unfold repositioned. split; [|split].
    + apply list_lookup_insert_eq. by apply lookup_lt_Some in Hp2.
    + apply length_insert.
    + intros j Hj. by apply list_lookup_insert_ne.
  - intros c Hc. apply in_flat_map in Hc as [L [_ Hc]].
    unfold sample_calls in Hc. simpl in Hc.
    destruct Hc as [<-|[<-|[]]]; split; intros; discriminate.
Qed.

Lemma bond_scan_samples_witness :
  exists (prof : BondProfileProtocol.profile) (w' : World),
    BondProfileProtocol.perform_DOF_scan Sample.engine Sample.simulation
      Sample.dof_parameters Sample.empty_world = (Ok prof, w') /\
    length (BondProfileProtocol.bond_length prof) = 100%nat.
Proof.
  assert (Hnorm : norm (vsub (1, 0, 0)%R (0, 0, 0)%R) <> 0%R).
  { unfold norm, vsub.
    replace ((1 - 0) * (1 - 0) + (0 - 0) * (0 - 0) + (0 - 0) * (0 - 0))%R
      with 1%R by ring.
    rewrite sqrt_1. lra. }
  destruct (bond_scan_samples Sample.engine Sample.simulation Sample.dof_parameters
              0 1 0%nat 1%nat (0, 0, 0)%R (1, 0, 0)%R Sample.empty_world
              eq_refl eq_refl eq_refl eq_refl eq_refl Hnorm)
    as (prof & w' & geometry & Hrun & Hlen & Hn & _).
  exists prof, w'. split; [exact Hrun|]. rewrite Hlen. exact Hn.
Defined.

Lemma map_replicate {A B : Type} (f : A -> B) (n : nat) (x : A) :
  map f (replicate n x) = replicate n (f x).
Proof. induction n as [|n IH]; simpl; [reflexivity | by rewrite IH]. Qed.

Lemma repositioned_zero (pos : list vec3) (k2 : nat) (p1 p2 : vec3) :
  repositioned pos k2 p1 p2 0 = <[k2 := p1]> pos.
Proof.
  unfold repositioned. f_equal.
  destruct p1 as [[x1 y1] z1], p2 as [[x2 y2] z2]. simpl.
  f_equal; [f_equal|]; ring.
Qed.

(** C9, as the spec states it, fails: on two atoms one angstrom apart the
    sample of length 0 puts the second atom on the first one, not on its
    own original coordinate. *)
Lemma zero_length_moves_second_atom :
  exists new : list vec3,
    BondProfileProtocol.set_bond_length (positions Sample.diatomic) 0 1 0 = Ok new /\
    new !! 1%nat = Some (0, 0, 0)%R /\
    positions Sample.diatomic !! 1%nat = Some (1, 0, 0)%R /\
    (0, 0, 0)%R <> (1, 0, 0)%R.
Proof.
  exists (<[1%nat := (0, 0, 0)%R]> (positions Sample.diatomic)).
  split; [|split; [|split]].
  - rewrite (set_bond_length_ok (positions Sample.diatomic) 0 1 0%nat 1%nat
               (0, 0, 0)%R (1, 0, 0)%R 0 eq_refl eq_refl eq_refl eq_refl).
    by rewrite repositioned_zero.
  - reflexivity.
  - reflexivity.
  - intros [= H]. lra.
Qed.

(** C9, amended.  At the sample length 0 the second bond atom is placed on
    the first atom's original coordinate, all other atoms staying where
    they were; a scan with [bond_length_max = 0] has 100 samples, all of
    length 0 and all with that geometry.  That the two atoms are apart is
    what makes the direction [diff / |diff|] a number in the source, where
    numpy computes [nan] for [0 / 0]; in exact arithmetic the conclusion
    does not depend on it. *)
Theorem zero_length_places_atom2_on_atom1 (E : Engine) (sim : Simulation)
    (parameters : DOFTestParameters.t) (atom1 atom2 : Z) (k1 k2 : nat)
    (p1 p2 : vec3) (w : World) :
  let initial_pos := positions (DOFTestParameters.testsystem parameters) in
  DOFTestParameters.bond parameters = [atom1; atom2] ->
  py_index (length initial_pos) atom1 = Ok k1 ->
  py_index (length initial_pos) atom2 = Ok k2 ->
  initial_pos !! k1 = Some p1 ->
  initial_pos !! k2 = Some p2 ->
  norm (vsub p2 p1) <> 0%R ->
  (exists new : list vec3,
     BondProfileProtocol.set_bond_length initial_pos atom1 atom2 0 = Ok new /\
     new !! k2 = Some p1 /\
     forall j : nat, j <> k2 -> new !! j = initial_pos !! j) /\
  (DOFTestParameters.bond_length_max parameters = 0%R ->
   exists (prof : BondProfileProtocol.profile) (w' : World),
     BondProfileProtocol.perform_DOF_scan E sim parameters w = (Ok prof, w') /\
     BondProfileProtocol.bond_length prof = replicate 100 0%R /\
     BondProfileProtocol.conformations prof =
       replicate 100 (<[k2 := p1]> initial_pos) /\
     calls w' = calls w ++
       flat_map (fun _ : R => [setPositions (<[k2 := p1]> initial_pos);
                               getState true true])
                (replicate 100 0%R)).
Proof.
  intros initial_pos Hbond H1 H2 Hp1 Hp2 _. split.
  - exists (<[k2 := p1]> initial_pos). split; [|split].
    + rewrite (set_bond_length_ok initial_pos atom1 atom2 k1 k2 p1 p2 0 H1 H2 Hp1 Hp2).
      by rewrite repositioned_zero.
    + apply list_lookup_insert_eq. by apply lookup_lt_Some in Hp2.
    + intros j Hj. by apply list_lookup_insert_ne.
  - intros HM.
    destruct (scan_loop_run E initial_pos atom1 atom2 k1 k2 p1 p2 H1 H2 Hp1 Hp2
                (replicate 100 0%R) sim
                {| BondProfileProtocol.potential_energy_list := [];
                   BondProfileProtocol.conformations := [];
                   BondProfileProtocol.bond_length := [] |} w) as [sim' Hrun].
    eexists _, _. split; [|split; [|split]].
    + unfold BondProfileProtocol.perform_DOF_scan. rewrite Hbond, HM, linspace_zero.
      fold initial_pos. unfold bind. rewrite Hrun. reflexivity.
    + reflexivity.
    + cbn [BondProfileProtocol.conformations snd app].
      by rewrite map_replicate, repositioned_zero.
    + cbn [calls add_calls snd]. f_equal.
      generalize 100%nat. intros n.
      induction n as [|n IH]; [reflexivity|].
      cbn [replicate flat_map sample_calls app]. rewrite IH.
      by rewrite repositioned_zero.
Qed.

Lemma zero_length_places_atom2_on_atom1_witness :
  exists new : list vec3,
    BondProfileProtocol.set_bond_length (positions Sample.diatomic) 0 1 0 = Ok new /\
    new !! 1%nat = Some (0, 0, 0)%R.
Proof.
  assert (Hnorm : norm (vsub (1, 0, 0)%R (0, 0, 0)%R) <> 0%R).
  { unfold norm, vsub.
    replace ((1 - 0) * (1 - 0) + (0 - 0) * (0 - 0) + (0 - 0) * (0 - 0))%R
      with 1%R by ring.
    rewrite sqrt_1. lra. }
  destruct (zero_length_places_atom2_on_atom1 Sample.engine Sample.simulation
              Sample.dof_parameters_zero 0 1 0%nat 1%nat (0, 0, 0)%R (1, 0, 0)%R
              Sample.empty_world eq_refl eq_refl eq_refl eq_refl eq_refl Hnorm)
    as [(new & Hset & Hk2 & _) _].
  exists new. split; [exact Hset | exact Hk2].
Defined.

(** ** Setting up a simulation *)

Definition scalar_temperature (T : Temperature) : option R :=
  match T with
  | TInt z => Some (IZR z)
  | TFloat x => Some x
  | TList _ => None
  end.

(** The calls of an annealing ramp over the stage temperatures [temps]. *)
Definition annealing_calls (temps : list R) : list call :=
  flat_map (fun t => [step 100; setTemperature t]) temps.

Section Setup.
Context (E : Engine) {P : Type} `{TestParameters P}.

(** The annealing requests that do not get through the ramp: under
    ["npt"], and with a list of temperatures. *)
Definition annealing_fails (parameters : P) : bool :=
  getattr_simulated_annealing parameters &&
  (bool_decide (ensemble parameters = Some "npt") ||
   match temperature parameters with TList _ => true | _ => false end).

Definition ramp_calls (parameters : P) : list call :=
  if getattr_simulated_annealing parameters
  then match scalar_temperature (temperature parameters) with
       | Some T => annealing_calls (linspace 0 T 10)
       | None => []
       end
  else [].

(** The calls of [_setup_simulation] when it returns. *)
Definition setup_calls (parameters : P) (tolerance : R) (minimize : bool) : list call :=
  [create_simulation (system parameters) (topology (testsystem parameters))
     (platform parameters) (temperature parameters) (env parameters)
     (device_index parameters) (ensemble parameters);
   setPositions (positions (testsystem parameters))] ++
  (if minimize then [minimizeEnergy tolerance 1000] else []) ++
  ramp_calls parameters.

Lemma annealing_stage_ok (parameters : P) (sim : Simulation) (t : R) (w : World) :
  ensemble parameters <> Some "npt" ->
  StabilityTest.annealing_stage E parameters sim (Some t) w =
  (Ok (with_temperature (with_positions sim (propagated E sim 100)) (TFloat t)),
   add_calls w [step 100; setTemperature t]).
Proof.
  intros Hnpt. unfold StabilityTest.annealing_stage.
  rewrite bool_decide_eq_false_2 by exact Hnpt.
  mstep step_run. mstep setTemperature_run. by rewrite add_calls_app.
Qed.

Lemma annealing_loop_ok (parameters : P) (temps : list R) :
  ensemble parameters <> Some "npt" ->
  forall sim : Simulation, exists sim' : Simulation, forall w : World,
    for_each (StabilityTest.annealing_stage E parameters) (map Some temps) sim w =
    (Ok sim', add_calls w (annealing_calls temps)).
Proof.
  intros Hnpt. induction temps as [|t temps IH]; intros sim.
  - exists sim. intros w. simpl. by rewrite add_calls_nil.
  - destruct (IH (with_temperature (with_positions sim (propagated E sim 100))
                                   (TFloat t))) as [sim' Hloop].
    exists sim'. intros w. simpl for_each.
    erewrite bind_ok by (by apply annealing_stage_ok).
    rewrite Hloop, add_calls_app. reflexivity.
Qed.

Lemma annealing_fails_false (parameters : P) :
  annealing_fails parameters = false ->
  getattr_simulated_annealing parameters = true ->
  ensemble parameters <> Some "npt" /\
  exists T : R,
    scalar_temperature (temperature parameters) = Some T /\
    StabilityTest.annealing_temperatures (temperature parameters) =
      map Some (linspace 0 T 10).
Proof.
  unfold annealing_fails. intros Hf Ha. rewrite Ha in Hf. simpl in Hf.
  apply orb_false_elim in Hf as [Hnpt HT].
  apply bool_decide_eq_false in Hnpt. split; [exact Hnpt|].
  destruct (temperature parameters) as [z|x|l]; [eexists; eauto..|discriminate].
Qed.

(** Unless the annealing request fails, [_setup_simulation] returns a
    simulation after the calls [setup_calls]. *)
Lemma setup_simulation_ok (parameters : P) (tolerance : R) (minimize : bool) :
  annealing_fails parameters = false ->
  exists sim : Simulation, forall w : World,
    StabilityTest._setup_simulation E parameters tolerance minimize w =
    (Ok sim, add_calls w (setup_calls parameters tolerance minimize)).
Proof.
  intros Hf.
  assert (Hramp : forall sim0 : Simulation, exists sim : Simulation, forall w : World,
            (if getattr_simulated_annealing parameters
             then for_each (StabilityTest.annealing_stage E parameters)
                    (StabilityTest.annealing_temperatures (temperature parameters)) sim0
             else ret sim0) w = (Ok sim, add_calls w (ramp_calls parameters))).
  { intros sim0. unfold ramp_calls.
    destruct (getattr_simulated_annealing parameters) eqn:Ha.
    - destruct (annealing_fails_false parameters Hf Ha) as (Hnpt & T & HT & Htemps).
      rewrite HT, Htemps. by apply annealing_loop_ok.
    - exists sim0. intros w. by rewrite add_calls_nil. }
  unfold setup_calls. destruct minimize.
  - edestruct Hramp as [sim Hsim]. exists sim. intros w.
    unfold StabilityTest._setup_simulation.
    mstep create_simulation_run. mstep setPositions_run. mstep minimizeEnergy_run.
    rewrite Hsim, !add_calls_app. reflexivity.
  - edestruct Hramp as [sim Hsim]. exists sim. intros w.
    unfold StabilityTest._setup_simulation.
    mstep create_simulation_run. mstep setPositions_run. rewrite bind_ret.
    rewrite Hsim, !add_calls_app. reflexivity.
Qed.

End Setup.

(** ** Running a simulation *)

(** The calls of [_run_simulation]. *)
Definition run_calls (parameters : StabilityTestParameters.t) (reportInterval : Z)
    : list call :=
  let output_file_name :=
    StabilityTestParameters.output_folder parameters +:+ "/" +:+
    StabilityTestParameters.log_file_name parameters in
  [mkdir (StabilityTestParameters.output_folder parameters);
   open_w (output_file_name +:+ ".pdb");
   writeFile (output_file_name +:+ ".pdb")
     (topology (StabilityTestParameters.testsystem parameters))
     (positions (StabilityTestParameters.testsystem parameters));
   open_w (output_file_name +:+ ".csv");
   reporters_append (DCDReporter (output_file_name +:+ ".dcd") reportInterval);
   reporters_append
     (StateDataReporterAt (StabilityTestParameters.state_data_reporter parameters));
   reporters_append
     (ContinuousProgressReporter 100
        (StabilityTestParameters.protocol_length parameters));
   step (StabilityTestParameters.protocol_length parameters)].

(** The reporter after a run: it writes to the run's csv file. *)
Definition redirected (rep : StateDataReporter)
    (parameters : StabilityTestParameters.t) : StateDataReporter :=
  {| _out := Some ((StabilityTestParameters.output_folder parameters +:+ "/" +:+
                    StabilityTestParameters.log_file_name parameters) +:+ ".csv");
     _step := true;
     _reportInterval := _reportInterval rep |}.

Lemma run_simulation_ok (E : Engine) (parameters : StabilityTestParameters.t)
    (sim : Simulation) (rep : StateDataReporter) (w : World) :
  reporter_heap w !! StabilityTestParameters.state_data_reporter parameters = Some rep ->
  StabilityTest._run_simulation E parameters sim w =
  (Ok tt,
   {| parameters_heap := parameters_heap w;
      reporter_heap :=
        <[StabilityTestParameters.state_data_reporter parameters :=
            redirected rep parameters]> (reporter_heap w);
      calls := calls w ++ run_calls parameters (_reportInterval rep) |}).
Proof.
  intros Hrep. pose proof (lookup_lt_Some _ _ _ Hrep) as Hlt.
  unfold StabilityTest._run_simulation, run_calls, redirected.
  rewrite bind_emit. mstep writeFile_run. rewrite bind_emit.
  unfold bind, read_reporter, write_reporter. cbn [reporter_heap add_calls].
  rewrite Hrep. cbn [reporter_heap]. rewrite list_lookup_insert_eq by exact Hlt.
  destruct (_step rep) eqn:Hstep; cbn [negb reporter_heap ret _step _out _reportInterval];
    rewrite ?list_lookup_insert_eq by (rewrite ?length_insert; exact Hlt);
    unfold sim_step, bind, ret, emit, add_calls;
    cbn [_reportInterval calls parameters_heap reporter_heap];
    rewrite ?list_insert_insert_eq, <- ?app_assoc; reflexivity.
Qed.

(** ** What leaves the parameter objects alone *)

Definition keeps_parameters {A : Type} (m : M A) : Prop :=
  forall w : World, parameters_heap (snd (m w)) = parameters_heap w.

Lemma keeps_ret {A : Type} (a : A) : keeps_parameters (ret a).
Proof. intros w. reflexivity. Qed.

Lemma keeps_raise {A : Type} (e : exn) : keeps_parameters (@raise A e).
Proof. intros w. reflexivity. Qed.

Lemma keeps_lift {A : Type} (r : result A) : keeps_parameters (lift r).
Proof. intros w. reflexivity. Qed.

Lemma keeps_emit (c : call) : keeps_parameters (emit c).
Proof. intros w. reflexivity. Qed.

Lemma keeps_read_reporter (l : loc) : keeps_parameters (read_reporter l).
Proof. intros w. unfold read_reporter. by destruct (reporter_heap w !! l). Qed.

Lemma keeps_write_reporter (l : loc) (r : StateDataReporter) :
  keeps_parameters (write_reporter l r).
Proof. intros w. reflexivity. Qed.

Lemma keeps_bind {A B : Type} (m : M A) (k : A -> M B) :
  keeps_parameters m -> (forall a : A, keeps_parameters (k a)) ->
  keeps_parameters (bind m k).
Proof.
  intros Hm Hk w. unfold bind. specialize (Hm w).
  destruct (m w) as [[a|e] w']; simpl in *; [|exact Hm].
  by rewrite Hk.
Qed.

Lemma keeps_for_each {A S : Type} (body : S -> A -> M S) (l : list A) (s : S) :
  (forall (s : S) (x : A), keeps_parameters (body s x)) ->
  keeps_parameters (for_each body l s).
Proof.
  intros Hbody. revert s. induction l as [|x l IH]; intros s; simpl.
  - apply keeps_ret.
  - apply keeps_bind; [apply Hbody | exact IH].
Qed.

Create HintDb keeps.
#[local] Hint Resolve keeps_ret keeps_raise keeps_lift keeps_emit keeps_read_reporter
  keeps_write_reporter : keeps.

Ltac keeps :=
  repeat first
    [ apply keeps_bind; [|intros ?]
    | apply keeps_for_each; intros ? ?
    | solve [auto with keeps]
    | match goal with
      | |- keeps_parameters (if ?b then _ else _) => destruct b
      | |- keeps_parameters (match ?x with _ => _ end) => destruct x
      end ].

Lemma keeps_setup_simulation (E : Engine) {P : Type} `{TestParameters P}
    (parameters : P) (tolerance : R) (minimize : bool) :
  keeps_parameters (StabilityTest._setup_simulation E parameters tolerance minimize).
Proof.
  unfold StabilityTest._setup_simulation, SimulationFactory_create_simulation,
    context_setPositions, sim_minimizeEnergy.
  keeps.
  unfold StabilityTest.annealing_stage, sim_step, integrator_setTemperature,
    StabilityTest.barostate_force_id.
  keeps.
Qed.

Lemma keeps_run_simulation (E : Engine) (parameters : StabilityTestParameters.t)
    (sim : Simulation) :
  keeps_parameters (StabilityTest._run_simulation E parameters sim).
Proof.
  unfold StabilityTest._run_simulation, PDBFile_writeFile, sim_step. keeps.
Qed.

(** ** The multi-temperature protocol *)

(** The parameters of the run at the temperature [T], as the spec
    describes them: those of the caller with the temperature substituted
    and the output name suffixed. *)
Definition clone (p : StabilityTestParameters.t) (T : Z) : StabilityTestParameters.t :=
  StabilityTestParameters.set_log_file_name
    (StabilityTestParameters.set_temperature p (TInt T))
    (StabilityTestParameters.log_file_name p +:+ "_" +:+ str T +:+ "K").

Lemma lookup_snoc {A : Type} (l : list A) (x : A) : (l ++ [x]) !! length l = Some x.
Proof. by rewrite list_lookup_middle. Qed.

Lemma insert_snoc {A : Type} (l : list A) (x y : A) :
  <[length l := y]> (l ++ [x]) = l ++ [y].
Proof. rewrite insert_app_r_alt by lia. by rewrite Nat.sub_diag. Qed.

Lemma derive_ok (parms : loc) (T : Z) (p : StabilityTestParameters.t) (w : World) :
  parameters_heap w !! parms = Some p ->
  MultiTemperatureProtocol.derive parms T w =
  (Ok (length (parameters_heap w)),
   {| parameters_heap := parameters_heap w ++ [clone p T];
      reporter_heap := reporter_heap w;
      calls := calls w |}).
Proof.
  intros Hp. unfold MultiTemperatureProtocol.derive, dataclasses_replace, bind,
    read_parameters, write_parameters, ret.
  cbn [parameters_heap reporter_heap calls]. rewrite Hp.
  cbn [parameters_heap reporter_heap calls]. rewrite lookup_snoc.
  cbn [parameters_heap reporter_heap calls]. rewrite insert_snoc, lookup_snoc.
  cbn [parameters_heap reporter_heap calls].
  rewrite (lookup_app_l_Some _ _ _ _ Hp).
  cbn [parameters_heap reporter_heap calls]. rewrite insert_snoc.
  reflexivity.
Qed.

(** One run of the loop: the heap gains the clone, whatever the run does. *)
Lemma run_at_heap (E : Engine) (parms : loc) (T : Z) (p : StabilityTestParameters.t)
    (w : World) :
  parameters_heap w !! parms = Some p ->
  parameters_heap (snd (MultiTemperatureProtocol.run_at E parms tt T w)) =
  parameters_heap w ++ [clone p T].
Proof.
  intros Hp. unfold MultiTemperatureProtocol.run_at.
  erewrite bind_ok by (by apply derive_ok).
  match goal with
  | |- parameters_heap (snd (?m ?w1)) = _ =>
      assert (Hk : keeps_parameters m)
  end.
  { apply keeps_bind.
    - intros w1. unfold read_parameters. by destruct (parameters_heap w1 !! _).
    - intros c. apply keeps_bind; [apply keeps_setup_simulation|].
      intros sim. apply keeps_run_simulation. }
  by rewrite Hk.
Qed.

Lemma multi_temperature_heap (E : Engine) (parms : loc)
    (p : StabilityTestParameters.t) (temperatures : list Z) :
  forall w : World,
    parameters_heap w !! parms = Some p ->
    exists k : nat,
      parameters_heap
        (snd (for_each (MultiTemperatureProtocol.run_at E parms) temperatures tt w)) =
      parameters_heap w ++ map (clone p) (take k temperatures).
Proof.
  induction temperatures as [|T rest IH]; intros w Hp.
  - exists 0%nat. simpl. by rewrite app_nil_r.
  - simpl for_each. unfold bind.
    pose proof (run_at_heap E parms T p w Hp) as Hheap.
    destruct (MultiTemperatureProtocol.run_at E parms tt T w) as [[[]|e] w1];
      simpl in Hheap.
    + destruct (IH w1) as [k Hk].
      { rewrite Hheap. by apply lookup_app_l_Some. }
      exists (S k). rewrite Hk, Hheap. simpl. by rewrite <- app_assoc.
    + exists 1%nat. simpl. by destruct rest.
Qed.

Lemma clone_annealing_fails (p : StabilityTestParameters.t) (T : Z) :
  annealing_fails (clone p T) =
  StabilityTestParameters.simulated_annealing p &&
  bool_decide (StabilityTestParameters.ensemble p = Some "npt").
Proof. unfold annealing_fails. simpl. by rewrite orb_false_r. Qed.

(** The calls of the run at the temperature [T]. *)
Definition run_at_calls (p : StabilityTestParameters.t) (reportInterval : Z) (T : Z)
    : list call :=
  setup_calls (clone p T) StabilityTest.default_minimization_tolerance false ++
  run_calls (clone p T) reportInterval.

Lemma run_at_ok (E : Engine) (parms : loc) (T : Z) (p : StabilityTestParameters.t)
    (rep : StateDataReporter) (w : World) :
  parameters_heap w !! parms = Some p ->
  reporter_heap w !! StabilityTestParameters.state_data_reporter p = Some rep ->
  StabilityTestParameters.simulated_annealing p &&
    bool_decide (StabilityTestParameters.ensemble p = Some "npt") = false ->
  MultiTemperatureProtocol.run_at E parms tt T w =
  (Ok tt,
   {| parameters_heap := parameters_heap w ++ [clone p T];
      reporter_heap :=
        <[StabilityTestParameters.state_data_reporter p :=
            redirected rep (clone p T)]> (reporter_heap w);
      calls := calls w ++ run_at_calls p (_reportInterval rep) T |}).
Proof.
  intros Hp Hrep Hf. rewrite <- (clone_annealing_fails p T) in Hf.
  destruct (setup_simulation_ok E (clone p T)
              StabilityTest.default_minimization_tolerance false Hf) as [sim Hsim].
  unfold MultiTemperatureProtocol.run_at.
  erewrite bind_ok by (by apply derive_ok).
  unfold bind at 1, read_parameters. cbn [parameters_heap].
  rewrite lookup_snoc.
  erewrite bind_ok by apply Hsim.
  erewrite run_simulation_ok by exact Hrep.
  unfold run_at_calls. cbn [parameters_heap reporter_heap calls add_calls].
  by rewrite <- app_assoc.
Qed.

Lemma multi_temperature_ok (E : Engine) (parms : loc) (p : StabilityTestParameters.t)
    (reportInterval : Z) (temperatures : list Z) :
  StabilityTestParameters.simulated_annealing p &&
    bool_decide (StabilityTestParameters.ensemble p = Some "npt") = false ->
  forall (rep : StateDataReporter) (w : World),
    parameters_heap w !! parms = Some p ->
    reporter_heap w !! StabilityTestParameters.state_data_reporter p = Some rep ->
    _reportInterval rep = reportInterval ->
    exists reporters : list StateDataReporter,
      for_each (MultiTemperatureProtocol.run_at E parms) temperatures tt w =
      (Ok tt,
       {| parameters_heap := parameters_heap w ++ map (clone p) temperatures;
          reporter_heap := reporters;
          calls := calls w ++ flat_map (run_at_calls p reportInterval) temperatures |}).
Proof.
  intros Hf. induction temperatures as [|T rest IH]; intros rep w Hp Hrep Hint.
  - exists (reporter_heap w). simpl. rewrite !app_nil_r. by destruct w.
  - simpl for_each.
    erewrite bind_ok by (by apply run_at_ok).
    edestruct (IH (redirected rep (clone p T))) as [reporters Hrest]; cycle 3.
    + rewrite Hrest. exists reporters.
      cbn [parameters_heap calls map flat_map]. rewrite Hint.
      by rewrite <- !app_assoc.
    + cbn [parameters_heap]. by apply lookup_app_l_Some.
    + cbn [reporter_heap]. apply list_lookup_insert_eq.
      by apply lookup_lt_Some in Hrep.
    + exact Hint.
Qed.

(** ** Output names *)

Lemma str_inj (a b : Z) : str a = str b -> a = b.
Proof.
  unfold str. intros Heq.
  apply DecimalZ.to_int_inj.
  assert (Hnn : forall z : Z, Z.to_int z <> Decimal.Pos Decimal.Nil /\
                              Z.to_int z <> Decimal.Neg Decimal.Nil).
  { intros [|q|q]; simpl; split; try discriminate;
      intros [= Hq]; by apply (DecimalPos.Unsigned.to_uint_nonnil q). }
  destruct (Hnn a) as [Ha1 Ha2], (Hnn b) as [Hb1 Hb2].
  pose proof (NilZero.isi _ Ha1 Ha2) as Hia.
  pose proof (NilZero.isi _ Hb1 Hb2) as Hib.
  rewrite Heq in Hia. rewrite Hia in Hib. by injection Hib.
Qed.

Lemma append_inj_l (s a b : string) : s +:+ a = s +:+ b -> a = b.
Proof. induction s as [|c s IH]; simpl; [done|]. intros [= Heq]. by apply IH. Qed.

Lemma append_K_inj (a b : string) : a +:+ "K" = b +:+ "K" -> a = b.
Proof.
  revert b. induction a as [|c a IH]; intros [|d b]; simpl; intros Heq.
  - reflexivity.
  - injection Heq as _ Heq. by destruct b.
  - injection Heq as _ Heq. by destruct a.
  - injection Heq as -> Heq. f_equal. by apply IH.
Qed.

Lemma clone_name_inj (p : StabilityTestParameters.t) (T1 T2 : Z) :
  StabilityTestParameters.log_file_name (clone p T1) =
  StabilityTestParameters.log_file_name (clone p T2) -> T1 = T2.
Proof.
  simpl. intros Heq. by apply append_inj_l, append_inj_l, append_K_inj, str_inj in Heq.
Qed.

Lemma NoDup_map_inj {A B : Type} (f : A -> B) (l : list A) :
  (forall x y : A, f x = f y -> x = y) -> NoDup l -> NoDup (map f l).
Proof.
  intros Hinj. induction 1 as [|x l Hx Hl IH]; simpl; constructor; [|exact IH].
  rewrite list_elem_of_In, in_map_iff. intros (y & Hy & Hin).
  apply Hinj in Hy as ->. by apply Hx, list_elem_of_In.
Qed.

(** ** Reading a list of calls *)

Definition is_minimizeEnergy (c : call) : bool :=
  match c with minimizeEnergy _ _ => true | _ => false end.

Definition is_step (c : call) : bool :=
  match c with step _ => true | _ => false end.

(** The temperature a simulation is created with. *)
Definition created_temperature (c : call) : option Temperature :=
  match c with create_simulation _ _ _ T _ _ _ => Some T | _ => None end.

Lemma annealing_calls_no_create (temps : list R) :
  omap created_temperature (annealing_calls temps) = [].
Proof. induction temps as [|t temps IH]; [reflexivity | exact IH]. Qed.

Lemma annealing_calls_no_minimize (temps : list R) :
  Forall (fun c => is_minimizeEnergy c = false) (annealing_calls temps).
Proof.
  induction temps as [|t temps IH]; [constructor|].
  simpl. by repeat constructor.
Qed.

Lemma ramp_calls_no_create {P : Type} `{TestParameters P} (parameters : P) :
  omap created_temperature (ramp_calls parameters) = [].
Proof.
  unfold ramp_calls. destruct (getattr_simulated_annealing parameters); [|reflexivity].
  destruct (scalar_temperature (temperature parameters));
    [apply annealing_calls_no_create | reflexivity].
Qed.

Lemma ramp_calls_no_minimize {P : Type} `{TestParameters P} (parameters : P) :
  Forall (fun c => is_minimizeEnergy c = false) (ramp_calls parameters).
Proof.
  unfold ramp_calls. destruct (getattr_simulated_annealing parameters); [|constructor].
  destruct (scalar_temperature (temperature parameters));
    [apply annealing_calls_no_minimize | constructor].
Qed.

Lemma run_at_calls_created (p : StabilityTestParameters.t) (i : Z)
    (temperatures : list Z) :
  omap created_temperature (flat_map (run_at_calls p i) temperatures) =
  map TInt temperatures.
Proof.
  induction temperatures as [|T rest IH]; [reflexivity|].
  cbn [flat_map map]. rewrite omap_app, IH. f_equal.
  unfold run_at_calls, setup_calls. rewrite !omap_app, ramp_calls_no_create.
  reflexivity.
Qed.

Lemma run_at_calls_no_minimize (p : StabilityTestParameters.t) (i : Z)
    (temperatures : list Z) :
  Forall (fun c => is_minimizeEnergy c = false)
         (flat_map (run_at_calls p i) temperatures).
Proof.
  induction temperatures as [|T rest IH]; [constructor|].
  cbn [flat_map]. apply Forall_app. split; [|exact IH].
  unfold run_at_calls, setup_calls. rewrite !Forall_app.
  repeat split; try (by repeat constructor). apply ramp_calls_no_minimize.
Qed.

(** C3, as the spec states it, fails: with the temperature list
    [[300; 300]] both runs are given the output name
    ["vacuum_ZINC_300K"]. *)
Lemma repeated_temperature_names_collide :
  exists (w' : World) (c1 c2 : StabilityTestParameters.t),
    MultiTemperatureProtocol.perform_stability_test Sample.engine 0%nat
      (Sample.world (Sample.stability_parameters (TList [300; 300]) false (Some "nvt")))
    = (Ok tt, w') /\
    parameters_heap w' =
      [Sample.stability_parameters (TList [300; 300]) false (Some "nvt"); c1; c2] /\
    StabilityTestParameters.log_file_name c1 = "vacuum_ZINC_300K" /\
    StabilityTestParameters.log_file_name c2 = "vacuum_ZINC_300K".
Proof.
  destruct (multi_temperature_ok Sample.engine 0%nat
              (Sample.stability_parameters (TList [300; 300]) false (Some "nvt"))
              1 [300; 300] eq_refl Sample.state_data_reporter
              (Sample.world (Sample.stability_parameters (TList [300; 300]) false
                               (Some "nvt")))
              eq_refl eq_refl eq_refl) as [reporters Hrun].
  eexists _, _, _. split; [|split; [|split]].
  - unfold MultiTemperatureProtocol.perform_stability_test.
    erewrite bind_ok by reflexivity. exact Hrun.
  - reflexivity.
  - reflexivity.
  - reflexivity.
Qed.

(** C3, amended.  Called with a list of [n] temperatures (and without an
    annealing request under ["npt"]), the multi-temperature protocol
    performs [n] runs, one per temperature and in list order: each creates
    its simulation at that temperature from a clone of the parameters with
    the temperature substituted and the output name suffixed with the
    temperature and ["K"], sets it up without [minimizeEnergy], and runs it.
    The output names are pairwise distinct when the temperatures are. *)
Theorem multi_temperature_runs (E : Engine) (parms : loc)
    (p : StabilityTestParameters.t) (temperatures : list Z)
    (rep : StateDataReporter) (w : World) :
  parameters_heap w !! parms = Some p ->
  StabilityTestParameters.temperature p = TList temperatures ->
  reporter_heap w !! StabilityTestParameters.state_data_reporter p = Some rep ->
  StabilityTestParameters.simulated_annealing p &&
    bool_decide (StabilityTestParameters.ensemble p = Some "npt") = false ->
  exists (w' : World) (new_calls : list call),
    MultiTemperatureProtocol.perform_stability_test E parms w = (Ok tt, w') /\
    calls w' = calls w ++ new_calls /\
    new_calls =
      flat_map (fun T =>
                  setup_calls (clone p T)
                    StabilityTest.default_minimization_tolerance false ++
                  run_calls (clone p T) (_reportInterval rep))
               temperatures /\
    omap created_temperature new_calls = map TInt temperatures /\
    Forall (fun c => is_minimizeEnergy c = false) new_calls /\
    parameters_heap w' = parameters_heap w ++ map (clone p) temperatures /\
    (forall T : Z,
       StabilityTestParameters.temperature (clone p T) = TInt T /\
       StabilityTestParameters.log_file_name (clone p T) =
         StabilityTestParameters.log_file_name p +:+ "_" +:+ str T +:+ "K") /\
    (NoDup temperatures ->
     NoDup (map (fun T => StabilityTestParameters.log_file_name (clone p T))
                temperatures)).
Proof.
  intros Hp HT Hrep Hf.
  destruct (multi_temperature_ok E parms p (_reportInterval rep) temperatures Hf
              rep w Hp Hrep eq_refl) as [reporters Hrun].
  eexists _, _. split; [|split; [|split; [|split; [|split; [|split; [|split]]]]]].
  - unfold MultiTemperatureProtocol.perform_stability_test.
    erewrite bind_ok by (unfold read_parameters; by rewrite Hp).
    rewrite HT. exact Hrun.
  - reflexivity.
  - reflexivity.
  - apply run_at_calls_created.
  - apply run_at_calls_no_minimize.
  - reflexivity.
  - intros T. split; reflexivity.
  - intros Hnd. apply NoDup_map_inj; [|exact Hnd].
    intros T1 T2. apply clone_name_inj.
Qed.

Lemma multi_temperature_runs_witness :
  exists w' : World,
    MultiTemperatureProtocol.perform_stability_test Sample.engine 0%nat
      (Sample.world (Sample.stability_parameters (TList [300; 400]) false (Some "nvt")))
    = (Ok tt, w') /\
    map StabilityTestParameters.log_file_name (parameters_heap w') =
      ["vacuum_ZINC"; "vacuum_ZINC_300K"; "vacuum_ZINC_400K"].
Proof.
  destruct (multi_temperature_runs Sample.engine 0%nat
              (Sample.stability_parameters (TList [300; 400]) false (Some "nvt"))
              [300; 400] Sample.state_data_reporter
              (Sample.world (Sample.stability_parameters (TList [300; 400]) false
                               (Some "nvt")))
              eq_refl eq_refl eq_refl eq_refl)
    as (w' & new_calls & Hrun & _ & _ & _ & _ & Hheap & _).
  exists w'. split; [exact Hrun|]. rewrite Hheap. reflexivity.
Defined.

(** C5.  With a temperature that is no list the multi-temperature protocol
    raises [RuntimeError] at once: the world, and with it the list of
    calls, is unchanged. *)
Theorem scalar_temperature_is_rejected (E : Engine) (parms : loc)
    (p : StabilityTestParameters.t) (w : World) :
  parameters_heap w !! parms = Some p ->
  (forall l : list Z, StabilityTestParameters.temperature p <> TList l) ->
  MultiTemperatureProtocol.perform_stability_test E parms w =
  (Raise (RuntimeError
     "You need to provide mutliple temperatures to run the MultiTemperatureProtocol."),
   w).
Proof.
  intros Hp HT. unfold MultiTemperatureProtocol.perform_stability_test.
  erewrite bind_ok by (unfold read_parameters; by rewrite Hp).
  destruct (StabilityTestParameters.temperature p) as [z|x|l];
    [reflexivity | reflexivity | by destruct (HT l)].
Qed.

Lemma scalar_temperature_is_rejected_witness :
  MultiTemperatureProtocol.perform_stability_test Sample.engine 0%nat
    (Sample.world (Sample.stability_parameters (TInt 300) false (Some "nvt"))) =
  (Raise (RuntimeError
     "You need to provide mutliple temperatures to run the MultiTemperatureProtocol."),
   Sample.world (Sample.stability_parameters (TInt 300) false (Some "nvt"))).
Proof.
  apply (scalar_temperature_is_rejected Sample.engine 0%nat
           (Sample.stability_parameters (TInt 300) false (Some "nvt"))).
  - reflexivity.
  - intros l. discriminate.
Defined.

(** ** The propagation protocol *)

(** The caller's parameters after the assignment to [parms.log_file_name]. *)
Definition renamed (p : StabilityTestParameters.t) (T : Z) : StabilityTestParameters.t :=
  StabilityTestParameters.set_log_file_name p
    (StabilityTestParameters.log_file_name p +:+ "_" +:+ str T).

(** Whatever the run does afterwards, the caller's object has been
    renamed. *)
Lemma propagation_heap (E : Engine) (parms : loc) (p : StabilityTestParameters.t)
    (T : Z) (w : World) :
  parameters_heap w !! parms = Some p ->
  StabilityTestParameters.temperature p = TInt T ->
  parameters_heap (snd (PropagationProtocol.perform_stability_test E parms w)) =
  <[parms := renamed p T]> (parameters_heap w).
Proof.
  intros Hp HT. unfold PropagationProtocol.perform_stability_test.
  erewrite bind_ok by (unfold read_parameters; by rewrite Hp).
  rewrite HT. unfold bind at 1, write_parameters.
  unfold bind at 1, read_parameters. cbn [parameters_heap].
  rewrite list_lookup_insert_eq by (by apply lookup_lt_Some in Hp).
  fold (renamed p T).
  match goal with
  | |- parameters_heap (snd (?m ?w1)) = _ => assert (Hk : keeps_parameters m)
  end.
  { apply keeps_bind; [apply keeps_setup_simulation|].
    intros sim. apply keeps_run_simulation. }
  by rewrite Hk.
Qed.

Lemma propagation_ok (E : Engine) (parms : loc) (p : StabilityTestParameters.t)
    (T : Z) (rep : StateDataReporter) (w : World) :
  parameters_heap w !! parms = Some p ->
  StabilityTestParameters.temperature p = TInt T ->
  reporter_heap w !! StabilityTestParameters.state_data_reporter p = Some rep ->
  annealing_fails (renamed p T) = false ->
  PropagationProtocol.perform_stability_test E parms w =
  (Ok tt,
   {| parameters_heap := <[parms := renamed p T]> (parameters_heap w);
      reporter_heap :=
        <[StabilityTestParameters.state_data_reporter p :=
            redirected rep (renamed p T)]> (reporter_heap w);
      calls := calls w ++
        setup_calls (renamed p T) StabilityTest.default_minimization_tolerance true ++
        run_calls (renamed p T) (_reportInterval rep) |}).
Proof.
  intros Hp HT Hrep Hf.
  destruct (setup_simulation_ok E (renamed p T)
              StabilityTest.default_minimization_tolerance true Hf) as [sim Hsim].
  unfold PropagationProtocol.perform_stability_test.
  erewrite bind_ok by (unfold read_parameters; by rewrite Hp).
  rewrite HT. unfold bind at 1, write_parameters.
  unfold bind at 1, read_parameters. cbn [parameters_heap].
  rewrite list_lookup_insert_eq by (by apply lookup_lt_Some in Hp).
  fold (renamed p T).
  erewrite bind_ok by apply Hsim.
  erewrite run_simulation_ok by exact Hrep.
  cbn [parameters_heap reporter_heap calls add_calls].
  by rewrite <- app_assoc.
Qed.

(** C7, as the spec states it, fails: the propagation protocol renames the
    caller's own parameters object, from ["vacuum_ZINC"] to
    ["vacuum_ZINC_300"]. *)
Lemma propagation_renames_the_callers_parameters :
  exists w' : World,
    PropagationProtocol.perform_stability_test Sample.engine 0%nat
      (Sample.world (Sample.stability_parameters (TInt 300) false (Some "nvt")))
    = (Ok tt, w') /\
    parameters_heap w' !! 0%nat =
      Some (renamed (Sample.stability_parameters (TInt 300) false (Some "nvt")) 300) /\
    StabilityTestParameters.log_file_name
      (renamed (Sample.stability_parameters (TInt 300) false (Some "nvt")) 300)
    = "vacuum_ZINC_300" /\
    StabilityTestParameters.log_file_name
      (Sample.stability_parameters (TInt 300) false (Some "nvt"))
    = "vacuum_ZINC".
Proof.
  eexists. split; [|split; [|split]].
  - apply (propagation_ok Sample.engine 0%nat
             (Sample.stability_parameters (TInt 300) false (Some "nvt")) 300
             Sample.state_data_reporter); reflexivity.
  - reflexivity.
  - reflexivity.
  - reflexivity.
Qed.

(** C7, amended.  The multi-temperature protocol leaves the caller's
    parameters object unchanged: the only change to the heap of parameters
    is that clones of it, with the temperature substituted and the output
    name suffixed, are added.  The propagation protocol instead overwrites
    the [log_file_name] of the caller's object with the name suffixed by
    the temperature. *)
Theorem callers_parameters_frame (E : Engine) (parms : loc)
    (p : StabilityTestParameters.t) (w : World) :
  parameters_heap w !! parms = Some p ->
  (exists clones : list StabilityTestParameters.t,
     parameters_heap
       (snd (MultiTemperatureProtocol.perform_stability_test E parms w)) =
     parameters_heap w ++ clones /\
     parameters_heap
       (snd (MultiTemperatureProtocol.perform_stability_test E parms w)) !! parms =
     Some p /\
     Forall (fun c => exists T : Z, c = clone p T) clones) /\
  (forall T : Z,
     StabilityTestParameters.temperature p = TInt T ->
     parameters_heap (snd (PropagationProtocol.perform_stability_test E parms w)) =
     <[parms := StabilityTestParameters.set_log_file_name p
                  (StabilityTestParameters.log_file_name p +:+ "_" +:+ str T)]>
       (parameters_heap w)).
Proof.
  intros Hp. split.
  - unfold MultiTemperatureProtocol.perform_stability_test.
    erewrite bind_ok by (unfold read_parameters; by rewrite Hp).
    destruct (StabilityTestParameters.temperature p) as [z|x|temperatures].
    + exists []. simpl. rewrite app_nil_r. by repeat split.
    + exists []. simpl. rewrite app_nil_r. by repeat split.
    + destruct (multi_temperature_heap E parms p temperatures w Hp) as [k Hk].
      exists (map (clone p) (take k temperatures)). rewrite Hk.
      split; [reflexivity|]. split; [by apply lookup_app_l_Some|].
      apply Forall_forall. intros c Hc.
      apply list_elem_of_In, in_map_iff in Hc as (T & <- & _). by exists T.
  - intros T HT. by apply propagation_heap.
Qed.

Lemma callers_parameters_frame_witness :
  parameters_heap
    (snd (MultiTemperatureProtocol.perform_stability_test Sample.engine 0%nat
            (Sample.world (Sample.stability_parameters (TList [300; 400]) false
                             (Some "nvt"))))) !! 0%nat =
  Some (Sample.stability_parameters (TList [300; 400]) false (Some "nvt")).
Proof.
  destruct (callers_parameters_frame Sample.engine 0%nat
              (Sample.stability_parameters (TList [300; 400]) false (Some "nvt"))
              (Sample.world (Sample.stability_parameters (TList [300; 400]) false
                               (Some "nvt")))
              eq_refl) as [(clones & _ & Hsame & _) _].
  exact Hsame.
Defined.

(** C10.  The propagation protocol accepts an int temperature only: with
    any other temperature, the float 300.0 included, the assertion fails
    at once and the world, with its list of calls, is unchanged. *)
Theorem propagation_requires_int (E : Engine) (parms : loc)
    (p : StabilityTestParameters.t) (w : World) :
  parameters_heap w !! parms = Some p ->
  (forall z : Z, StabilityTestParameters.temperature p <> TInt z) ->
  PropagationProtocol.perform_stability_test E parms w = (Raise AssertionError, w).
Proof.
  intros Hp HT. unfold PropagationProtocol.perform_stability_test.
  erewrite bind_ok by (unfold read_parameters; by rewrite Hp).
  destruct (StabilityTestParameters.temperature p) as [z|x|l];
    [by destruct (HT z) | reflexivity | reflexivity].
Qed.

Lemma propagation_requires_int_witness :
  PropagationProtocol.perform_stability_test Sample.engine 0%nat
    (Sample.world (Sample.stability_parameters (TFloat 300) false (Some "nvt"))) =
  (Raise AssertionError,
   Sample.world (Sample.stability_parameters (TFloat 300) false (Some "nvt"))).
Proof.
  apply (propagation_requires_int Sample.engine 0%nat
           (Sample.stability_parameters (TFloat 300) false (Some "nvt"))).
  - reflexivity.
  - intros z. discriminate.
Defined.

(** ** Simulated annealing *)

Lemma linspace_head (b : R) (n : nat) :
  (2 <= n)%nat -> exists rest : list R, linspace 0 b n = 0%R :: rest.
Proof.
  intros Hn. pose proof (linspace_lookup 0 b n 0 Hn ltac:(lia)) as H0.
  destruct (linspace 0 b n) as [|x rest]; [discriminate|].
  exists rest. injection H0 as ->. f_equal. simpl. ring.
Qed.

Lemma annealing_calls_steps (temps : list R) :
  List.filter is_step (annealing_calls temps) = replicate (length temps) (step 100).
Proof. induction temps as [|t temps IH]; simpl; [reflexivity | by rewrite IH]. Qed.

(** With annealing requested under ["npt"], the first stage steps the
    simulation, sets the integrator to 0 K and then fails on the unbound
    name; the barostat is never reached. *)
Lemma annealing_npt_raises (E : Engine) {P : Type} `{TestParameters P}
    (parameters : P) (tolerance : R) (minimize : bool) (T : R) (w : World) :
  getattr_simulated_annealing parameters = true ->
  ensemble parameters = Some "npt" ->
  scalar_temperature (temperature parameters) = Some T ->
  StabilityTest._setup_simulation E parameters tolerance minimize w =
  (Raise (NameError "barostate_force_id"),
   add_calls w
     ([create_simulation (system parameters) (topology (testsystem parameters))
         (platform parameters) (temperature parameters) (env parameters)
         (device_index parameters) (ensemble parameters);
       setPositions (positions (testsystem parameters))] ++
      (if minimize then [minimizeEnergy tolerance 1000] else []) ++
      [step 100; setTemperature 0])).
Proof.
  intros Ha Hnpt HT.
  assert (Htemps : exists rest : list (option R),
            StabilityTest.annealing_temperatures (temperature parameters) =
            Some 0%R :: rest).
  { destruct (temperature parameters) as [z|x|l];
      cbn [StabilityTest.annealing_temperatures scalar_temperature] in *;
      [| |discriminate].
    - destruct (linspace_head (IZR z) 10 ltac:(lia)) as [rest ->]. by eexists.
    - destruct (linspace_head x 10 ltac:(lia)) as [rest ->]. by eexists. }
  destruct Htemps as [rest Htemps].
  assert (Hstage : forall (sim : Simulation) (w1 : World),
            for_each (StabilityTest.annealing_stage E parameters)
              (Some 0%R :: rest) sim w1 =
            (Raise (NameError "barostate_force_id"),
             add_calls w1 [step 100; setTemperature 0])).
  { intros sim w1. simpl for_each. apply bind_raise.
    unfold StabilityTest.annealing_stage.
    rewrite bool_decide_eq_true_2 by exact Hnpt.
    mstep step_run. mstep setTemperature_run.
    unfold StabilityTest.barostate_force_id. erewrite bind_raise by reflexivity.
    by rewrite add_calls_app. }
  unfold StabilityTest._setup_simulation.
  mstep create_simulation_run. mstep setPositions_run. destruct minimize.
  - mstep minimizeEnergy_run. rewrite Ha, Htemps, Hstage, !add_calls_app. reflexivity.
  - rewrite bind_ret, Ha, Htemps, Hstage, !add_calls_app. reflexivity.
Qed.

(** C4.  Evaluation at the failing input: annealing requested under
    ["npt"].  [_setup_simulation] raises [NameError] in the first stage,
    after one [step(100)] and one [setTemperature]; no stage updates the
    barostat, and the other nine stages never run. *)
Theorem annealing_under_npt_raises_NameError :
  StabilityTest._setup_simulation Sample.engine
    (Sample.stability_parameters (TInt 300) true (Some "npt")) 1 true
    Sample.empty_world =
  (Raise (NameError "barostate_force_id"),
   {| parameters_heap := []; reporter_heap := [];
      calls := [create_simulation (SystemHandle 0) (TopologyHandle 0)
                  (PlatformHandle 0) (TInt 300) "vacuum" 0 (Some "npt");
                setPositions (positions Sample.diatomic);
                minimizeEnergy 1 1000;
                step 100;
                setTemperature 0] |}).
Proof.
  rewrite (annealing_npt_raises Sample.engine
             (Sample.stability_parameters (TInt 300) true (Some "npt"))
             1 true 300 Sample.empty_world); reflexivity.
Qed.

(** X1.  Outside ["npt"], annealing over a scalar temperature [T] is a ramp of
    10 stages, each 100 integration steps followed by setting the
    integrator to the stage temperature [i * (T / 9)], [i = 0 .. 9]. *)
Theorem annealing_ramp (E : Engine) {P : Type} `{TestParameters P}
    (parameters : P) (tolerance : R) (minimize : bool) (T : R) (w : World) :
  getattr_simulated_annealing parameters = true ->
  ensemble parameters <> Some "npt" ->
  scalar_temperature (temperature parameters) = Some T ->
  exists (sim : Simulation) (stages : list R),
    StabilityTest._setup_simulation E parameters tolerance minimize w =
    (Ok sim,
     add_calls w
       ([create_simulation (system parameters) (topology (testsystem parameters))
           (platform parameters) (temperature parameters) (env parameters)
           (device_index parameters) (ensemble parameters);
         setPositions (positions (testsystem parameters))] ++
        (if minimize then [minimizeEnergy tolerance 1000] else []) ++
        flat_map (fun t => [step 100; setTemperature t]) stages)) /\
    length stages = 10%nat /\
    (forall i : nat, (i < 10)%nat -> stages !! i = Some (INR i * (T / 9))%R).
Proof.
  intros Ha Hnpt HT.
  assert (Hf : annealing_fails parameters = false).
  { unfold annealing_fails. rewrite Ha, bool_decide_eq_false_2 by exact Hnpt.
    by destruct (temperature parameters). }
  destruct (setup_simulation_ok E parameters tolerance minimize Hf) as [sim Hsim].
  exists sim, (linspace 0 T 10). split; [|split].
  - rewrite Hsim. unfold setup_calls, ramp_calls. by rewrite Ha, HT.
  - apply linspace_length.
  - intros i Hi. rewrite linspace_lookup by lia. f_equal. simpl. field.
Qed.

Lemma annealing_ramp_witness :
  exists (sim : Simulation) (w' : World),
    StabilityTest._setup_simulation Sample.engine
      (Sample.stability_parameters (TInt 300) true (Some "nvt")) 1 true
      Sample.empty_world = (Ok sim, w') /\
    length (List.filter is_step (calls w')) = 10%nat.
Proof.
  assert (Ha : getattr_simulated_annealing
                 (Sample.stability_parameters (TInt 300) true (Some "nvt")) = true)
    by reflexivity.
  assert (Hnpt : ensemble (Sample.stability_parameters (TInt 300) true (Some "nvt"))
                 <> Some "npt") by discriminate.
  assert (HT : scalar_temperature
                 (temperature (Sample.stability_parameters (TInt 300) true
                                 (Some "nvt"))) = Some 300%R) by reflexivity.
  destruct (annealing_ramp Sample.engine
              (Sample.stability_parameters (TInt 300) true (Some "nvt")) 1 true 300
              Sample.empty_world Ha Hnpt HT)
    as (sim & stages & Hrun & Hlen & _).
  exists sim. eexists. split; [exact Hrun|].
  cbn [calls add_calls Sample.empty_world app List.filter is_minimizeEnergy is_step].
  fold (annealing_calls stages).
  by rewrite annealing_calls_steps, length_replicate.
Defined.

(** ** The minimization protocol *)

Lemma minimization_ok (E : Engine) (parms : MinimizationTestParameters.t)
    (minimize : bool) :
  annealing_fails parms = false ->
  exists sim : Simulation, forall w : World,
    MinimizationProtocol.perform_stability_test E parms minimize w =
    (Ok {| getPositions := Some (context_positions sim);
           getPotentialEnergy := Some (potential_energy E sim) |},
     add_calls w
       (setup_calls parms (MinimizationTestParameters.convergence_criteria parms)
          minimize ++
        [getState true true;
         open_w ((MinimizationTestParameters.output_folder parms +:+ "/" +:+
                  MinimizationTestParameters.log_file_name parms) +:+ ".pdb");
         writeFile ((MinimizationTestParameters.output_folder parms +:+ "/" +:+
                     MinimizationTestParameters.log_file_name parms) +:+ ".pdb")
           (topology (MinimizationTestParameters.testsystem parms))
           (context_positions sim)])).
Proof.
  intros Hf.
  destruct (setup_simulation_ok E parms
              (MinimizationTestParameters.convergence_criteria parms) minimize Hf)
    as [sim Hsim].
  exists sim. intros w. unfold MinimizationProtocol.perform_stability_test.
  mstep Hsim. mstep getState_run. unfold state_getPositions. cbn [getPositions].
  rewrite bind_ret. mstep writeFile_run.
  unfold ret. by rewrite !add_calls_app.
Qed.

Lemma setup_calls_steps {P : Type} `{TestParameters P} (parameters : P)
    (tolerance : R) (minimize : bool) :
  annealing_fails parameters = false ->
  List.filter is_step (setup_calls parameters tolerance minimize) =
  if getattr_simulated_annealing parameters then replicate 10 (step 100) else [].
Proof.
  intros Hf. unfold setup_calls, ramp_calls.
  destruct (getattr_simulated_annealing parameters) eqn:Ha.
  - destruct (annealing_fails_false parameters Hf Ha) as (_ & T & -> & _).
    destruct minimize; cbn [app List.filter is_step];
      by rewrite annealing_calls_steps, linspace_length.
  - by destruct minimize.
Qed.

(** C8.  Evaluation at the failing input: a minimization with annealing
    requested under ["npt"].  The setup raises [NameError] in the first
    annealing stage, so the protocol reads no state, opens no file, writes
    no snapshot and returns nothing to the caller. *)
Theorem minimization_under_npt_raises_NameError :
  MinimizationProtocol.perform_stability_test Sample.engine
    (Sample.minimization_parameters (Some true) (Some "npt")) true
    Sample.empty_world =
  (Raise (NameError "barostate_force_id"),
   {| parameters_heap := []; reporter_heap := [];
      calls := [create_simulation (SystemHandle 0) (TopologyHandle 0)
                  (PlatformHandle 0) (TInt 300) "vacuum" 0 (Some "npt");
                setPositions (positions Sample.diatomic);
                minimizeEnergy 1 1000;
                step 100;
                setTemperature 0] |}).
Proof.
  unfold MinimizationProtocol.perform_stability_test.
  erewrite bind_raise; [reflexivity|].
  rewrite (annealing_npt_raises Sample.engine
             (Sample.minimization_parameters (Some true) (Some "npt"))
             1 true 300 Sample.empty_world); reflexivity.
Qed.

(** The simulation after an annealing ramp over the stage temperatures. *)
Definition annealed (E : Engine) (sim : Simulation) (temps : list R) : Simulation :=
  fold_left (fun sim t =>
               with_temperature (with_positions sim (propagated E sim 100)) (TFloat t))
            temps sim.

(** The simulation [_setup_simulation] returns: created, given the
    positions of the test system, minimized if asked, and taken through
    the ramp if annealing is requested. *)
Definition setup_result (E : Engine) {P : Type} `{TestParameters P} (parameters : P)
    (tolerance : R) (minimize : bool) : Simulation :=
  let sim :=
    {| sim_system := system parameters;
       sim_topology := topology (testsystem parameters);
       sim_platform := platform parameters;
       sim_env := env parameters;
       sim_device_index := device_index parameters;
       sim_ensemble := ensemble parameters;
       integrator_temperature := temperature parameters;
       context_positions := positions (testsystem parameters) |} in
  let sim :=
    if minimize then with_positions sim (minimized E sim tolerance 1000) else sim in
  if getattr_simulated_annealing parameters
  then match scalar_temperature (temperature parameters) with
       | Some T => annealed E sim (linspace 0 T 10)
       | None => sim
       end
  else sim.

Lemma annealing_loop_run (E : Engine) {P : Type} `{TestParameters P} (parameters : P)
    (temps : list R) :
  ensemble parameters <> Some "npt" ->
  forall (sim : Simulation) (w : World),
    for_each (StabilityTest.annealing_stage E parameters) (map Some temps) sim w =
    (Ok (annealed E sim temps), add_calls w (annealing_calls temps)).
Proof.
  intros Hnpt. induction temps as [|t temps IH]; intros sim w.
  - simpl. by rewrite add_calls_nil.
  - cbn [map for_each].
    erewrite bind_ok by (by apply annealing_stage_ok).
    rewrite IH, add_calls_app. reflexivity.
Qed.

Lemma setup_simulation_run (E : Engine) {P : Type} `{TestParameters P} (parameters : P)
    (tolerance : R) (minimize : bool) (w : World) :
  annealing_fails parameters = false ->
  StabilityTest._setup_simulation E parameters tolerance minimize w =
  (Ok (setup_result E parameters tolerance minimize),
   add_calls w (setup_calls parameters tolerance minimize)).
Proof.
  intros Hf.
  assert (Hramp : forall (sim0 : Simulation) (w0 : World),
            (if getattr_simulated_annealing parameters
             then for_each (StabilityTest.annealing_stage E parameters)
                    (StabilityTest.annealing_temperatures (temperature parameters)) sim0
             else ret sim0) w0 =
            (Ok (if getattr_simulated_annealing parameters
                 then match scalar_temperature (temperature parameters) with
                      | Some T => annealed E sim0 (linspace 0 T 10)
                      | None => sim0
                      end
                 else sim0),
             add_calls w0 (ramp_calls parameters))).
  { intros sim0 w0. unfold ramp_calls.
    destruct (getattr_simulated_annealing parameters) eqn:Ha.
    - destruct (annealing_fails_false parameters Hf Ha) as (Hnpt & T & HT & Htemps).
      rewrite HT, Htemps. by apply annealing_loop_run.
    - unfold ret. by rewrite add_calls_nil. }
  unfold setup_calls, setup_result, StabilityTest._setup_simulation.
  mstep create_simulation_run. mstep setPositions_run. destruct minimize.
  - mstep minimizeEnergy_run. rewrite Hramp, !add_calls_app. reflexivity.
  - rewrite bind_ret, Hramp, !add_calls_app. reflexivity.
Qed.

(** X27.  A minimization whose annealing request, if any, gets through
    (no annealing, or annealing at a scalar temperature outside ["npt"]).
    The state returned is the state of the simulation as the setup left
    it: its positions and its potential energy.  Those positions are what
    is written to [{output_folder}/{log_file_name}.pdb], after the state
    has been read; the protocol makes no folder.  The simulation is
    stepped only in the annealing ramp (10 times 100 steps), and minimized
    once if [minimize] is set and not at all otherwise.  Without annealing
    the positions returned and written are the minimized ones, or the
    initial ones of the test system when [minimize] is off. *)
Theorem minimization_returns_state (E : Engine)
    (parms : MinimizationTestParameters.t) (minimize : bool) (w : World) :
  let tolerance := MinimizationTestParameters.convergence_criteria parms in
  let sim := setup_result E parms tolerance minimize in
  let pdb := (MinimizationTestParameters.output_folder parms +:+ "/" +:+
              MinimizationTestParameters.log_file_name parms) +:+ ".pdb" in
  let created :=
    {| sim_system := MinimizationTestParameters.system parms;
       sim_topology := topology (MinimizationTestParameters.testsystem parms);
       sim_platform := MinimizationTestParameters.platform parms;
       sim_env := MinimizationTestParameters.env parms;
       sim_device_index := MinimizationTestParameters.device_index parms;
       sim_ensemble := MinimizationTestParameters.ensemble parms;
       integrator_temperature := MinimizationTestParameters.temperature parms;
       context_positions :=
         positions (MinimizationTestParameters.testsystem parms) |} in
  annealing_fails parms = false ->
  exists setup : list call,
    MinimizationProtocol.perform_stability_test E parms minimize w =
    (Ok {| getPositions := Some (context_positions sim);
           getPotentialEnergy := Some (potential_energy E sim) |},
     add_calls w
       (setup ++
        [getState true true; open_w pdb;
         writeFile pdb (topology (MinimizationTestParameters.testsystem parms))
           (context_positions sim)])) /\
    List.filter is_step setup =
      (if getattr_simulated_annealing parms then replicate 10 (step 100) else []) /\
    List.filter is_minimizeEnergy setup =
      (if minimize then [minimizeEnergy tolerance 1000] else []) /\
    (forall path : string, mkdir path ∉ setup) /\
    (getattr_simulated_annealing parms = false ->
     setup =
       [create_simulation (MinimizationTestParameters.system parms)
          (topology (MinimizationTestParameters.testsystem parms))
          (MinimizationTestParameters.platform parms)
          (MinimizationTestParameters.temperature parms)
          (MinimizationTestParameters.env parms)
          (MinimizationTestParameters.device_index parms)
          (MinimizationTestParameters.ensemble parms);
        setPositions (positions (MinimizationTestParameters.testsystem parms))] ++
       (if minimize then [minimizeEnergy tolerance 1000] else []) /\
     sim = if minimize
           then with_positions created (minimized E created tolerance 1000)
           else created).
Proof.
  intros tolerance sim pdb created Hf.
  exists (setup_calls parms tolerance minimize).
  split; [|split; [|split; [|split]]].
  - unfold MinimizationProtocol.perform_stability_test.
    erewrite bind_ok by (by apply setup_simulation_run). cbv beta.
    fold tolerance sim.
    mstep getState_run. unfold state_getPositions. cbn [getPositions].
    rewrite bind_ret. mstep writeFile_run.
    unfold ret. by rewrite !add_calls_app.
  - by apply setup_calls_steps.
  - unfold setup_calls. cbn [app List.filter is_minimizeEnergy].
    rewrite List.filter_app.
    assert (Hramp : List.filter is_minimizeEnergy (ramp_calls parms) = []).
    { pose proof (ramp_calls_no_minimize parms) as Hall.
      induction Hall as [|c l Hc _ IH]; [reflexivity|]. simpl. by rewrite Hc. }
    rewrite Hramp. by destruct minimize.
  - intros path Hin. unfold setup_calls in Hin.
    apply elem_of_app in Hin as [Hin|Hin].
    { repeat (apply elem_of_cons in Hin as [Hin|Hin]; [discriminate|]).
      by apply elem_of_nil in Hin. }
    apply elem_of_app in Hin as [Hin|Hin].
    { destruct minimize; [|by apply elem_of_nil in Hin].
      apply elem_of_cons in Hin as [Hin|Hin]; [discriminate|].
      by apply elem_of_nil in Hin. }
    unfold ramp_calls in Hin.
    destruct (getattr_simulated_annealing parms); [|by apply elem_of_nil in Hin].
    destruct (scalar_temperature (temperature parms)); [|by apply elem_of_nil in Hin].
    apply list_elem_of_In, in_flat_map in Hin as [t [_ Hin]].
    destruct Hin as [Hin|[Hin|[]]]; discriminate.
  - intros Ha. unfold sim, setup_result, setup_calls, ramp_calls. rewrite Ha.
    split; [by rewrite app_nil_r|reflexivity].
Qed.

Lemma minimization_returns_state_witness :
  exists (state : State) (w' : World),
    MinimizationProtocol.perform_stability_test Sample.engine
      (Sample.minimization_parameters None (Some "nvt")) false Sample.empty_world =
    (Ok state, w') /\
    getPositions state = Some (positions Sample.diatomic) /\
    getPotentialEnergy state = Some 0%R.
Proof.
  destruct (minimization_returns_state Sample.engine
              (Sample.minimization_parameters None (Some "nvt")) false
              Sample.empty_world eq_refl)
    as (setup & Hrun & _).
  eexists _, _. split; [exact Hrun|]. split; reflexivity.
Defined.

(** ** The minimization benchmark *)

(** What becomes of an item of the loop: it is skipped, it is scored on the
    test system built for it, or it raises. *)
Inductive verdict : Type :=
| Skipped
| Scorable (reference_testsystem : TestSystem)
| Fatal (e : exn).

Definition heavy_atoms (atoms : Mol) : Z :=
  fold_left (fun heavy a => if a =? 1 then heavy else heavy + 1) atoms 0.

(** The defaults of [MinimizationTestParameters] ask for an annealing that
    does not get through. *)
Definition default_annealing_fails (K : Toolkit) : bool :=
  match default_simulated_annealing K with Some b => b | None => false end &&
  (bool_decide (default_ensemble K = Some "npt") ||
   match default_temperature K with TList _ => true | _ => false end).

Definition is_log (c : call) : bool :=
  match c with log _ _ => true | _ => false end.

Section BenchmarkProperties.
Context (E : Engine) (K : Toolkit).
Context (nnp nnp_name : string) (platform : Platform) (output_folder : string).
Context (threshold : Z).

Definition verdict_of (e : entry) : verdict :=
  let sdf_file := sdf_file_of (start_file e) in
  match generate_molecule_from_sdf K sdf_file with
  | None => Fatal (AttributeError "'NoneType' object has no attribute 'GetAtoms'")
  | Some atoms =>
      if heavy_atoms atoms >? threshold then Skipped
      else if forallb (fun a => existsb (Z.eqb a) (_IMPLEMENTED_ELEMENTS K)) atoms
      then match generate_testsystem K sdf_file with
           | Ok reference_testsystem => Scorable reference_testsystem
           | Raise (ValueError _) => Skipped
           | Raise e => Fatal e
           end
      else Skipped
  end.

Definition is_skipped (e : entry) : bool :=
  match verdict_of e with Skipped => true | _ => false end.

Definition is_scored (e : entry) : bool :=
  match verdict_of e with Scorable _ => true | _ => false end.

Definition is_fatal (e : entry) : bool :=
  match verdict_of e with Fatal _ => true | _ => false end.

(** The number of items of the list that get a score. *)
Definition count_scored (items : list entry) : Z :=
  Z.of_nat (length (List.filter is_scored items)).

Lemma score_molecule_ok (name : string) (reference_testsystem : TestSystem)
    (e : entry) :
  default_annealing_fails K = false ->
  exists (s : R * R) (cs : list call), forall w : World,
    score_molecule E K nnp nnp_name platform output_folder name
      reference_testsystem e w = (Ok s, add_calls w cs).
Proof.
  intros Hf. unfold score_molecule.
  destruct (minimization_ok E
              (MinimizationTestParameters_init K platform
                 (initialize_system K nnp
                    (topology (with_testsystem_positions reference_testsystem
                                 (minimized_position e))))
                 (with_testsystem_positions reference_testsystem
                    (minimized_position e))
                 output_folder ("ref_" +:+ name +:+ "_" +:+ nnp))
              false Hf) as [sim1 Hrun1].
  destruct (minimization_ok E
              (MinimizationTestParameters_init K platform
                 (initialize_system K nnp
                    (topology (with_testsystem_positions
                                 (with_testsystem_positions reference_testsystem
                                    (minimized_position e))
                                 (start_position e))))
                 (with_testsystem_positions
                    (with_testsystem_positions reference_testsystem
                       (minimized_position e))
                    (start_position e))
                 output_folder ("minimize_" +:+ name +:+ "_" +:+ nnp_name))
              true Hf) as [sim2 Hrun2].
  eexists _, _. intros w. cbv zeta.
  mstep Hrun1. unfold state_getPotentialEnergy at 1. cbn [getPotentialEnergy].
  rewrite bind_ret.
  mstep Hrun2. unfold state_getPotentialEnergy, state_getPositions.
  cbn [getPotentialEnergy getPositions]. rewrite !bind_ret.
  unfold ret. rewrite add_calls_app. reflexivity.
Qed.

Lemma above_threshold_run (name : string) (atoms : Mol) (w : World) :
  _above_threshold threshold name (Some atoms) w =
  (Ok (heavy_atoms atoms >? threshold),
   add_calls w
     [log DEBUG (if heavy_atoms atoms >? threshold
                 then SkippingHeavy name threshold (heavy_atoms atoms)
                 else UsingLight name threshold (heavy_atoms atoms))]).
Proof.
  unfold _above_threshold. fold (heavy_atoms atoms).
  by destruct (heavy_atoms atoms >? threshold).
Qed.

Lemma contains_unknown_run (name : string) (atoms : Mol) (w : World) :
  _contains_unknown_elements K name (Some atoms) w =
  (Ok (negb (forallb (fun a => existsb (Z.eqb a) (_IMPLEMENTED_ELEMENTS K)) atoms)),
   add_calls w
     (if forallb (fun a => existsb (Z.eqb a) (_IMPLEMENTED_ELEMENTS K)) atoms
      then []
      else [log DEBUG (SkippingUnknownElements name)])).
Proof.
  unfold _contains_unknown_elements.
  destruct (forallb _ atoms); [by rewrite add_calls_nil | reflexivity].
Qed.

Lemma build_run_ok (name sdf_file : string) (ts : TestSystem) (w : World) :
  generate_testsystem K sdf_file = Ok ts ->
  try_except_ValueError
    (reference_testsystem <- lift (generate_testsystem K sdf_file) ;;
     ret (Some reference_testsystem))
    (fun msg => emit (log WARNING (SkippingBecause name msg)) ;; ret None) w =
  (Ok (Some ts), w).
Proof. intros Hts. unfold try_except_ValueError, bind, lift. by rewrite Hts. Qed.

Lemma build_run_skip (name sdf_file msg : string) (w : World) :
  generate_testsystem K sdf_file = Raise (ValueError msg) ->
  try_except_ValueError
    (reference_testsystem <- lift (generate_testsystem K sdf_file) ;;
     ret (Some reference_testsystem))
    (fun msg => emit (log WARNING (SkippingBecause name msg)) ;; ret None) w =
  (Ok None, add_calls w [log WARNING (SkippingBecause name msg)]).
Proof. intros Hts. unfold try_except_ValueError, bind, lift. by rewrite Hts. Qed.

(** A skipped item leaves [score] and [counter] as they are; all it does
    is log. *)
Lemma minimization_test_skipped (target : Z) (score : list (string * (R * R)))
    (counter : Z) (e : entry) :
  is_skipped e = true ->
  exists cs : list call,
    Forall (fun c => is_log c = true) cs /\
    forall w : World,
      minimization_test E K nnp nnp_name platform output_folder threshold
        target score counter e w = (Ok (Next, score, counter), add_calls w cs).
Proof.
  unfold is_skipped, verdict_of. intros Hv.
  destruct (generate_molecule_from_sdf K (sdf_file_of (start_file e)))
    as [atoms|] eqn:Hmol; [|discriminate].
  destruct (heavy_atoms atoms >? threshold) eqn:Hheavy.
  { eexists. split; [|intros w; unfold minimization_test;
                      rewrite bind_emit; cbv zeta; rewrite Hmol, bind_ret;
                      mstep above_threshold_run; rewrite Hheavy;
                      unfold ret; rewrite add_calls_app; reflexivity].
    by repeat constructor. }
  destruct (forallb _ atoms) eqn:Hknown.
  - destruct (generate_testsystem K (sdf_file_of (start_file e))) as [ts|[]] eqn:Hts;
      try discriminate.
    eexists. split; [|intros w; unfold minimization_test;
                      rewrite bind_emit; cbv zeta; rewrite Hmol, bind_ret;
                      mstep above_threshold_run; rewrite Hheavy;
                      mstep contains_unknown_run; rewrite Hknown; cbn [negb];
                      rewrite bind_emit;
                      erewrite bind_ok by (by apply build_run_skip);
                      unfold ret; rewrite !add_calls_app; reflexivity].
    by repeat constructor.
  - eexists. split; [|intros w; unfold minimization_test;
                      rewrite bind_emit; cbv zeta; rewrite Hmol, bind_ret;
                      mstep above_threshold_run; rewrite Hheavy;
                      mstep contains_unknown_run; rewrite Hknown; cbn [negb];
                      unfold ret; rewrite !add_calls_app; reflexivity].
    by repeat constructor.
Qed.

(** A scored item gets its entry in [score] and increments [counter]; the
    loop breaks when the counter has reached the target. *)
Lemma minimization_test_scored (target : Z) (score : list (string * (R * R)))
    (counter : Z) (e : entry) :
  default_annealing_fails K = false ->
  is_scored e = true ->
  exists (s : R * R) (cs : list call), forall w : World,
    minimization_test E K nnp nnp_name platform output_folder threshold
      target score counter e w =
    (Ok (if counter + 1 >=? target then Break else Next,
         dict_set score (molecule_name (start_file e)) s, counter + 1),
     add_calls w cs).
Proof.
  unfold is_scored, verdict_of. intros Hf Hv.
  destruct (generate_molecule_from_sdf K (sdf_file_of (start_file e)))
    as [atoms|] eqn:Hmol; [|discriminate].
  destruct (heavy_atoms atoms >? threshold) eqn:Hheavy; [discriminate|].
  destruct (forallb _ atoms) eqn:Hknown; [|discriminate].
  destruct (generate_testsystem K (sdf_file_of (start_file e))) as [ts|[]] eqn:Hts;
    try discriminate.
  destruct (score_molecule_ok (molecule_name (start_file e)) ts e Hf)
    as (s & cs & Hscore).
  exists s. eexists. intros w. unfold minimization_test.
  rewrite bind_emit. cbv zeta. rewrite Hmol, bind_ret.
  mstep above_threshold_run. rewrite Hheavy.
  mstep contains_unknown_run. rewrite Hknown. cbn [negb]. rewrite bind_emit.
  erewrite bind_ok by (by apply build_run_ok).
  cbv beta iota. mstep Hscore. rewrite bind_emit.
  destruct (counter + 1 >=? target); unfold ret; rewrite !add_calls_app; reflexivity.
Qed.

(** An item no molecule is generated from: the debug record is written and
    the next statement raises. *)
Lemma minimization_test_no_molecule (target : Z) (score : list (string * (R * R)))
    (counter : Z) (e : entry) (w : World) :
  generate_molecule_from_sdf K (sdf_file_of (start_file e)) = None ->
  minimization_test E K nnp nnp_name platform output_folder threshold
    target score counter e w =
  (Raise (AttributeError "'NoneType' object has no attribute 'GetAtoms'"),
   add_calls w [log INFO (MinimizationTest counter target);
                log DEBUG (NoMoleculeGenerated (sdf_file_of (start_file e)))]).
Proof.
  intros Hmol. unfold minimization_test.
  rewrite bind_emit. cbv zeta. rewrite Hmol, bind_emit.
  erewrite bind_raise by reflexivity. by rewrite add_calls_app.
Qed.

Lemma count_scored_cons (e : entry) (items : list entry) :
  count_scored (e :: items) =
  (if is_scored e then 1 else 0) + count_scored items.
Proof.
  unfold count_scored. simpl. destruct (is_scored e); simpl length; lia.
Qed.

Lemma count_scored_nonneg (items : list entry) : 0 <= count_scored items.
Proof. unfold count_scored. lia. Qed.

Lemma not_fatal_cases (e : entry) :
  is_fatal e = false -> is_skipped e = true \/ is_scored e = true.
Proof.
  unfold is_fatal, is_skipped, is_scored. destruct (verdict_of e); auto.
Qed.

Lemma scored_not_skipped (e : entry) : is_skipped e = true -> is_scored e = false.
Proof. unfold is_skipped, is_scored. by destruct (verdict_of e). Qed.

(** The loop from any value of the counter: it ends with the counter
    advanced by the number of scored items, or by what was missing to the
    target (one at least) if that is less. *)
Lemma minimization_loop_counter (target : Z) (items : list entry) :
  default_annealing_fails K = false ->
  Forall (fun e => is_fatal e = false) items ->
  forall (score : list (string * (R * R))) (counter : Z) (w : World),
  exists (score' : list (string * (R * R))) (w' : World),
    minimization_loop E K nnp nnp_name platform output_folder threshold
      target items score counter w =
    (Ok (score', counter + Z.min (count_scored items) (Z.max 1 (target - counter))),
     w').
Proof.
  intros Hf Hitems. induction Hitems as [|e items He _ IH]; intros score counter w.
  - exists score, w. simpl. unfold ret, count_scored. simpl.
    do 3 f_equal. lia.
  - rewrite count_scored_cons. simpl minimization_loop.
    destruct (not_fatal_cases e He) as [Hskip|Hscored].
    + destruct (minimization_test_skipped target score counter e Hskip)
        as (cs & _ & Hrun).
      mstep Hrun. rewrite (scored_not_skipped e Hskip).
      destruct (IH score counter (add_calls w cs)) as (score' & w' & Hloop).
      exists score', w'. rewrite Hloop. do 3 f_equal.
    + destruct (minimization_test_scored target score counter e Hf Hscored)
        as (s & cs & Hrun).
      mstep Hrun. rewrite Hscored.
      pose proof (count_scored_nonneg items) as Hnn.
      destruct (counter + 1 >=? target) eqn:Hge.
      * eexists _, _. unfold ret. do 3 f_equal. lia.
      * destruct (IH (dict_set score (molecule_name (start_file e)) s)
                     (counter + 1) (add_calls w cs)) as (score' & w' & Hloop).
        exists score', w'. rewrite Hloop. do 3 f_equal. lia.
Qed.

(** Once the scored items suffice to reach the target, nothing that
    follows them in the list is looked at. *)
Lemma minimization_loop_halts (target : Z) (items more : list entry) :
  default_annealing_fails K = false ->
  Forall (fun e => is_fatal e = false) items ->
  forall (score : list (string * (R * R))) (counter : Z) (w : World),
    Z.max 1 (target - counter) <= count_scored items ->
    minimization_loop E K nnp nnp_name platform output_folder threshold
      target (items ++ more) score counter w =
    minimization_loop E K nnp nnp_name platform output_folder threshold
      target items score counter w.
Proof.
  intros Hf Hitems. induction Hitems as [|e items He _ IH]; intros score counter w.
  - unfold count_scored. simpl. lia.
  - rewrite count_scored_cons. intros Hcount. simpl app. simpl minimization_loop.
    destruct (not_fatal_cases e He) as [Hskip|Hscored].
    + destruct (minimization_test_skipped target score counter e Hskip)
        as (cs & _ & Hrun).
      do 2 mstep Hrun. rewrite (scored_not_skipped e Hskip) in Hcount.
      apply IH. lia.
    + destruct (minimization_test_scored target score counter e Hf Hscored)
        as (s & cs & Hrun).
      do 2 mstep Hrun. rewrite Hscored in Hcount.
      destruct (counter + 1 >=? target) eqn:Hge; [reflexivity|].
      apply IH. lia.
Qed.

(** C2, amended.  The loop of the benchmark, started with an empty score
    and the counter 0 on items none of which raises, ends with the counter
    at the number of scored items or at the target, whichever is less,
    where a target below 1 counts as 1: the counter is compared with the
    target only after a molecule has been scored.  Once the scored items
    suffice, no later item is looked at.  An item that is skipped leaves
    the score and the counter unchanged and performs nothing but log
    calls.  [run_detect_minimum] runs this loop with the target
    [int(nr_of_molecules * (percentage / 100))] and returns its score. *)
Theorem benchmark_halts_at_target (files : Files) (percentage : number)
    (target : Z) (w : World) :
  default_annealing_fails K = false ->
  Forall (fun e => is_fatal e = false) (entries files) ->
  nr_of_molecules_to_test (total_number_of_systems files) percentage = Ok target ->
  let w0 := add_calls w [log INFO (PerformingMinimization target nnp_name)] in
  exists (score : list (string * (R * R))) (w1 w2 : World),
    minimization_loop E K nnp nnp_name platform output_folder threshold
      target (entries files) [] 0 w0 =
    (Ok (score, Z.min (count_scored (entries files)) (Z.max 1 target)), w1) /\
    run_detect_minimum E K nnp nnp_name platform output_folder threshold
      files percentage w = (Ok score, w2) /\
    (Z.max 1 target <= count_scored (entries files) ->
     forall more : list entry,
       minimization_loop E K nnp nnp_name platform output_folder threshold
         target (entries files ++ more) [] 0 w0 =
       (Ok (score, Z.max 1 target), w1)) /\
    (forall (e : entry) (s : list (string * (R * R))) (c : Z) (w3 : World),
       is_skipped e = true ->
       exists cs : list call,
         Forall (fun c => is_log c = true) cs /\
         minimization_test E K nnp nnp_name platform output_folder threshold
           target s c e w3 = (Ok (Next, s, c), add_calls w3 cs)).
Proof.
  intros Hf Hitems Htarget w0.
  destruct (minimization_loop_counter target (entries files) Hf Hitems [] 0 w0)
    as (score & w1 & Hloop).
  replace (target - 0) with target in Hloop by lia.
  assert (Hprint : exists w2 : World,
            run_detect_minimum E K nnp nnp_name platform output_folder threshold
              files percentage w = (Ok score, w2)).
  { unfold run_detect_minimum. rewrite Htarget.
    erewrite bind_ok by reflexivity. rewrite bind_emit. fold w0. mstep Hloop.
    cbn [fst].
    rewrite bind_emit. unfold bind.
    destruct (for_each _ score tt _) as [[[]|ex] w2] eqn:Hfor.
    - by exists w2.
    - exfalso. revert Hfor. generalize (add_calls w1 [print None]).
      clear. induction score as [|row score IH]; intros w0; simpl; [discriminate|].
      rewrite bind_emit. apply IH. }
  destruct Hprint as [w2 Hprint].
  exists score, w1, w2. split; [exact Hloop|]. split; [exact Hprint|]. split.
  - intros Hcount more.
    rewrite (minimization_loop_halts target (entries files) more Hf Hitems [] 0 w0)
      by lia.
    rewrite Hloop. do 3 f_equal. lia.
  - intros e s c w3 Hskip.
    destruct (minimization_test_skipped target s c e Hskip) as (cs & Hlogs & Hrun).
    exists cs. split; [exact Hlogs | apply Hrun].
Qed.

End BenchmarkProperties.

(** X2.  A molecule whose topology cannot be built: the [ValueError] is caught
    and logged as a warning, and the loop goes on with the next item, the
    score and the counter unchanged. *)
Theorem construction_error_is_skipped (E : Engine) (K : Toolkit)
    (nnp nnp_name : string) (platform : Platform) (output_folder : string)
    (threshold target : Z) (e : entry) (rest : list entry) (atoms : Mol)
    (msg : string) (score : list (string * (R * R))) (counter : Z) (w : World) :
  generate_molecule_from_sdf K (sdf_file_of (start_file e)) = Some atoms ->
  (heavy_atoms atoms >? threshold) = false ->
  forallb (fun a => existsb (Z.eqb a) (_IMPLEMENTED_ELEMENTS K)) atoms = true ->
  generate_testsystem K (sdf_file_of (start_file e)) = Raise (ValueError msg) ->
  minimization_loop E K nnp nnp_name platform output_folder threshold
    target (e :: rest) score counter w =
  minimization_loop E K nnp nnp_name platform output_folder threshold
    target rest score counter
    (add_calls w
       [log INFO (MinimizationTest counter target);
        log DEBUG (UsingLight (molecule_name (start_file e)) threshold
                     (heavy_atoms atoms));
        log DEBUG (SdfFile (sdf_file_of (start_file e)));
        log WARNING (SkippingBecause (molecule_name (start_file e)) msg)]).
Proof.
  intros Hmol Hheavy Hknown Hts. simpl minimization_loop.
  erewrite bind_ok; cycle 1.
  { unfold minimization_test. rewrite bind_emit. cbv zeta. rewrite Hmol, bind_ret.
    mstep above_threshold_run. rewrite Hheavy.
    mstep contains_unknown_run. rewrite Hknown. cbn [negb]. rewrite bind_emit.
    erewrite bind_ok by (by apply build_run_skip).
    unfold ret. by rewrite !add_calls_app. }
  reflexivity.
Qed.

Lemma construction_error_is_skipped_witness :
  minimization_loop Sample.engine Sample.toolkit "ani2x" "ani2x" (PlatformHandle 0)
    "out" 20 1 [Sample.item "odd.xyz"] [] 0 Sample.empty_world =
  (Ok ([], 0),
   {| parameters_heap := []; reporter_heap := [];
      calls := [log INFO (MinimizationTest 0 1);
                log DEBUG (UsingLight "odd" 20 2);
                log DEBUG (SdfFile "odd.sdf");
                log WARNING (SkippingBecause "odd" "no topology")] |}).
Proof.
  rewrite (construction_error_is_skipped Sample.engine Sample.toolkit "ani2x" "ani2x"
             (PlatformHandle 0) "out" 20 1 (Sample.item "odd.xyz") [] [6; 8]
             "no topology" [] 0 Sample.empty_world eq_refl eq_refl eq_refl eq_refl).
  reflexivity.
Defined.

(** C2, as the spec states it, fails: of two molecules, with percentage
    100 and so a target of 2, the first is skipped for its 30 heavy atoms
    and the second is scored; the loop ends because the items are
    exhausted, with the counter at 1, below [floor(2 * 100 / 100) = 2]. *)
Lemma benchmark_ends_below_target :
  nr_of_molecules_to_test 2 (Int 100) = Ok 2 /\
  (exists (score : list (string * (R * R))) (w' : World),
     minimization_loop Sample.engine Sample.toolkit "ani2x" "ani2x" (PlatformHandle 0)
       "out" 20 2 [Sample.item "c30.xyz"; Sample.item "methane.xyz"] [] 0
       Sample.empty_world = (Ok (score, 1), w')) /\
  1 < 2 * 100 / 100.
Proof.
  split; [by vm_compute|]. split; [|by vm_compute].
  destruct (minimization_loop_counter Sample.engine Sample.toolkit "ani2x" "ani2x"
              (PlatformHandle 0) "out" 20 2
              [Sample.item "c30.xyz"; Sample.item "methane.xyz"]
              eq_refl ltac:(by repeat constructor) [] 0 Sample.empty_world)
    as (score & w' & Hloop).
  exists score, w'. rewrite Hloop. reflexivity.
Qed.

Lemma benchmark_halts_at_target_witness :
  exists (score : list (string * (R * R))) (w' : World),
    run_detect_minimum Sample.engine Sample.toolkit "ani2x" "ani2x" (PlatformHandle 0)
      "out" 20
      {| total_number_of_systems := 2;
         entries := [Sample.item "c30.xyz"; Sample.item "methane.xyz"] |}
      (Int 50) Sample.empty_world = (Ok score, w').
Proof.
  destruct (benchmark_halts_at_target Sample.engine Sample.toolkit "ani2x" "ani2x"
              (PlatformHandle 0) "out" 20
              {| total_number_of_systems := 2;
                 entries := [Sample.item "c30.xyz"; Sample.item "methane.xyz"] |}
              (Int 50) 1 Sample.empty_world
              eq_refl ltac:(by repeat constructor) eq_refl)
    as (score & w1 & w2 & _ & Hrun & _).
  exists score, w2. exact Hrun.
Defined.

(** C6.  Evaluation at the failing input: the first of two molecules has
    an SDF file no molecule is generated from.  The pipeline logs this and
    then raises [AttributeError]; the second molecule is never looked at. *)
Theorem missing_molecule_aborts_the_pipeline :
  run_detect_minimum Sample.engine Sample.toolkit "ani2x" "ani2x" (PlatformHandle 0)
    "out" 20
    {| total_number_of_systems := 2;
       entries := [Sample.item "bad.xyz"; Sample.item "methane.xyz"] |}
    (Int 100) Sample.empty_world =
  (Raise (AttributeError "'NoneType' object has no attribute 'GetAtoms'"),
   {| parameters_heap := []; reporter_heap := [];
      calls := [log INFO (PerformingMinimization 2 "ani2x");
                log INFO (MinimizationTest 0 2);
                log DEBUG (NoMoleculeGenerated "bad.sdf")] |}).
Proof.
  unfold run_detect_minimum.
  erewrite bind_ok by (unfold lift; f_equal; by vm_compute).
  rewrite bind_emit.
  erewrite bind_raise; cycle 1.
  { cbn [entries]. simpl minimization_loop.
    erewrite bind_raise; [reflexivity|].
    by rewrite minimization_test_no_molecule. }
  reflexivity.
Qed.

(** X3.  The target count is computed in binary64: for 100 molecules and 29
    percent, [29 / 100] rounds to a double below 0.29 and the product
    truncates to 28, one less than [floor(100 * 29 / 100)]. *)
Theorem target_count_is_rounded :
  nr_of_molecules_to_test 100 (Int 29) = Ok 28 /\ 100 * 29 / 100 = 29.
Proof. split; by vm_compute. Qed.

(** * Further properties of the protocols *)

(** ** [set_bond_length] *)

Lemma vsub_vadd (p v : vec3) : vsub (vadd p v) p = v.
Proof.
  destruct p as [[px py_] pz], v as [[vx vy] vz]. unfold vsub, vadd.
  f_equal; [f_equal|]; ring.
Qed.

Lemma norm_zero : norm (0, 0, 0)%R = 0%R.
Proof. unfold norm. replace (0 * 0 + 0 * 0 + 0 * 0)%R with 0%R by ring. apply sqrt_0. Qed.

Lemma vsub_diag (p : vec3) : vsub p p = (0, 0, 0)%R.
Proof. destruct p as [[px py_] pz]. unfold vsub. f_equal; [f_equal|]; ring. Qed.

Lemma norm_scaled_unit (d : vec3) (L : R) :
  norm d <> 0%R -> norm (vscale (vdiv d (norm d)) L) = Rabs L.
Proof.
  destruct d as [[x y] z]. set (n := norm (x, y, z)). intros Hn0.
  assert (Hs : (0 <= x * x + y * y + z * z)%R) by nra.
  assert (Hnn : (n * n = x * x + y * y + z * z)%R).
  { unfold n, norm. by apply sqrt_sqrt. }
  unfold vscale, vdiv, norm.
  replace (x / n * L * (x / n * L) + y / n * L * (y / n * L) + z / n * L * (z / n * L))%R
    with (Rsqr L).
  - apply sqrt_Rsqr_abs.
  - unfold Rsqr. field_simplify_eq; [|exact Hn0].
    replace (n ^ 2)%R with (x * x + y * y + z * z)%R by (rewrite <- Hnn; ring). ring.
Qed.




(** X4.  [set_bond_length] does what its name says: for two atoms at
    distinct positions it returns a geometry of the same size in which the
    first atom is where it was and the second atom is at distance
    [|length|] from it. *)
Theorem set_bond_length_sets_the_distance (pos : list vec3) (atom1 atom2 : Z)
    (k1 k2 : nat) (p1 p2 : vec3) (L : R) :
  py_index (length pos) atom1 = Ok k1 -> py_index (length pos) atom2 = Ok k2 ->
  pos !! k1 = Some p1 -> pos !! k2 = Some p2 ->
  norm (vsub p2 p1) <> 0%R ->
  exists (new : list vec3) (q : vec3),
    BondProfileProtocol.set_bond_length pos atom1 atom2 L = Ok new /\
    length new = length pos /\
    new !! k1 = Some p1 /\ new !! k2 = Some q /\
    norm (vsub q p1) = Rabs L.
Proof.
  intros H1 H2 Hp1 Hp2 Hn.
  assert (Hk : k1 <> k2).
  { intros ->. rewrite Hp1 in Hp2. injection Hp2 as ->.
    apply Hn. rewrite vsub_diag. apply norm_zero. }
  eexists _, _. split; [by eapply set_bond_length_ok|]. unfold repositioned.
  split; [apply length_insert|]. split; [|split].
  - by rewrite list_lookup_insert_ne.
  - apply list_lookup_insert_eq. by apply lookup_lt_Some in Hp2.
  - rewrite vsub_vadd. by apply norm_scaled_unit.
Qed.

Lemma set_bond_length_sets_the_distance_witness :
  exists (new : list vec3) (q : vec3),
    BondProfileProtocol.set_bond_length [(0, 0, 0); (1, 0, 0)]%R 0 1 3 = Ok new /\
    new !! 1%nat = Some q /\ norm (vsub q (0, 0, 0)%R) = Rabs 3.
Proof.
  assert (Hn : norm (vsub (1, 0, 0) (0, 0, 0))%R <> 0%R).
  { unfold norm, vsub.
    replace ((1 - 0) * (1 - 0) + (0 - 0) * (0 - 0) + (0 - 0) * (0 - 0))%R
      with 1%R by ring.
    rewrite sqrt_1. lra. }
  destruct (set_bond_length_sets_the_distance [(0, 0, 0); (1, 0, 0)]%R 0 1
              0%nat 1%nat (0, 0, 0)%R (1, 0, 0)%R 3
              eq_refl eq_refl eq_refl eq_refl Hn)
    as (new & q & Hrun & _ & _ & Hq & Hd).
  by exists new, q.
Defined.



(** ** [DOFTest.perform_scan] *)

(** The simulation [DOFTest.setup_simulation] creates. *)
Definition scan_simulation (D : CreateSimulationDefaults)
    (parameters : DOFTestParameters.t) : Simulation :=
  {| sim_system := DOFTestParameters.system parameters;
     sim_topology := topology (DOFTestParameters.testsystem parameters);
     sim_platform := DOFTestParameters.platform parameters;
     sim_env := "vacuum";
     sim_device_index := create_device_index D;
     sim_ensemble := create_ensemble D;
     integrator_temperature := TInt 300;
     context_positions := positions (DOFTestParameters.testsystem parameters) |}.

(** The calls of [DOFTest.setup_simulation]. *)
Definition scan_setup_calls (D : CreateSimulationDefaults)
    (parameters : DOFTestParameters.t) : list call :=
  let testsystem := DOFTestParameters.testsystem parameters in
  let pdb := (DOFTestParameters.output_folder parameters +:+ "/" +:+
              DOFTestParameters.log_file_name parameters) +:+ ".pdb" in
  [create_simulation (DOFTestParameters.system parameters) (topology testsystem)
     (DOFTestParameters.platform parameters) (TInt 300) "vacuum"
     (create_device_index D) (create_ensemble D);
   setPositions (positions testsystem);
   getState true true;
   open_w pdb;
   writeFile pdb (topology testsystem) (positions testsystem)].

Lemma scan_setup_run (E : Engine) (D : CreateSimulationDefaults)
    (parameters : DOFTestParameters.t) (w : World) :
  DOFTest.setup_simulation E D parameters w =
  (Ok (scan_simulation D parameters), add_calls w (scan_setup_calls D parameters)).
Proof.
  unfold DOFTest.setup_simulation.
  mstep create_simulation_run. mstep setPositions_run. mstep getState_run.
  unfold state_getPositions. cbn [getPositions]. rewrite bind_ret.
  erewrite bind_ok by apply writeFile_run. unfold ret.
  rewrite !add_calls_app. reflexivity.
Qed.

Lemma combine_map_r {A B : Type} (f : A -> B) (l : list A) :
  combine l (map f l) = map (fun x => (x, f x)) l.
Proof. induction l as [|x l IH]; [done|]. simpl. by rewrite IH. Qed.

(** The result of a scan over a pair of atoms. *)
Lemma perform_scan_run (E : Engine) (D : CreateSimulationDefaults)
    (parameters : DOFTestParameters.t) (atom1 atom2 : Z) (k1 k2 : nat)
    (p1 p2 : vec3) (w : World) :
  let initial_pos := positions (DOFTestParameters.testsystem parameters) in
  let lengths := linspace 0 (DOFTestParameters.bond_length_max parameters) 100 in
  let path := DOFTestParameters.output_folder parameters +:+ "/" +:+
              DOFTestParameters.log_file_name parameters in
  DOFTestParameters.bond parameters = [atom1; atom2] ->
  py_index (length initial_pos) atom1 = Ok k1 ->
  py_index (length initial_pos) atom2 = Ok k2 ->
  initial_pos !! k1 = Some p1 ->
  initial_pos !! k2 = Some p2 ->
  DOFTest.perform_scan E D parameters w =
  (Ok {| dcd_file := path +:+ ".dcd";
         dcd_frames := map (repositioned initial_pos k2 p1 p2) lengths;
         csv_file := path +:+ ".csv";
         csv_header := ["bond distance [A]"; "potential energy [kJ/mol]"];
         csv_rows :=
           map (fun L => (L, potential_energy E
                               (with_positions (scan_simulation D parameters)
                                  (repositioned initial_pos k2 p1 p2 L)))) lengths |},
   add_calls w (scan_setup_calls D parameters ++
                flat_map (sample_calls (repositioned initial_pos k2 p1 p2)) lengths ++
                [open_w (path +:+ ".csv")])).
Proof.
  intros initial_pos lengths path Hbond H1 H2 Hp1 Hp2.
  destruct (scan_loop_run E initial_pos atom1 atom2 k1 k2 p1 p2 H1 H2 Hp1 Hp2
              lengths (scan_simulation D parameters)
              {| BondProfileProtocol.potential_energy_list := [];
                 BondProfileProtocol.conformations := [];
                 BondProfileProtocol.bond_length := [] |}
              (add_calls w (scan_setup_calls D parameters))) as [sim' Hrun].
  unfold DOFTest.perform_scan. mstep scan_setup_run.
  erewrite bind_ok; cycle 1.
  { unfold BondProfileProtocol.perform_DOF_scan. rewrite Hbond.
    fold initial_pos lengths. erewrite bind_ok by exact Hrun. reflexivity. }
  cbv beta. rewrite bind_emit. unfold ret. cbn [snd
    BondProfileProtocol.potential_energy_list BondProfileProtocol.conformations
    BondProfileProtocol.bond_length app].
  rewrite combine_map_r, !add_calls_app. reflexivity.
Qed.

(** X6.  A bond scan over two atoms at distinct positions, run through
    [DOFTest.perform_scan], creates its own simulation at 300 K in vacuum, whatever the parameters say, and writes
    the initial geometry to [{output_folder}/{log_file_name}.pdb] before
    the first sample.  It then takes the 100 samples and writes, under the
    same path, a trajectory of the 100 geometries and a table whose row
    [i] pairs the length of sample [i] with the potential energy of the
    geometry [set_bond_length] gives for that length.  It calls neither
    [minimizeEnergy] nor [step]. *)
Theorem perform_scan_writes (E : Engine) (D : CreateSimulationDefaults)
    (parameters : DOFTestParameters.t) (atom1 atom2 : Z) (k1 k2 : nat)
    (p1 p2 : vec3) (w : World) :
  let initial_pos := positions (DOFTestParameters.testsystem parameters) in
  let lengths := linspace 0 (DOFTestParameters.bond_length_max parameters) 100 in
  let path := DOFTestParameters.output_folder parameters +:+ "/" +:+
              DOFTestParameters.log_file_name parameters in
  DOFTestParameters.bond parameters = [atom1; atom2] ->
  py_index (length initial_pos) atom1 = Ok k1 ->
  py_index (length initial_pos) atom2 = Ok k2 ->
  initial_pos !! k1 = Some p1 ->
  initial_pos !! k2 = Some p2 ->
  norm (vsub p2 p1) <> 0%R ->
  exists (files : scan_files) (w' : World) (geometry : R -> list vec3),
    DOFTest.perform_scan E D parameters w = (Ok files, w') /\
    (forall L : R,
       BondProfileProtocol.set_bond_length initial_pos atom1 atom2 L =
       Ok (geometry L)) /\
    calls w' = calls w ++ scan_setup_calls D parameters ++
               flat_map (sample_calls geometry) lengths ++
               [open_w (path +:+ ".csv")] /\
    dcd_file files = path +:+ ".dcd" /\
    dcd_frames files = map geometry lengths /\
    csv_file files = path +:+ ".csv" /\
    csv_header files = ["bond distance [A]"; "potential energy [kJ/mol]"] /\
    csv_rows files =
      map (fun L => (L, potential_energy E
                          (with_positions (scan_simulation D parameters)
                                          (geometry L)))) lengths /\
    length (csv_rows files) = 100%nat /\
    (forall c : call, c ∈ calls w' -> c ∈ calls w \/
       (forall t n, c <> minimizeEnergy t n) /\ (forall n, c <> step n)).
Proof.
  intros initial_pos lengths path Hbond H1 H2 Hp1 Hp2 Hdistinct.
  eexists _, _, (repositioned initial_pos k2 p1 p2).
  split; [by eapply perform_scan_run|].
  cbn [dcd_file dcd_frames csv_file csv_header csv_rows].
  split; [intros L; by eapply set_bond_length_ok|].
  split; [reflexivity|]. do 4 (split; [reflexivity|]).
  split; [reflexivity|]. split.
  - rewrite length_map. apply linspace_length.
  - intros c Hc. cbn [calls add_calls] in Hc.
    apply elem_of_app in Hc as [Hc|Hc]; [by left|right].
    apply elem_of_app in Hc as [Hc|Hc].
    { unfold scan_setup_calls in Hc. cbv zeta in Hc.
      repeat (apply elem_of_cons in Hc as [->|Hc]; [split; intros; discriminate|]).
      by apply elem_of_nil in Hc. }
    apply elem_of_app in Hc as [Hc|Hc].
    { apply list_elem_of_In, in_flat_map in Hc as [L [_ Hc]].
      unfold sample_calls in Hc. simpl in Hc.
      destruct Hc as [<-|[<-|[]]]; split; intros; discriminate. }
    apply elem_of_cons in Hc as [->|Hc]; [split; intros; discriminate|].
    by apply elem_of_nil in Hc.
Qed.

Lemma perform_scan_writes_witness :
  exists (files : scan_files) (w' : World),
    DOFTest.perform_scan Sample.engine Scenario.defaults Sample.dof_parameters
      Sample.empty_world = (Ok files, w') /\
    csv_file files = "out/scan.csv" /\
    length (csv_rows files) = 100%nat.
Proof.
  assert (Hnorm : norm (vsub (1, 0, 0)%R (0, 0, 0)%R) <> 0%R).
  { unfold norm, vsub.
    replace ((1 - 0) * (1 - 0) + (0 - 0) * (0 - 0) + (0 - 0) * (0 - 0))%R
      with 1%R by ring.
    rewrite sqrt_1. lra. }
  destruct (perform_scan_writes Sample.engine Scenario.defaults Sample.dof_parameters
              0 1 0%nat 1%nat (0, 0, 0)%R (1, 0, 0)%R Sample.empty_world
              eq_refl eq_refl eq_refl eq_refl eq_refl Hnorm)
    as (files & w' & geometry & Hrun & _ & _ & _ & _ & Hcsv & _ & _ & Hlen & _).
  exists files, w'. split; [exact Hrun|]. split; [exact Hcsv|exact Hlen].
Defined.

(** X7.  A scan that cannot start leaves a [.pdb] behind: with no bond
    ([AssertionError]) or with a bond that is no pair of atoms
    ([ValueError] of the unpacking), [perform_scan] raises only after the
    simulation has been created and the initial geometry written; it takes
    no sample and opens no [.csv] file. *)
Theorem perform_scan_without_a_pair (E : Engine) (D : CreateSimulationDefaults)
    (parameters : DOFTestParameters.t) (w : World) :
  length (DOFTestParameters.bond parameters) <> 2%nat ->
  exists e : exn,
    DOFTest.perform_scan E D parameters w =
    (Raise e, add_calls w (scan_setup_calls D parameters)) /\
    (DOFTestParameters.bond parameters = [] -> e = AssertionError) /\
    (DOFTestParameters.bond parameters <> [] ->
     e = ValueError "wrong number of values to unpack").
Proof.
  intros Hlen. unfold DOFTest.perform_scan. mstep scan_setup_run.
  unfold BondProfileProtocol.perform_DOF_scan.
  destruct (DOFTestParameters.bond parameters) as [|a [|b [|c rest]]] eqn:Hbond.
  - exists AssertionError. split; [reflexivity|]. split; [done|]. by intros [].
  - eexists. split; [reflexivity|]. split; [discriminate|done].
  - by destruct Hlen.
  - eexists. split; [reflexivity|]. split; [discriminate|done].
Qed.

Lemma perform_scan_without_a_pair_witness :
  exists (e : exn) (w' : World),
    DOFTest.perform_scan Sample.engine Scenario.defaults
      {| DOFTestParameters.system := SystemHandle 0;
         DOFTestParameters.platform := PlatformHandle 0;
         DOFTestParameters.testsystem := Sample.diatomic;
         DOFTestParameters.output_folder := "out";
         DOFTestParameters.log_file_name := "scan";
         DOFTestParameters.bond := [0; 1; 2];
         DOFTestParameters.bond_length_max := 2 |}
      Sample.empty_world = (Raise e, w').
Proof.
  destruct (perform_scan_without_a_pair Sample.engine Scenario.defaults
              {| DOFTestParameters.system := SystemHandle 0;
                 DOFTestParameters.platform := PlatformHandle 0;
                 DOFTestParameters.testsystem := Sample.diatomic;
                 DOFTestParameters.output_folder := "out";
                 DOFTestParameters.log_file_name := "scan";
                 DOFTestParameters.bond := [0; 1; 2];
                 DOFTestParameters.bond_length_max := 2 |}
              Sample.empty_world) as (e & Hrun & _).
  { simpl. lia. }
  eexists e, _. exact Hrun.
Defined.

(** ** A run of the propagation protocol *)

Lemma ramp_calls_cases {P : Type} `{TestParameters P} (parameters : P) (c : call) :
  c ∈ ramp_calls parameters -> c = step 100 \/ exists t : R, c = setTemperature t.
Proof.
  unfold ramp_calls. destruct (getattr_simulated_annealing parameters);
    [|by intros ?%elem_of_nil].
  destruct (scalar_temperature (temperature parameters)); [|by intros ?%elem_of_nil].
  intros Hc. apply list_elem_of_In, in_flat_map in Hc as [t [_ Hc]].
  destruct Hc as [<-|[<-|[]]]; [by left|right; by exists t].
Qed.

(** X8.  A run of [PropagationProtocol] at an int temperature [T]: the
    simulation is created, given the initial positions and minimized once
    (tolerance 1, at most 1000 iterations) before anything else; after the
    annealing ramp, if one was asked for, the output folder is made, the
    INITIAL positions of the test system (not the minimized ones) are
    written to [{folder}/{name}_{T}.pdb], the three reporters are
    attached, the trajectory reporter with the report interval of the
    state reporter, and the simulation is propagated for
    [protocol_length] steps in a single call.  The caller's state
    reporter ends up writing to [{folder}/{name}_{T}.csv], with [_step]
    on; no other reporter object is touched. *)
Theorem propagation_run (E : Engine) (parms : loc) (p : StabilityTestParameters.t)
    (T : Z) (rep : StateDataReporter) (w : World) :
  let r := StabilityTestParameters.state_data_reporter p in
  let testsystem := StabilityTestParameters.testsystem p in
  let file := StabilityTestParameters.output_folder p +:+ "/" +:+
              (StabilityTestParameters.log_file_name p +:+ "_" +:+ str T) in
  parameters_heap w !! parms = Some p ->
  StabilityTestParameters.temperature p = TInt T ->
  reporter_heap w !! r = Some rep ->
  StabilityTestParameters.simulated_annealing p &&
    bool_decide (StabilityTestParameters.ensemble p = Some "npt") = false ->
  exists (w' : World) (ramp : list call),
    PropagationProtocol.perform_stability_test E parms w = (Ok tt, w') /\
    calls w' = calls w ++
      [create_simulation (StabilityTestParameters.system p) (topology testsystem)
         (StabilityTestParameters.platform p) (TInt T)
         (StabilityTestParameters.env p) (StabilityTestParameters.device_index p)
         (StabilityTestParameters.ensemble p);
       setPositions (positions testsystem);
       minimizeEnergy 1 1000] ++
      ramp ++
      [mkdir (StabilityTestParameters.output_folder p);
       open_w (file +:+ ".pdb");
       writeFile (file +:+ ".pdb") (topology testsystem) (positions testsystem);
       open_w (file +:+ ".csv");
       reporters_append (DCDReporter (file +:+ ".dcd") (_reportInterval rep));
       reporters_append (StateDataReporterAt r);
       reporters_append
         (ContinuousProgressReporter 100 (StabilityTestParameters.protocol_length p));
       step (StabilityTestParameters.protocol_length p)] /\
    (StabilityTestParameters.simulated_annealing p = false -> ramp = []) /\
    (forall c : call, c ∈ ramp -> c = step 100 \/ exists t : R, c = setTemperature t) /\
    reporter_heap w' !! r =
      Some {| _out := Some (file +:+ ".csv"); _step := true;
              _reportInterval := _reportInterval rep |} /\
    (forall r' : loc, r' <> r -> reporter_heap w' !! r' = reporter_heap w !! r').
Proof.
  intros r testsystem file Hp HT Hrep Hf.
  assert (Hf' : annealing_fails (renamed p T) = false).
  { unfold annealing_fails. simpl. rewrite HT. by rewrite orb_false_r. }
  eexists _, (ramp_calls (renamed p T)).
  split; [by apply propagation_ok|].
  cbn [calls reporter_heap]. split; [|split; [|split; [|split]]].
  - unfold setup_calls, run_calls. simpl. rewrite HT.
    unfold StabilityTest.default_minimization_tolerance.
    reflexivity.
  - intros Ha. unfold ramp_calls. simpl. by rewrite Ha.
  - apply ramp_calls_cases.
  - apply list_lookup_insert_eq. by apply lookup_lt_Some in Hrep.
  - intros r' Hr'. by apply list_lookup_insert_ne.
Qed.

Lemma propagation_run_witness :
  exists w' : World,
    PropagationProtocol.perform_stability_test Sample.engine 0%nat
      (Sample.world (Sample.stability_parameters (TInt 300) false (Some "nvt"))) =
    (Ok tt, w') /\
    reporter_heap w' !! 0%nat =
      Some {| _out := Some "out/vacuum_ZINC_300.csv"; _step := true;
              _reportInterval := 1 |}.
Proof.
  destruct (propagation_run Sample.engine 0%nat
              (Sample.stability_parameters (TInt 300) false (Some "nvt")) 300
              Sample.state_data_reporter
              (Sample.world (Sample.stability_parameters (TInt 300) false (Some "nvt")))
              eq_refl eq_refl eq_refl eq_refl)
    as (w' & ramp & Hrun & _ & _ & _ & Hrep & _).
  exists w'. split; [exact Hrun|exact Hrep].
Defined.

Lemma string_length_app (a b : string) :
  String.length (a +:+ b) = (String.length a + String.length b)%nat.
Proof. induction a as [|c a IH]; [done|]. simpl. by rewrite IH. Qed.

(** X9.  The propagation protocol is not idempotent on its parameters:
    run twice on the same parameters object, the second run appends the
    temperature to the name the first run left, so its files are named
    [{name}_{T}_{T}] and the files of the first run are not overwritten. *)
Theorem propagation_twice (E : Engine) (parms : loc) (p : StabilityTestParameters.t)
    (T : Z) (rep : StateDataReporter) (w : World) :
  let r := StabilityTestParameters.state_data_reporter p in
  let name1 := StabilityTestParameters.log_file_name p +:+ "_" +:+ str T in
  let name2 := name1 +:+ "_" +:+ str T in
  parameters_heap w !! parms = Some p ->
  StabilityTestParameters.temperature p = TInt T ->
  reporter_heap w !! r = Some rep ->
  StabilityTestParameters.simulated_annealing p &&
    bool_decide (StabilityTestParameters.ensemble p = Some "npt") = false ->
  exists w1 w2 : World,
    PropagationProtocol.perform_stability_test E parms w = (Ok tt, w1) /\
    PropagationProtocol.perform_stability_test E parms w1 = (Ok tt, w2) /\
    StabilityTestParameters.log_file_name <$> parameters_heap w1 !! parms = Some name1 /\
    StabilityTestParameters.log_file_name <$> parameters_heap w2 !! parms = Some name2 /\
    _out <$> reporter_heap w1 !! r =
      Some (Some ((StabilityTestParameters.output_folder p +:+ "/" +:+ name1) +:+ ".csv")) /\
    _out <$> reporter_heap w2 !! r =
      Some (Some ((StabilityTestParameters.output_folder p +:+ "/" +:+ name2) +:+ ".csv")) /\
    name1 <> name2.
Proof.
  intros r name1 name2 Hp HT Hrep Hf.
  pose proof (lookup_lt_Some _ _ _ Hp) as Hlt.
  pose proof (lookup_lt_Some _ _ _ Hrep) as Hltr.
  assert (Hf1 : annealing_fails (renamed p T) = false).
  { unfold annealing_fails. simpl. rewrite HT. by rewrite orb_false_r. }
  assert (Hf2 : annealing_fails (renamed (renamed p T) T) = false).
  { unfold annealing_fails. simpl. rewrite HT. by rewrite orb_false_r. }
  eexists _, _. split; [by apply propagation_ok|].
  split.
  { eapply (propagation_ok E parms (renamed p T) T (redirected rep (renamed p T))).
    - cbn [parameters_heap]. by apply list_lookup_insert_eq.
    - exact HT.
    - cbn [reporter_heap]. by apply list_lookup_insert_eq.
    - exact Hf2. }
  cbn [parameters_heap reporter_heap].
  rewrite !list_lookup_insert_eq by (rewrite ?length_insert; assumption).
  do 4 (split; [reflexivity|]).
  unfold name2. intros Heq.
  assert (Hlen : String.length name1 = String.length (name1 +:+ "_" +:+ str T))
    by (by rewrite <- Heq).
  rewrite !string_length_app in Hlen. simpl in Hlen. lia.
Qed.

Lemma propagation_twice_witness :
  exists w1 w2 : World,
    PropagationProtocol.perform_stability_test Sample.engine 0%nat
      (Sample.world (Sample.stability_parameters (TInt 300) false (Some "nvt"))) =
    (Ok tt, w1) /\
    PropagationProtocol.perform_stability_test Sample.engine 0%nat w1 = (Ok tt, w2) /\
    StabilityTestParameters.log_file_name <$> parameters_heap w2 !! 0%nat =
    Some "vacuum_ZINC_300_300".
Proof.
  destruct (propagation_twice Sample.engine 0%nat
              (Sample.stability_parameters (TInt 300) false (Some "nvt")) 300
              Sample.state_data_reporter
              (Sample.world (Sample.stability_parameters (TInt 300) false (Some "nvt")))
              eq_refl eq_refl eq_refl eq_refl)
    as (w1 & w2 & Hrun1 & Hrun2 & _ & Hname & _).
  exists w1, w2. split; [exact Hrun1|]. split; [exact Hrun2|exact Hname].
Defined.

(** ** The reporter the runs of a multi-temperature protocol share *)

Lemma multi_temperature_loop_reporter (E : Engine) (parms : loc)
    (p : StabilityTestParameters.t) (temperatures : list Z) :
  StabilityTestParameters.simulated_annealing p &&
    bool_decide (StabilityTestParameters.ensemble p = Some "npt") = false ->
  forall (rep : StateDataReporter) (w : World),
    parameters_heap w !! parms = Some p ->
    reporter_heap w !! StabilityTestParameters.state_data_reporter p = Some rep ->
    for_each (MultiTemperatureProtocol.run_at E parms) temperatures tt w =
    (Ok tt,
     {| parameters_heap := parameters_heap w ++ map (clone p) temperatures;
        reporter_heap :=
          match last temperatures with
          | Some T => <[StabilityTestParameters.state_data_reporter p :=
                          redirected rep (clone p T)]> (reporter_heap w)
          | None => reporter_heap w
          end;
        calls := calls w ++
                 flat_map (run_at_calls p (_reportInterval rep)) temperatures |}).
Proof.
  intros Hf. induction temperatures as [|T rest IH]; intros rep w Hp Hrep.
  - simpl. rewrite !app_nil_r. by destruct w.
  - simpl for_each.
    erewrite bind_ok by (by apply run_at_ok).
    rewrite (IH (redirected rep (clone p T))); cycle 1.
    { cbn [parameters_heap]. by apply lookup_app_l_Some. }
    { cbn [reporter_heap]. apply list_lookup_insert_eq.
      by apply lookup_lt_Some in Hrep. }
    cbn [parameters_heap reporter_heap calls map flat_map].
    rewrite last_cons. f_equal. f_equal.
    + by rewrite <- app_assoc.
    + destruct (last rest) as [T'|]; [|done].
      by rewrite list_insert_insert_eq.
    + by rewrite <- !app_assoc.
Qed.

(** X10.  The runs of a multi-temperature protocol over a non-empty list
    of temperatures, with no annealing requested under [npt], share the
    caller's state reporter: every clone refers to the same reporter
    object, each run redirects it to its own csv file, and after the
    protocol it is left writing to the csv file of the LAST temperature of
    the list, [{folder}/{name}_{T}K.csv], with [_step] on and its report
    interval unchanged.  No other reporter object is touched.  (With
    annealing under [npt] the first setup raises and the reporter is not
    reached: that case is left out.) *)
Theorem multi_temperature_shares_the_reporter (E : Engine) (parms : loc)
    (p : StabilityTestParameters.t) (temperatures : list Z) (T : Z)
    (rep : StateDataReporter) (w : World) :
  let r := StabilityTestParameters.state_data_reporter p in
  parameters_heap w !! parms = Some p ->
  StabilityTestParameters.temperature p = TList (temperatures ++ [T]) ->
  reporter_heap w !! r = Some rep ->
  StabilityTestParameters.simulated_annealing p &&
    bool_decide (StabilityTestParameters.ensemble p = Some "npt") = false ->
  exists w' : World,
    MultiTemperatureProtocol.perform_stability_test E parms w = (Ok tt, w') /\
    reporter_heap w' !! r =
      Some {| _out := Some ((StabilityTestParameters.output_folder p +:+ "/" +:+
                             StabilityTestParameters.log_file_name p +:+ "_" +:+
                             str T +:+ "K") +:+ ".csv");
              _step := true;
              _reportInterval := _reportInterval rep |} /\
    (forall r' : loc, r' <> r -> reporter_heap w' !! r' = reporter_heap w !! r') /\
    (forall (i : nat) (c : StabilityTestParameters.t),
       (length (parameters_heap w) <= i)%nat ->
       parameters_heap w' !! i = Some c ->
       StabilityTestParameters.state_data_reporter c = r).
Proof.
  intros r Hp HT Hrep Hf.
  eexists. split.
  { unfold MultiTemperatureProtocol.perform_stability_test.
    erewrite bind_ok by (unfold read_parameters; by rewrite Hp).
    rewrite HT. by apply multi_temperature_loop_reporter. }
  cbn [reporter_heap parameters_heap]. rewrite last_snoc.
  split; [|split].
  - apply list_lookup_insert_eq. by apply lookup_lt_Some in Hrep.
  - intros r' Hr'. by apply list_lookup_insert_ne.
  - intros i c Hi Hc. rewrite lookup_app_r in Hc by exact Hi.
    apply list_elem_of_lookup_2, list_elem_of_In, in_map_iff in Hc as (T' & <- & _).
    reflexivity.
Qed.

Lemma multi_temperature_shares_the_reporter_witness :
  exists w' : World,
    MultiTemperatureProtocol.perform_stability_test Sample.engine 0%nat
      (Sample.world (Sample.stability_parameters (TList [300; 400]) false (Some "nvt"))) =
    (Ok tt, w') /\
    _out <$> reporter_heap w' !! 0%nat = Some (Some "out/vacuum_ZINC_400K.csv").
Proof.
  destruct (multi_temperature_shares_the_reporter Sample.engine 0%nat
              (Sample.stability_parameters (TList [300; 400]) false (Some "nvt"))
              [300] 400 Sample.state_data_reporter
              (Sample.world
                 (Sample.stability_parameters (TList [300; 400]) false (Some "nvt")))
              eq_refl eq_refl eq_refl eq_refl)
    as (w' & Hrun & Hrep & _).
  exists w'. split; [exact Hrun|].
  change (_out <$> reporter_heap w' !!
            StabilityTestParameters.state_data_reporter
              (Sample.stability_parameters (TList [300; 400]) false (Some "nvt")) =
          Some (Some "out/vacuum_ZINC_400K.csv")).
  rewrite Hrep. reflexivity.
Defined.

(** ** The scenario runners *)

Lemma new_parameters_run (p : StabilityTestParameters.t) (w : World) :
  new_parameters p w =
  (Ok (length (parameters_heap w)),
   {| parameters_heap := parameters_heap w ++ [p];
      reporter_heap := reporter_heap w;
      calls := calls w |}).
Proof. reflexivity. Qed.

Lemma lift_run {A : Type} (r : result A) (a : A) (w : World) :
  r = Ok a -> lift r w = (Ok a, w).
Proof. by intros ->. Qed.

Lemma read_parameters_run (l : loc) (p : StabilityTestParameters.t) (w : World) :
  parameters_heap w !! l = Some p -> read_parameters l w = (Ok p, w).
Proof. intros Hp. unfold read_parameters. by rewrite Hp. Qed.

(** The parameters [_run_protocol] builds for a molecule. *)
Definition vacuum_parameters (system : System) (platform : Platform)
    (testsystem : TestSystem) (output_folder name : string)
    (nr_of_simulation_steps : Z) (temperature : Temperature) (reporter : loc)
    (device_index : Z) : StabilityTestParameters.t :=
  {| StabilityTestParameters.system := system;
     StabilityTestParameters.platform := platform;
     StabilityTestParameters.testsystem := testsystem;
     StabilityTestParameters.output_folder := output_folder;
     StabilityTestParameters.log_file_name := "vacuum_" +:+ name;
     StabilityTestParameters.protocol_length := nr_of_simulation_steps;
     StabilityTestParameters.temperature := temperature;
     StabilityTestParameters.env := "vacuum";
     StabilityTestParameters.simulated_annealing := false;
     StabilityTestParameters.state_data_reporter := reporter;
     StabilityTestParameters.device_index := device_index;
     StabilityTestParameters.ensemble := Some "nvt" |}.

Section SmallMolecules.
Context (E : Engine) (F : Factories).
Context (nnp : string) (reporter : loc) (platform : Platform)
        (output_folder : string) (device_index nr_of_simulation_steps : Z).

(** The records [_run_protocol] logs, the last one with the name the
    parameters object holds after the protocol. *)
Definition vacuum_records (name log_file_name : string) : list string :=
  ["Performing vacuum stability test for " +:+ name +:+ ".";
   "Logging to " +:+ output_folder +:+ "/" +:+ "vacuum_" +:+ name;
   String "010"%char
     ("Saving " +:+ log_file_name +:+ " files to " +:+ output_folder)].

Lemma run_protocol_list (temperatures : list Z) (smiles name : string)
    (testsystem : TestSystem) (system : System) (rep : StateDataReporter)
    (w : World) :
  let p := vacuum_parameters system platform testsystem output_folder name
             nr_of_simulation_steps (TList temperatures) reporter device_index in
  TestsystemFactory_generate_testsystem F
    (SmallMoleculeVacuumOption (Some name) (Some smiles)) = Ok testsystem ->
  SystemFactory_initialize_system F nnp (topology testsystem) = Ok system ->
  reporter_heap w !! reporter = Some rep ->
  _run_protocol E F nnp (TList temperatures) reporter platform output_folder
    device_index nr_of_simulation_steps smiles name w =
  (Ok (vacuum_records name ("vacuum_" +:+ name)),
   {| parameters_heap := parameters_heap w ++ p :: map (clone p) temperatures;
      reporter_heap :=
        match last temperatures with
        | Some T => <[reporter := redirected rep (clone p T)]> (reporter_heap w)
        | None => reporter_heap w
        end;
      calls := calls w ++
               flat_map (run_at_calls p (_reportInterval rep)) temperatures |}).
Proof.
  intros p Hts Hsys Hrep. unfold _run_protocol.
  erewrite bind_ok by (by apply lift_run). cbv beta.
  erewrite bind_ok by (by apply lift_run). cbv beta.
  mstep new_parameters_run. fold p.
  erewrite bind_ok; cycle 1.
  { unfold MultiTemperatureProtocol.perform_stability_test.
    erewrite bind_ok by (apply read_parameters_run; cbn [parameters_heap];
                         apply lookup_snoc).
    cbn [StabilityTestParameters.temperature p vacuum_parameters].
    apply (multi_temperature_loop_reporter E _ p); [reflexivity| |exact Hrep].
    cbn [parameters_heap]. apply lookup_snoc. }
  cbv beta. cbn [parameters_heap reporter_heap calls].
  erewrite bind_ok; cycle 1.
  { apply read_parameters_run. cbn [parameters_heap].
    apply lookup_app_l_Some, lookup_snoc. }
  cbv beta. unfold ret, vacuum_records.
  cbn [StabilityTestParameters.log_file_name StabilityTestParameters.output_folder
       p vacuum_parameters StabilityTestParameters.state_data_reporter].
  by rewrite <- app_assoc.
Qed.

Lemma run_protocol_int (T : Z) (smiles name : string)
    (testsystem : TestSystem) (system : System) (rep : StateDataReporter)
    (w : World) :
  let p := vacuum_parameters system platform testsystem output_folder name
             nr_of_simulation_steps (TInt T) reporter device_index in
  TestsystemFactory_generate_testsystem F
    (SmallMoleculeVacuumOption (Some name) (Some smiles)) = Ok testsystem ->
  SystemFactory_initialize_system F nnp (topology testsystem) = Ok system ->
  reporter_heap w !! reporter = Some rep ->
  _run_protocol E F nnp (TInt T) reporter platform output_folder
    device_index nr_of_simulation_steps smiles name w =
  (Ok (vacuum_records name ("vacuum_" +:+ name +:+ "_" +:+ str T)),
   {| parameters_heap := parameters_heap w ++ [renamed p T];
      reporter_heap := <[reporter := redirected rep (renamed p T)]> (reporter_heap w);
      calls := calls w ++
        setup_calls (renamed p T) StabilityTest.default_minimization_tolerance true ++
        run_calls (renamed p T) (_reportInterval rep) |}).
Proof.
  intros p Hts Hsys Hrep. unfold _run_protocol.
  erewrite bind_ok by (by apply lift_run). cbv beta.
  erewrite bind_ok by (by apply lift_run). cbv beta.
  mstep new_parameters_run. fold p.
  erewrite bind_ok; cycle 1.
  { apply (propagation_ok E _ p T rep); [|reflexivity|exact Hrep|reflexivity].
    cbn [parameters_heap]. apply lookup_snoc. }
  cbv beta. cbn [parameters_heap reporter_heap calls]. rewrite insert_snoc.
  erewrite bind_ok; cycle 1.
  { apply read_parameters_run. cbn [parameters_heap]. apply lookup_snoc. }
  reflexivity.
Qed.

End SmallMolecules.

(** The loop of [run_small_molecule_test], for any protocol run whose
    calls depend on the reporter through its report interval only. *)
Lemma small_molecule_loop (run : string -> string -> M (list string))
    (records : string -> string -> list string)
    (run_calls_of : string -> string -> Z -> list call) (reporter : loc)
    (pairs : list (string * string)) :
  (forall (s n : string) (rep : StateDataReporter) (w : World),
     In (s, n) pairs ->
     reporter_heap w !! reporter = Some rep ->
     exists (w' : World) (rep' : StateDataReporter),
       run s n w = (Ok (records s n), w') /\
       calls w' = calls w ++ run_calls_of s n (_reportInterval rep) /\
       reporter_heap w' !! reporter = Some rep' /\
       _reportInterval rep' = _reportInterval rep) ->
  forall (logged : list string) (rep : StateDataReporter) (w : World),
    reporter_heap w !! reporter = Some rep ->
    exists w' : World,
      for_each (fun logged '(smile, name) =>
                  l <- run smile name ;; ret (logged ++ l)) pairs logged w =
      (Ok (logged ++ flat_map (fun '(s, n) => records s n) pairs), w') /\
      calls w' = calls w ++
        flat_map (fun '(s, n) => run_calls_of s n (_reportInterval rep)) pairs.
Proof.
  induction pairs as [|[s n] rest IH]; intros Hrun logged rep w Hrep.
  - exists w. simpl. by rewrite !app_nil_r.
  - destruct (Hrun s n rep w (or_introl eq_refl) Hrep)
      as (w1 & rep1 & Hrun1 & Hcalls1 & Hrep1 & Hint1).
    destruct (IH (fun s' n' rep' w' Hin => Hrun s' n' rep' w' (or_intror Hin))
                 (logged ++ records s n) rep1 w1 Hrep1) as (w' & Hloop & Hcalls).
    exists w'. cbn [for_each]. cbv beta iota.
    erewrite bind_ok; cycle 1.
    { erewrite bind_ok by exact Hrun1. reflexivity. }
    cbv beta. rewrite Hloop. cbn [flat_map]. split.
    + by rewrite <- app_assoc.
    + rewrite Hcalls, Hcalls1, Hint1. by rewrite <- app_assoc.
Qed.

Lemma flat_map_created {A : Type} (f : A -> list call) (g : A -> list Temperature)
    (l : list A) :
  (forall x, In x l -> omap created_temperature (f x) = g x) ->
  omap created_temperature (flat_map f l) = flat_map g l.
Proof.
  induction l as [|x l IH]; intros Hf; [reflexivity|].
  cbn [flat_map]. rewrite omap_app, Hf by (by left).
  f_equal. apply IH. intros y Hy. apply Hf. by right.
Qed.

Lemma flat_map_Forall {A B : Type} (P : B -> Prop) (f : A -> list B) (l : list A) :
  (forall x, In x l -> Forall P (f x)) -> Forall P (flat_map f l).
Proof.
  induction l as [|x l IH]; intros Hf; [constructor|].
  cbn [flat_map]. apply Forall_app. split; [apply Hf; by left|].
  apply IH. intros y Hy. apply Hf. by right.
Qed.

Lemma flat_map_const_length {A B : Type} (l : list A) (k : list B) :
  length (flat_map (fun _ => k) l) = (length l * length k)%nat.
Proof.
  induction l as [|x l IH]; [reflexivity|].
  cbn [flat_map]. rewrite length_app, IH. simpl. lia.
Qed.

(** X11.  [run_small_molecule_test] over lists of molecules and a list of
    temperatures: the lists of SMILES strings and names are paired up to
    the shorter of the two, and for each pair, in order, one simulation is
    created per temperature of the list, in list order; so
    [min(len(smiles), len(names)) * len(temperature)] simulations in all,
    none of them minimized.  The parameters object of a molecule keeps its
    name [vacuum_{name}], which is the name the closing log record
    reports. *)
Theorem small_molecules_at_many_temperatures (E : Engine) (F : Factories)
    (nnp nnp_name : string) (temperatures : list Z) (reporter : loc)
    (platform : Platform) (output_folder : string)
    (device_index nr_of_simulation_steps : Z) (smiles names : list string)
    (testsystem : string -> string -> TestSystem)
    (system : string -> string -> System) (rep : StateDataReporter) (w : World) :
  (forall s n : string, In (s, n) (combine smiles names) ->
     TestsystemFactory_generate_testsystem F
       (SmallMoleculeVacuumOption (Some n) (Some s)) = Ok (testsystem s n) /\
     SystemFactory_initialize_system F nnp (topology (testsystem s n)) =
       Ok (system s n)) ->
  reporter_heap w !! reporter = Some rep ->
  exists (logged : list string) (w' : World) (new_calls : list call),
    run_small_molecule_test E F (ManyMolecules smiles names) nnp nnp_name
      (TList temperatures) reporter platform output_folder device_index
      nr_of_simulation_steps w = (Ok logged, w') /\
    calls w' = calls w ++ new_calls /\
    omap created_temperature new_calls =
      flat_map (fun _ => map TInt temperatures) (combine smiles names) /\
    length (omap created_temperature new_calls) =
      (min (length smiles) (length names) * length temperatures)%nat /\
    Forall (fun c => is_minimizeEnergy c = false) new_calls /\
    logged = flat_map (fun '(s, n) =>
                         vacuum_records output_folder n ("vacuum_" +:+ n))
                      (combine smiles names).
Proof.
  intros Hfact Hrep.
  set (p := fun s n => vacuum_parameters (system s n) platform (testsystem s n)
                         output_folder n nr_of_simulation_steps
                         (TList temperatures) reporter device_index).
  destruct (small_molecule_loop
              (_run_protocol E F nnp (TList temperatures) reporter platform
                 output_folder device_index nr_of_simulation_steps)
              (fun s n => vacuum_records output_folder n ("vacuum_" +:+ n))
              (fun s n i => flat_map (run_at_calls (p s n) i) temperatures)
              reporter (combine smiles names)) with (logged := @nil string)
              (rep := rep) (w := w) as (w' & Hrun & Hcalls).
  { intros s n rep0 w0 Hin Hrep0. destruct (Hfact s n Hin) as [Hts Hsys].
    eexists _, (match last temperatures with
                | Some T => redirected rep0 (clone (p s n) T)
                | None => rep0
                end).
    split; [by eapply run_protocol_list|].
    cbn [calls reporter_heap]. split; [reflexivity|].
    destruct (last temperatures) as [T|].
    - split; [apply list_lookup_insert_eq; by apply lookup_lt_Some in Hrep0|].
      reflexivity.
    - split; [exact Hrep0|reflexivity]. }
  { exact Hrep. }
  assert (Hcreated :
    omap created_temperature
      (flat_map (fun '(s, n) =>
                   flat_map (run_at_calls (p s n) (_reportInterval rep)) temperatures)
                (combine smiles names)) =
    flat_map (fun _ => map TInt temperatures) (combine smiles names)).
  { apply flat_map_created. intros [s n] _. apply run_at_calls_created. }
  eexists _, w', _. split; [exact Hrun|]. split; [exact Hcalls|].
  split; [exact Hcreated|]. split; [|split].
  - rewrite Hcreated, flat_map_const_length, length_combine, length_map. reflexivity.
  - apply flat_map_Forall. intros [s n] _. apply run_at_calls_no_minimize.
  - reflexivity.
Qed.

Lemma small_molecules_at_many_temperatures_witness :
  exists (logged : list string) (w' : World),
    run_small_molecule_test Sample.engine Scenario.factories
      (ManyMolecules ["CCO"; "CC"; "C"] ["ethanol"; "ethane"]) "ani2x" "ani2x"
      (TList [300; 400]) 0%nat (PlatformHandle 0) "out" 0 5 Scenario.world =
    (Ok logged, w') /\
    length (omap created_temperature (calls w')) = 4%nat.
Proof.
  destruct (small_molecules_at_many_temperatures Sample.engine Scenario.factories
              "ani2x" "ani2x" [300; 400] 0%nat (PlatformHandle 0) "out" 0 5
              ["CCO"; "CC"; "C"] ["ethanol"; "ethane"]
              (fun _ _ => Sample.diatomic) (fun _ _ => SystemHandle 0)
              Sample.state_data_reporter Scenario.world)
    as (logged & w' & new_calls & Hrun & Hcalls & _ & Hlen & _).
  { intros s n [Heq|[Heq|[]]]; injection Heq as <- <-; split; reflexivity. }
  { reflexivity. }
  exists logged, w'. split; [exact Hrun|]. rewrite Hcalls. exact Hlen.
Defined.

Lemma filter_none {A : Type} (f : A -> bool) (l : list A) :
  Forall (fun x => f x = false) l -> List.filter f l = [].
Proof. induction 1 as [|x l Hx _ IH]; [reflexivity|]. simpl. by rewrite Hx. Qed.

Lemma propagation_calls_minimize_once (p : StabilityTestParameters.t) (tolerance : R)
    (reportInterval : Z) :
  List.filter is_minimizeEnergy
    (setup_calls p tolerance true ++ run_calls p reportInterval) =
  [minimizeEnergy tolerance 1000].
Proof.
  unfold setup_calls. rewrite <- !app_assoc, !List.filter_app.
  rewrite (filter_none _ (ramp_calls p)) by apply ramp_calls_no_minimize.
  reflexivity.
Qed.

Lemma flat_map_count {A : Type} (f : call -> bool) (g : A -> list call) (l : list A) :
  (forall x, In x l -> length (List.filter f (g x)) = 1%nat) ->
  length (List.filter f (flat_map g l)) = length l.
Proof.
  induction l as [|x l IH]; intros Hg; [reflexivity|].
  cbn [flat_map]. rewrite List.filter_app, length_app, Hg by (by left).
  cbn [length]. f_equal. apply IH. intros y Hy. apply Hg. by right.
Qed.

(** X12.  [run_small_molecule_test] over lists of molecules at one int
    temperature [T]: for each pair of a SMILES string and a name, up to
    the shorter list, one simulation is created at [T] and minimized
    exactly once.  The propagation protocol renames the parameters object
    of each molecule, and the closing log record of the molecule reports
    the new name, [vacuum_{name}_{T}]. *)
Theorem small_molecules_at_one_temperature (E : Engine) (F : Factories)
    (nnp nnp_name : string) (T : Z) (reporter : loc)
    (platform : Platform) (output_folder : string)
    (device_index nr_of_simulation_steps : Z) (smiles names : list string)
    (testsystem : string -> string -> TestSystem)
    (system : string -> string -> System) (rep : StateDataReporter) (w : World) :
  (forall s n : string, In (s, n) (combine smiles names) ->
     TestsystemFactory_generate_testsystem F
       (SmallMoleculeVacuumOption (Some n) (Some s)) = Ok (testsystem s n) /\
     SystemFactory_initialize_system F nnp (topology (testsystem s n)) =
       Ok (system s n)) ->
  reporter_heap w !! reporter = Some rep ->
  exists (logged : list string) (w' : World) (new_calls : list call),
    run_small_molecule_test E F (ManyMolecules smiles names) nnp nnp_name
      (TInt T) reporter platform output_folder device_index
      nr_of_simulation_steps w = (Ok logged, w') /\
    calls w' = calls w ++ new_calls /\
    omap created_temperature new_calls =
      map (fun _ => TInt T) (combine smiles names) /\
    length (List.filter is_minimizeEnergy new_calls) =
      min (length smiles) (length names) /\
    logged = flat_map (fun '(s, n) =>
                         vacuum_records output_folder n
                           ("vacuum_" +:+ n +:+ "_" +:+ str T))
                      (combine smiles names).
Proof.
  intros Hfact Hrep.
  set (p := fun s n => renamed (vacuum_parameters (system s n) platform
                         (testsystem s n) output_folder n nr_of_simulation_steps
                         (TInt T) reporter device_index) T).
  destruct (small_molecule_loop
              (_run_protocol E F nnp (TInt T) reporter platform
                 output_folder device_index nr_of_simulation_steps)
              (fun s n => vacuum_records output_folder n
                            ("vacuum_" +:+ n +:+ "_" +:+ str T))
              (fun s n i =>
                 setup_calls (p s n) StabilityTest.default_minimization_tolerance true ++
                 run_calls (p s n) i)
              reporter (combine smiles names)) with (logged := @nil string)
              (rep := rep) (w := w) as (w' & Hrun & Hcalls).
  { intros s n rep0 w0 Hin Hrep0. destruct (Hfact s n Hin) as [Hts Hsys].
    eexists _, (redirected rep0 (p s n)).
    split; [by eapply run_protocol_int|].
    cbn [calls reporter_heap]. split; [reflexivity|].
    split; [apply list_lookup_insert_eq; by apply lookup_lt_Some in Hrep0|].
    reflexivity. }
  { exact Hrep. }
  eexists _, w', _. split; [exact Hrun|]. split; [exact Hcalls|].
  split; [|split].
  - rewrite (flat_map_created _ (fun _ => [TInt T])).
    + generalize (combine smiles names). intros l.
      induction l as [|x l IH]; [reflexivity|].
      cbn [flat_map map app]. by rewrite IH.
    + by intros [s n] _.
  - rewrite flat_map_count, length_combine; [reflexivity|].
    intros [s n] _. by rewrite propagation_calls_minimize_once.
  - reflexivity.
Qed.

Lemma small_molecules_at_one_temperature_witness :
  exists (logged : list string) (w' : World),
    run_small_molecule_test Sample.engine Scenario.factories
      (ManyMolecules ["CCO"] ["ethanol"]) "ani2x" "ani2x"
      (TInt 300) 0%nat (PlatformHandle 0) "out" 0 5 Scenario.world =
    (Ok logged, w') /\
    last logged =
      Some (String "010"%char "Saving vacuum_ethanol_300 files to out").
Proof.
  destruct (small_molecules_at_one_temperature Sample.engine Scenario.factories
              "ani2x" "ani2x" 300 0%nat (PlatformHandle 0) "out" 0 5
              ["CCO"] ["ethanol"]
              (fun _ _ => Sample.diatomic) (fun _ _ => SystemHandle 0)
              Sample.state_data_reporter Scenario.world)
    as (logged & w' & new_calls & Hrun & _ & _ & _ & Hlogged).
  { intros s n [Heq|[]]; injection Heq as <- <-; split; reflexivity. }
  { reflexivity. }
  exists logged, w'. split; [exact Hrun|]. rewrite Hlogged. reflexivity.
Defined.

(** A new parameters object handed to the propagation protocol, and what
    follows the protocol. *)
Lemma propagate_new_ok {B : Type} (E : Engine) (p : StabilityTestParameters.t)
    (T : Z) (rep : StateDataReporter) (k : loc -> M B) (w : World) :
  StabilityTestParameters.temperature p = TInt T ->
  reporter_heap w !! StabilityTestParameters.state_data_reporter p = Some rep ->
  annealing_fails (renamed p T) = false ->
  (params <- new_parameters p ;;
   PropagationProtocol.perform_stability_test E params ;;
   k params) w =
  k (length (parameters_heap w))
    {| parameters_heap := parameters_heap w ++ [renamed p T];
       reporter_heap :=
         <[StabilityTestParameters.state_data_reporter p :=
             redirected rep (renamed p T)]> (reporter_heap w);
       calls := calls w ++
         setup_calls (renamed p T) StabilityTest.default_minimization_tolerance true ++
         run_calls (renamed p T) (_reportInterval rep) |}.
Proof.
  intros HT Hrep Hf. mstep new_parameters_run.
  erewrite bind_ok; cycle 1.
  { apply (propagation_ok E _ p T rep); [apply lookup_snoc|exact HT|exact Hrep|exact Hf]. }
  cbn [parameters_heap reporter_heap calls]. by rewrite insert_snoc.
Qed.

Lemma propagate_new_rejected {B : Type} (E : Engine) (p : StabilityTestParameters.t)
    (k : loc -> M B) (w : World) :
  (forall T : Z, StabilityTestParameters.temperature p <> TInt T) ->
  (params <- new_parameters p ;;
   PropagationProtocol.perform_stability_test E params ;;
   k params) w =
  (Raise AssertionError,
   {| parameters_heap := parameters_heap w ++ [p];
      reporter_heap := reporter_heap w;
      calls := calls w |}).
Proof.
  intros HT. mstep new_parameters_run. apply bind_raise.
  unfold PropagationProtocol.perform_stability_test.
  erewrite bind_ok by (apply read_parameters_run; cbn [parameters_heap];
                       apply lookup_snoc).
  destruct (StabilityTestParameters.temperature p) as [T| |] eqn:Heq;
    [by destruct (HT T)|reflexivity..].
Qed.

(** X13.  [run_waterbox_test] at an int temperature [T], with no
    annealing requested under [npt] (the case of X15) and the test system
    and system built: the simulation is created for the environment
    [solution] and the given ensemble and minimized once.  The log announces the output name
    [waterbox_{edge}A_{nnp_name}_{ensemble}_{T}K], but the propagation
    protocol appends the temperature once more: the state reporter ends up
    writing to [{folder}/waterbox_{edge}A_{nnp_name}_{ensemble}_{T}K_{T}.csv],
    and that is the name the new parameters object holds. *)
Theorem waterbox_run (E : Engine) (F : Factories) (edge_length : Z)
    (ensemble nnp nnp_name : string) (T : Z) (reporter : loc)
    (platform : Platform) (output_folder : string) (device_index : Z)
    (annealing : bool) (nr_of_simulation_steps : Z)
    (testsystem : TestSystem) (system : System) (rep : StateDataReporter)
    (w : World) :
  let announced :=
    ("waterbox_" +:+ str edge_length +:+ "A_" +:+ nnp_name +:+ "_" +:+ ensemble)
    +:+ "_" +:+ str T +:+ "K" in
  let written := announced +:+ "_" +:+ str T in
  TestsystemFactory_generate_testsystem F
    (LiquidOption_edge_length "water" (IZR edge_length)) = Ok testsystem ->
  SystemFactory_initialize_system F nnp (topology testsystem) = Ok system ->
  reporter_heap w !! reporter = Some rep ->
  annealing && bool_decide (Some ensemble = Some "npt") = false ->
  exists (logged : list string) (w' : World) (new_calls : list call),
    run_waterbox_test E F edge_length ensemble nnp nnp_name (TInt T) reporter
      platform output_folder device_index annealing nr_of_simulation_steps w =
    (Ok logged, w') /\
    logged !! 1%nat = Some ("Simulation output will be written to " +:+ announced) /\
    calls w' = calls w ++ new_calls /\
    new_calls !! 0%nat =
      Some (create_simulation system (topology testsystem) platform (TInt T)
              "solution" device_index (Some ensemble)) /\
    List.filter is_minimizeEnergy new_calls = [minimizeEnergy 1 1000] /\
    StabilityTestParameters.log_file_name <$>
      parameters_heap w' !! length (parameters_heap w) = Some written /\
    _out <$> reporter_heap w' !! reporter =
      Some (Some ((output_folder +:+ "/" +:+ written) +:+ ".csv")).
Proof.
  intros announced written Hts Hsys Hrep Hf.
  eexists _, _, _. split.
  { unfold run_waterbox_test.
    erewrite bind_ok by (by apply lift_run). cbv beta.
    erewrite bind_ok by (by apply lift_run). cbv beta.
    erewrite (propagate_new_ok E _ T rep); [reflexivity|reflexivity|exact Hrep|].
    unfold annealing_fails. cbn. by rewrite orb_false_r. }
  cbn [calls parameters_heap reporter_heap].
  split; [reflexivity|]. split; [reflexivity|]. split; [reflexivity|].
  split; [|split].
  - apply propagation_calls_minimize_once.
  - by rewrite lookup_snoc.
  - rewrite list_lookup_insert_eq by (by apply lookup_lt_Some in Hrep). reflexivity.
Qed.

Lemma waterbox_run_witness :
  exists (logged : list string) (w' : World),
    run_waterbox_test Sample.engine Scenario.factories 15 "npt" "ani2x" "ani2x"
      (TInt 300) 0%nat (PlatformHandle 0) "out" 0 false 5 Scenario.world =
    (Ok logged, w') /\
    _out <$> reporter_heap w' !! 0%nat =
      Some (Some "out/waterbox_15A_ani2x_npt_300K_300.csv").
Proof.
  destruct (waterbox_run Sample.engine Scenario.factories 15 "npt" "ani2x" "ani2x"
              300 0%nat (PlatformHandle 0) "out" 0 false 5
              Sample.diatomic (SystemHandle 0) Sample.state_data_reporter
              Scenario.world eq_refl eq_refl eq_refl eq_refl)
    as (logged & w' & new_calls & Hrun & _ & _ & _ & _ & _ & Hout).
  exists logged, w'. split; [exact Hrun|exact Hout].
Defined.

(** A computation that raises without a call to the engine or the file
    system and without touching a reporter. *)
Definition rejects {A : Type} (m : M A) : Prop :=
  forall w : World, exists (e : exn) (w' : World),
    m w = (Raise e, w') /\ calls w' = calls w /\ reporter_heap w' = reporter_heap w.

Lemma rejects_raise {A : Type} (e : exn) : rejects (@raise A e).
Proof. intros w. by exists e, w. Qed.

Lemma rejects_bind {A B : Type} (m : M A) (k : A -> M B) :
  rejects m -> rejects (bind m k).
Proof.
  intros Hm w. destruct (Hm w) as (e & w' & Hrun & Hcalls & Hreps).
  exists e, w'. split; [by apply bind_raise|done].
Qed.

Lemma rejects_bind_lift {A B : Type} (r : result A) (k : A -> M B) :
  (forall a : A, rejects (k a)) -> rejects (bind (lift r) k).
Proof.
  intros Hk w. destruct r as [a|e]; [apply Hk|]. by exists e, w.
Qed.

Lemma rejects_propagate_new {B : Type} (E : Engine) (p : StabilityTestParameters.t)
    (k : loc -> M B) :
  (forall T : Z, StabilityTestParameters.temperature p <> TInt T) ->
  rejects (bind (new_parameters p)
             (fun params =>
                bind (PropagationProtocol.perform_stability_test E params)
                     (fun _ => k params))).
Proof.
  intros HT w. eexists _, _. split; [by apply propagate_new_rejected|done].
Qed.

(** X14.  The runners of the liquid and peptide scenarios accept a list of
    temperatures in their signatures, and [run_waterbox_test] and
    [run_organic_liquid_test] build a [multi-temp] name for it, but all
    three hand their parameters to the propagation protocol: at a
    temperature that is not one int they never return normally (the
    organic-liquid runner only when it has no molecule to run), and they
    make no call to the engine or the file system and leave the reporter
    alone. *)
Theorem liquid_runners_need_one_int (E : Engine) (F : Factories) (T : Temperature)
    (ensemble nnp nnp_name : string) (reporter : loc) (platform : Platform)
    (output_folder : string) (device_index : Z) (annealing : bool)
    (nr_of_simulation_steps : Z) (w : World) :
  (forall z : Z, T <> TInt z) ->
  (forall edge_length : Z,
     exists (e : exn) (w' : World),
       run_waterbox_test E F edge_length ensemble nnp nnp_name T reporter platform
         output_folder device_index annealing nr_of_simulation_steps w =
       (Raise e, w') /\
       calls w' = calls w /\ reporter_heap w' = reporter_heap w) /\
  (forall (molecule_names : list string) (nr_of_molecules : list Z),
     exists (r : result (list string)) (w' : World),
       run_organic_liquid_test E F (AStrList molecule_names)
         (AnIntList nr_of_molecules) ensemble nnp nnp_name T reporter platform
         output_folder device_index annealing nr_of_simulation_steps w = (r, w') /\
       calls w' = calls w /\ reporter_heap w' = reporter_heap w /\
       ((exists e : exn, r = Raise e) \/
        (r = Ok [] /\ combine molecule_names nr_of_molecules = []))) /\
  (forall (env : string) (optional_ensemble : option string),
     exists (e : exn) (w' : World),
       run_alanine_dipeptide_test E F nnp nnp_name T reporter platform
         output_folder device_index optional_ensemble annealing
         nr_of_simulation_steps env w = (Raise e, w') /\
       calls w' = calls w /\ reporter_heap w' = reporter_heap w).
Proof.
  intros HT. split; [|split].
  - intros edge_length. revert w. fold (rejects
      (run_waterbox_test E F edge_length ensemble nnp nnp_name T reporter platform
         output_folder device_index annealing nr_of_simulation_steps)).
    unfold run_waterbox_test. cbv zeta.
    apply rejects_bind_lift. intros testsystem.
    apply rejects_bind_lift. intros system.
    apply rejects_propagate_new. exact HT.
  - intros molecule_names nr_of_molecules. unfold run_organic_liquid_test.
    destruct (combine molecule_names nr_of_molecules) as [|[name n] rest].
    { exists (Ok []), w. split; [reflexivity|]. split; [reflexivity|].
      split; [reflexivity|]. by right. }
    cbn [for_each].
    match goal with
    | |- exists r w', bind ?m ?k w = _ /\ _ => assert (Hm : rejects m)
    end.
    { unfold organic_liquid_run. cbv zeta.
      apply rejects_bind_lift. intros testsystem.
      apply rejects_bind_lift. intros system.
      apply rejects_propagate_new. exact HT. }
    destruct (Hm w) as (e & w' & Hrun & Hcalls & Hreps).
    exists (Raise e), w'. split; [by apply bind_raise|]. split; [exact Hcalls|].
    split; [exact Hreps|]. left. by exists e.
  - intros env optional_ensemble. revert w. fold (rejects
      (run_alanine_dipeptide_test E F nnp nnp_name T reporter platform
         output_folder device_index optional_ensemble annealing
         nr_of_simulation_steps env)).
    unfold run_alanine_dipeptide_test. cbv zeta.
    assert (Hrest : forall opt : TestsystemOption, rejects
              (testsystem <- lift (TestsystemFactory_generate_testsystem F opt) ;;
               system <- lift (SystemFactory_initialize_system F nnp
                                 (topology testsystem)) ;;
               params <- new_parameters
                 {| StabilityTestParameters.system := system;
                    StabilityTestParameters.platform := platform;
                    StabilityTestParameters.testsystem := testsystem;
                    StabilityTestParameters.output_folder := output_folder;
                    StabilityTestParameters.log_file_name :=
                      "alanine_dipeptide_" +:+
                      (if String.eqb env "vacuum" then "vacuum"
                       else env +:+ "_" +:+ format_optional optional_ensemble) +:+
                      "_" +:+ nnp_name +:+ "_" +:+ format_temperature F T +:+ "K";
                    StabilityTestParameters.protocol_length := nr_of_simulation_steps;
                    StabilityTestParameters.temperature := T;
                    StabilityTestParameters.env := env;
                    StabilityTestParameters.simulated_annealing := annealing;
                    StabilityTestParameters.state_data_reporter := reporter;
                    StabilityTestParameters.device_index := device_index;
                    StabilityTestParameters.ensemble := optional_ensemble |} ;;
               PropagationProtocol.perform_stability_test E params ;;
               ret ["Initiating alanine dipeptide stability test in " +:+ env +:+
                    " using " +:+ nnp_name +:+ " potential.";
                    "Simulation output will be written to " +:+
                    "alanine_dipeptide_" +:+
                    (if String.eqb env "vacuum" then "vacuum"
                     else env +:+ "_" +:+ format_optional optional_ensemble) +:+
                    "_" +:+ nnp_name +:+ "_" +:+ format_temperature F T +:+ "K";
                    "Simulation files saved to " +:+ output_folder])).
    { intros opt.
      apply rejects_bind_lift. intros testsystem.
      apply rejects_bind_lift. intros system.
      apply rejects_propagate_new. exact HT. }
    intros w. destruct (String.eqb env "vacuum") eqn:Hv.
    + rewrite bind_ret. apply Hrest.
    + destruct (String.eqb env "solution").
      * rewrite bind_ret. apply Hrest.
      * by eexists _, _.
Qed.

Lemma liquid_runners_need_one_int_witness :
  exists (e : exn) (w' : World),
    run_waterbox_test Sample.engine Scenario.factories 15 "npt" "ani2x" "ani2x"
      (TList [300; 400]) 0%nat (PlatformHandle 0) "out" 0 false 5 Scenario.world =
    (Raise e, w') /\
    calls w' = [].
Proof.
  destruct (liquid_runners_need_one_int Sample.engine Scenario.factories
              (TList [300; 400]) "npt" "ani2x" "ani2x" 0%nat (PlatformHandle 0)
              "out" 0 false 5 Scenario.world) as [Hwaterbox _].
  { intros z. discriminate. }
  destruct (Hwaterbox 15) as (e & w' & Hrun & Hcalls & _).
  exists e, w'. split; [exact Hrun|exact Hcalls].
Defined.

(** X15.  The annealing defect of [_setup_simulation] reaches the user
    through [run_waterbox_test]: with [annealing=True] under the ensemble
    [npt], at any int temperature, the run raises [NameError] in the first
    annealing stage, after the minimization and 100 steps; nothing has
    been written by then: no folder made, no file opened, no reporter
    attached. *)
Theorem waterbox_annealing_under_npt (E : Engine) (F : Factories) (edge_length : Z)
    (nnp nnp_name : string) (T : Z) (reporter : loc)
    (platform : Platform) (output_folder : string) (device_index : Z)
    (nr_of_simulation_steps : Z)
    (testsystem : TestSystem) (system : System) (w : World) :
  TestsystemFactory_generate_testsystem F
    (LiquidOption_edge_length "water" (IZR edge_length)) = Ok testsystem ->
  SystemFactory_initialize_system F nnp (topology testsystem) = Ok system ->
  exists w' : World,
    run_waterbox_test E F edge_length "npt" nnp nnp_name (TInt T) reporter
      platform output_folder device_index true nr_of_simulation_steps w =
    (Raise (NameError "barostate_force_id"), w') /\
    calls w' = calls w ++
      [create_simulation system (topology testsystem) platform (TInt T)
         "solution" device_index (Some "npt");
       setPositions (positions testsystem);
       minimizeEnergy 1 1000;
       step 100;
       setTemperature 0] /\
    reporter_heap w' = reporter_heap w.
Proof.
  intros Hts Hsys. eexists. split.
  { unfold run_waterbox_test.
    erewrite bind_ok by (by apply lift_run). cbv beta.
    erewrite bind_ok by (by apply lift_run). cbv beta.
    mstep new_parameters_run. apply bind_raise.
    unfold PropagationProtocol.perform_stability_test.
    erewrite bind_ok by (apply read_parameters_run; cbn [parameters_heap];
                         apply lookup_snoc).
    cbn [StabilityTestParameters.temperature].
    unfold bind at 1, write_parameters.
    erewrite bind_ok by (apply read_parameters_run; cbn [parameters_heap];
                         rewrite insert_snoc; apply lookup_snoc).
    apply bind_raise.
    apply (annealing_npt_raises E _ _ true (IZR T)); reflexivity. }
  cbn [calls reporter_heap add_calls]. split; reflexivity.
Qed.

Lemma waterbox_annealing_under_npt_witness :
  exists w' : World,
    run_waterbox_test Sample.engine Scenario.factories 15 "npt" "ani2x" "ani2x"
      (TInt 300) 0%nat (PlatformHandle 0) "out" 0 true 5 Scenario.world =
    (Raise (NameError "barostate_force_id"), w') /\
    length (calls w') = 5%nat.
Proof.
  destruct (waterbox_annealing_under_npt Sample.engine Scenario.factories 15
              "ani2x" "ani2x" 300 0%nat (PlatformHandle 0) "out" 0 5
              Sample.diatomic (SystemHandle 0) Scenario.world eq_refl eq_refl)
    as (w' & Hrun & Hcalls & _).
  exists w'. split; [exact Hrun|]. by rewrite Hcalls.
Defined.

(** X16.  [run_alanine_dipeptide_test] checks its environment first: for
    an [env] that is neither [vacuum] nor [solution] it raises
    [RuntimeError] naming the option, whatever the other arguments are,
    and nothing has happened by then: no parameters object, no call. *)
Theorem alanine_dipeptide_invalid_env (E : Engine) (F : Factories)
    (nnp nnp_name : string) (T : Temperature) (reporter : loc)
    (platform : Platform) (output_folder : string) (device_index : Z)
    (ensemble : option string) (annealing : bool) (nr_of_simulation_steps : Z)
    (env : string) (w : World) :
  env <> "vacuum" -> env <> "solution" ->
  run_alanine_dipeptide_test E F nnp nnp_name T reporter platform output_folder
    device_index ensemble annealing nr_of_simulation_steps env w =
  (Raise (RuntimeError ("Invalid environment option: " +:+ env)), w).
Proof.
  intros Hv Hs. unfold run_alanine_dipeptide_test.
  apply String.eqb_neq in Hv, Hs. rewrite Hv, Hs. reflexivity.
Qed.

Lemma alanine_dipeptide_invalid_env_witness :
  run_alanine_dipeptide_test Sample.engine Scenario.factories "ani2x" "ani2x"
    (TInt 300) 0%nat (PlatformHandle 0) "out" 0 None false 5 "water"
    Scenario.world =
  (Raise (RuntimeError "Invalid environment option: water"), Scenario.world).
Proof.
  apply (alanine_dipeptide_invalid_env Sample.engine Scenario.factories
           "ani2x" "ani2x" (TInt 300) 0%nat (PlatformHandle 0) "out" 0 None false 5
           "water" Scenario.world); discriminate.
Defined.

(** X17.  [run_alanine_dipeptide_test] in one of its two environments, at
    an int temperature [T], with no annealing requested under [npt] (where
    the setup raises) and the test system and system built: in [vacuum] the test system is the small
    molecule [ala_dipeptide] and the output name is
    [alanine_dipeptide_vacuum_{nnp_name}_{T}K_{T}], without the ensemble;
    in [solution] the system is the solvated one and the name is
    [alanine_dipeptide_solution_{ensemble}_{nnp_name}_{T}K_{T}], where an
    ensemble that was not given reads [None].  In both the simulation is
    created with the environment and the ensemble as given, and the state
    reporter ends up writing to [{folder}/{name}.csv]. *)
Theorem alanine_dipeptide_run (E : Engine) (F : Factories)
    (nnp nnp_name : string) (T : Z) (reporter : loc)
    (platform : Platform) (output_folder : string) (device_index : Z)
    (ensemble : option string) (annealing : bool) (nr_of_simulation_steps : Z)
    (env : string) (testsystem : TestSystem) (system : System)
    (rep : StateDataReporter) (w : World) :
  let opt := if String.eqb env "vacuum"
             then SmallMoleculeVacuumOption (Some "ala_dipeptide") None
             else SolvatedSystemOption "ala_dipeptide" in
  let env_str := if String.eqb env "vacuum" then "vacuum"
                 else "solution_" +:+ match ensemble with
                                      | Some s => s
                                      | None => "None"
                                      end in
  let name := ("alanine_dipeptide_" +:+ env_str +:+ "_" +:+ nnp_name +:+ "_" +:+
               str T +:+ "K") +:+ "_" +:+ str T in
  env = "vacuum" \/ env = "solution" ->
  TestsystemFactory_generate_testsystem F opt = Ok testsystem ->
  SystemFactory_initialize_system F nnp (topology testsystem) = Ok system ->
  reporter_heap w !! reporter = Some rep ->
  annealing && bool_decide (ensemble = Some "npt") = false ->
  exists (logged : list string) (w' : World) (new_calls : list call),
    run_alanine_dipeptide_test E F nnp nnp_name (TInt T) reporter platform
      output_folder device_index ensemble annealing nr_of_simulation_steps env w =
    (Ok logged, w') /\
    calls w' = calls w ++ new_calls /\
    new_calls !! 0%nat =
      Some (create_simulation system (topology testsystem) platform (TInt T)
              env device_index ensemble) /\
    StabilityTestParameters.log_file_name <$>
      parameters_heap w' !! length (parameters_heap w) = Some name /\
    _out <$> reporter_heap w' !! reporter =
      Some (Some ((output_folder +:+ "/" +:+ name) +:+ ".csv")).
Proof.
  intros opt env_str name Henv Hts Hsys Hrep Hf.
  pose (P := fun env_str' : string =>
    {| StabilityTestParameters.system := system;
       StabilityTestParameters.platform := platform;
       StabilityTestParameters.testsystem := testsystem;
       StabilityTestParameters.output_folder := output_folder;
       StabilityTestParameters.log_file_name :=
         "alanine_dipeptide_" +:+ env_str' +:+ "_" +:+ nnp_name +:+ "_" +:+
         str T +:+ "K";
       StabilityTestParameters.protocol_length := nr_of_simulation_steps;
       StabilityTestParameters.temperature := TInt T;
       StabilityTestParameters.env := env;
       StabilityTestParameters.simulated_annealing := annealing;
       StabilityTestParameters.state_data_reporter := reporter;
       StabilityTestParameters.device_index := device_index;
       StabilityTestParameters.ensemble := ensemble |}).
  assert (Hrun : forall (opt' : TestsystemOption) (env_str' : string)
                        (logged : list string),
    TestsystemFactory_generate_testsystem F opt' = Ok testsystem ->
    (testsystem <- lift (TestsystemFactory_generate_testsystem F opt') ;;
     system <- lift (SystemFactory_initialize_system F nnp (topology testsystem)) ;;
     params <- new_parameters
       {| StabilityTestParameters.system := system;
          StabilityTestParameters.platform := platform;
          StabilityTestParameters.testsystem := testsystem;
          StabilityTestParameters.output_folder := output_folder;
          StabilityTestParameters.log_file_name :=
            "alanine_dipeptide_" +:+ env_str' +:+ "_" +:+ nnp_name +:+ "_" +:+
            str T +:+ "K";
          StabilityTestParameters.protocol_length := nr_of_simulation_steps;
          StabilityTestParameters.temperature := TInt T;
          StabilityTestParameters.env := env;
          StabilityTestParameters.simulated_annealing := annealing;
          StabilityTestParameters.state_data_reporter := reporter;
          StabilityTestParameters.device_index := device_index;
          StabilityTestParameters.ensemble := ensemble |} ;;
     PropagationProtocol.perform_stability_test E params ;;
     ret logged) w =
    (Ok logged,
     {| parameters_heap := parameters_heap w ++ [renamed (P env_str') T];
        reporter_heap :=
          <[reporter := redirected rep (renamed (P env_str') T)]> (reporter_heap w);
        calls := calls w ++
          setup_calls (renamed (P env_str') T)
            StabilityTest.default_minimization_tolerance true ++
          run_calls (renamed (P env_str') T) (_reportInterval rep) |})).
  { intros opt' env_str' logged Hts'.
    erewrite bind_ok by (by apply lift_run). cbv beta.
    erewrite bind_ok by (by apply lift_run). cbv beta.
    erewrite (propagate_new_ok E _ T rep); [reflexivity|reflexivity|exact Hrep|].
    unfold annealing_fails. cbn. by rewrite orb_false_r. }
  assert (Hout : forall env_str' : string,
    _out <$> (<[reporter := redirected rep (renamed (P env_str') T)]>
                (reporter_heap w)) !! reporter =
    Some (Some ((output_folder +:+ "/" +:+
                 ("alanine_dipeptide_" +:+ env_str' +:+ "_" +:+ nnp_name +:+ "_" +:+
                  str T +:+ "K") +:+ "_" +:+ str T) +:+ ".csv"))).
  { intros env_str'.
    rewrite list_lookup_insert_eq by (by apply lookup_lt_Some in Hrep). reflexivity. }
  unfold run_alanine_dipeptide_test. cbv zeta.
  cbn [format_temperature]. subst name env_str opt.
  destruct Henv as [Henv|Henv]; rewrite Henv in *;
    cbn [String.eqb Ascii.eqb Bool.eqb] in *; rewrite bind_ret.
  - eexists _, _, _. split; [by apply Hrun|].
    cbn [calls parameters_heap reporter_heap].
    split; [reflexivity|]. split; [by rewrite <- Henv|]. split.
    + by rewrite lookup_snoc.
    + apply Hout.
  - eexists _, _, _. split; [by apply (Hrun _ ("solution_" +:+ format_optional ensemble))|].
    cbn [calls parameters_heap reporter_heap].
    split; [reflexivity|]. split; [by rewrite <- Henv|]. split.
    + by rewrite lookup_snoc.
    + apply Hout.
Qed.

Lemma alanine_dipeptide_run_witness :
  exists (logged : list string) (w' : World),
    run_alanine_dipeptide_test Sample.engine Scenario.factories "ani2x" "ani2x"
      (TInt 300) 0%nat (PlatformHandle 0) "out" 0 None false 5 "solution"
      Scenario.world = (Ok logged, w') /\
    _out <$> reporter_heap w' !! 0%nat =
      Some (Some "out/alanine_dipeptide_solution_None_ani2x_300K_300.csv").
Proof.
  destruct (alanine_dipeptide_run Sample.engine Scenario.factories "ani2x" "ani2x"
              300 0%nat (PlatformHandle 0) "out" 0 None false 5 "solution"
              Sample.diatomic (SystemHandle 0) Sample.state_data_reporter
              Scenario.world (or_intror eq_refl) eq_refl eq_refl eq_refl eq_refl)
    as (logged & w' & new_calls & Hrun & _ & _ & _ & Hout).
  exists logged, w'. split; [exact Hrun|exact Hout].
Defined.

(** ** [run_organic_liquid_test] *)

(** The parameters the runner builds for [nr_of_molecules] molecules of
    [name], after the propagation protocol has renamed them. *)
Definition organic_liquid_parameters (system : System) (platform : Platform)
    (testsystem : TestSystem) (output_folder name : string) (nr_of_molecules : Z)
    (nnp_name ensemble : string) (nr_of_simulation_steps T : Z) (annealing : bool)
    (reporter : loc) (device_index : Z) : StabilityTestParameters.t :=
  {| StabilityTestParameters.system := system;
     StabilityTestParameters.platform := platform;
     StabilityTestParameters.testsystem := testsystem;
     StabilityTestParameters.output_folder := output_folder;
     StabilityTestParameters.log_file_name :=
       ("pure_liquid_" +:+ name +:+ "_" +:+ str nr_of_molecules +:+ "_" +:+
        nnp_name +:+ "_" +:+ ensemble +:+ "_" +:+ str T +:+ "K") +:+ "_" +:+ str T;
     StabilityTestParameters.protocol_length := nr_of_simulation_steps;
     StabilityTestParameters.temperature := TInt T;
     StabilityTestParameters.env := "solution";
     StabilityTestParameters.simulated_annealing := annealing;
     StabilityTestParameters.state_data_reporter := reporter;
     StabilityTestParameters.device_index := device_index;
     StabilityTestParameters.ensemble := Some ensemble |}.

Section OrganicLiquids.
Context (E : Engine) (F : Factories).
Context (ensemble nnp nnp_name : string) (T : Z) (reporter : loc)
        (platform : Platform) (output_folder : string) (device_index : Z)
        (annealing : bool) (nr_of_simulation_steps : Z).
Context (testsystem : string -> Z -> TestSystem) (system : string -> Z -> System).

Definition liquid_parameters (name : string) (n : Z) : StabilityTestParameters.t :=
  organic_liquid_parameters (system name n) platform (testsystem name n)
    output_folder name n nnp_name ensemble nr_of_simulation_steps T annealing
    reporter device_index.

Lemma organic_liquid_run_ok (logged : list string) (name : string) (n : Z)
    (rep : StateDataReporter) (w : World) :
  TestsystemFactory_generate_testsystem F (LiquidOption_positional name n) =
    Ok (testsystem name n) ->
  SystemFactory_initialize_system F nnp (topology (testsystem name n)) =
    Ok (system name n) ->
  reporter_heap w !! reporter = Some rep ->
  annealing && bool_decide (Some ensemble = Some "npt") = false ->
  exists records : list string,
    organic_liquid_run E F ensemble nnp nnp_name (TInt T) reporter platform
      output_folder device_index annealing nr_of_simulation_steps logged (name, n) w =
    (Ok (logged ++ records),
     {| parameters_heap := parameters_heap w ++ [liquid_parameters name n];
        reporter_heap :=
          <[reporter := redirected rep (liquid_parameters name n)]> (reporter_heap w);
        calls := calls w ++
          setup_calls (liquid_parameters name n)
            StabilityTest.default_minimization_tolerance true ++
          run_calls (liquid_parameters name n) (_reportInterval rep) |}) /\
    length records = 3%nat.
Proof.
  intros Hts Hsys Hrep Hf. eexists. split.
  - unfold organic_liquid_run. cbv zeta.
    erewrite bind_ok by (by apply lift_run). cbv beta.
    erewrite bind_ok by (by apply lift_run). cbv beta.
    erewrite (propagate_new_ok E _ T rep); [reflexivity|reflexivity|exact Hrep|].
    unfold annealing_fails. cbn. by rewrite orb_false_r.
  - reflexivity.
Qed.

Lemma organic_liquid_loop (pairs : list (string * Z)) :
  annealing && bool_decide (Some ensemble = Some "npt") = false ->
  (forall (name : string) (n : Z), In (name, n) pairs ->
     TestsystemFactory_generate_testsystem F (LiquidOption_positional name n) =
       Ok (testsystem name n) /\
     SystemFactory_initialize_system F nnp (topology (testsystem name n)) =
       Ok (system name n)) ->
  forall (logged : list string) (rep : StateDataReporter) (w : World),
    reporter_heap w !! reporter = Some rep ->
    exists (logged' : list string) (w' : World),
      for_each (organic_liquid_run E F ensemble nnp nnp_name (TInt T) reporter
                  platform output_folder device_index annealing
                  nr_of_simulation_steps) pairs logged w = (Ok logged', w') /\
      length logged' = (length logged + 3 * length pairs)%nat /\
      parameters_heap w' =
        parameters_heap w ++ map (fun '(name, n) => liquid_parameters name n) pairs /\
      calls w' = calls w ++
        flat_map (fun '(name, n) =>
                    setup_calls (liquid_parameters name n)
                      StabilityTest.default_minimization_tolerance true ++
                    run_calls (liquid_parameters name n) (_reportInterval rep))
                 pairs.
Proof.
  intros Hf. induction pairs as [|[name n] rest IH]; intros Hfact logged rep w Hrep.
  - exists logged, w. simpl. rewrite !app_nil_r. split; [reflexivity|]. split; [lia|done].
  - destruct (Hfact name n (or_introl eq_refl)) as [Hts Hsys].
    destruct (organic_liquid_run_ok logged name n rep w Hts Hsys Hrep Hf)
      as (records & Hrun & Hlen).
    match type of Hrun with
    | _ = (_, ?w1) =>
        destruct (IH (fun name' n' Hin => Hfact name' n' (or_intror Hin))
                     (logged ++ records) (redirected rep (liquid_parameters name n)) w1)
          as (logged' & w' & Hloop & Hlen' & Hheap & Hcalls)
    end.
    { cbn [reporter_heap]. apply list_lookup_insert_eq. by apply lookup_lt_Some in Hrep. }
    exists logged', w'. cbn [for_each].
    erewrite bind_ok by exact Hrun. split; [exact Hloop|].
    split; [rewrite Hlen', length_app, Hlen; simpl; lia|].
    split.
    + rewrite Hheap. cbn [parameters_heap map]. by rewrite <- app_assoc.
    + rewrite Hcalls. cbn [calls flat_map redirected _reportInterval].
      by rewrite <- !app_assoc.
Qed.

End OrganicLiquids.

(** X18.  [run_organic_liquid_test] at an int temperature [T], with no
    annealing requested under [npt] (where the setup of the first liquid
    raises) and every test system and system built: the names and the
    numbers of molecules are paired up to the shorter of the two
    lists; for each pair, in order, one liquid of [n] molecules of [name]
    is simulated, its simulation created at [T] and minimized exactly
    once, and its parameters object ends up named
    [pure_liquid_{name}_{n}_{nnp_name}_{ensemble}_{T}K_{T}].  Three
    records are logged per liquid. *)
Theorem organic_liquids_run (E : Engine) (F : Factories)
    (ensemble nnp nnp_name : string) (T : Z) (reporter : loc)
    (platform : Platform) (output_folder : string) (device_index : Z)
    (annealing : bool) (nr_of_simulation_steps : Z)
    (molecule_names : list string) (nr_of_molecules : list Z)
    (testsystem : string -> Z -> TestSystem) (system : string -> Z -> System)
    (rep : StateDataReporter) (w : World) :
  let pairs := combine molecule_names nr_of_molecules in
  annealing && bool_decide (Some ensemble = Some "npt") = false ->
  (forall (name : string) (n : Z), In (name, n) pairs ->
     TestsystemFactory_generate_testsystem F (LiquidOption_positional name n) =
       Ok (testsystem name n) /\
     SystemFactory_initialize_system F nnp (topology (testsystem name n)) =
       Ok (system name n)) ->
  reporter_heap w !! reporter = Some rep ->
  exists (logged : list string) (w' : World) (new_calls : list call),
    run_organic_liquid_test E F (AStrList molecule_names)
      (AnIntList nr_of_molecules) ensemble nnp nnp_name (TInt T) reporter platform
      output_folder device_index annealing nr_of_simulation_steps w =
    (Ok logged, w') /\
    length logged = (3 * min (length molecule_names) (length nr_of_molecules))%nat /\
    map StabilityTestParameters.log_file_name
        (drop (length (parameters_heap w)) (parameters_heap w')) =
      map (fun '(name, n) =>
             ("pure_liquid_" +:+ name +:+ "_" +:+ str n +:+ "_" +:+ nnp_name +:+
              "_" +:+ ensemble +:+ "_" +:+ str T +:+ "K") +:+ "_" +:+ str T)
          pairs /\
    calls w' = calls w ++ new_calls /\
    omap created_temperature new_calls = map (fun _ => TInt T) pairs /\
    length (List.filter is_minimizeEnergy new_calls) =
      min (length molecule_names) (length nr_of_molecules).
Proof.
  intros pairs Hf Hfact Hrep.
  destruct (organic_liquid_loop E F ensemble nnp nnp_name T reporter platform
              output_folder device_index annealing nr_of_simulation_steps
              testsystem system pairs Hf Hfact [] rep w Hrep)
    as (logged & w' & Hrun & Hlen & Hheap & Hcalls).
  exists logged, w'. eexists. split; [exact Hrun|].
  split; [rewrite Hlen; unfold pairs; rewrite length_combine; simpl; lia|].
  split; [|split; [exact Hcalls|split]].
  - rewrite Hheap, drop_app_length. clear. induction pairs as [|[name n] rest IH];
      [reflexivity|]. cbn [map]. by rewrite IH.
  - rewrite (flat_map_created _ (fun _ => [TInt T])).
    + clear. induction pairs as [|x l IH]; [reflexivity|].
      cbn [flat_map map app]. by rewrite IH.
    + intros [name n] _. unfold setup_calls. rewrite !omap_app.
      by rewrite ramp_calls_no_create.
  - rewrite flat_map_count; [unfold pairs; by rewrite length_combine|].
    intros [name n] _. by rewrite propagation_calls_minimize_once.
Qed.

Lemma organic_liquids_run_witness :
  exists (logged : list string) (w' : World),
    run_organic_liquid_test Sample.engine Scenario.factories
      (AStrList ["ethane"; "butane"]) (AnIntList [100]) "npt" "ani2x" "ani2x"
      (TInt 300) 0%nat (PlatformHandle 0) "out" 0 false 5 Scenario.world =
    (Ok logged, w') /\
    map StabilityTestParameters.log_file_name (parameters_heap w') =
      ["pure_liquid_ethane_100_ani2x_npt_300K_300"].
Proof.
  destruct (organic_liquids_run Sample.engine Scenario.factories
              "npt" "ani2x" "ani2x" 300 0%nat (PlatformHandle 0) "out" 0 false 5
              ["ethane"; "butane"] [100]
              (fun _ _ => Sample.diatomic) (fun _ _ => SystemHandle 0)
              Sample.state_data_reporter Scenario.world eq_refl)
    as (logged & w' & new_calls & Hrun & _ & Hnames & _).
  { intros name n [Heq|[]]. injection Heq as <- <-. split; reflexivity. }
  { reflexivity. }
  exists logged, w'. split; [exact Hrun|exact Hnames].
Defined.

(** ** [run_DOF_scan] *)

(** X19.  [run_DOF_scan] scans bonds only.  A definition without the key
    [bond] is refused after the test system and the system have been
    built but before any simulation is created or any file written:
    with [NotImplementedError] when it has the key [angle] (the angle
    message) or else the key [torsion], and with [ValueError] when it has
    none of the three. *)
Theorem DOF_scan_without_a_bond (E : Engine) (F : Factories)
    (D : CreateSimulationDefaults) (nnp nnp_name : string)
    (DOF_definition : gmap string (list Z)) (platform : Platform)
    (output_folder name : string) (bond_length_max : R)
    (testsystem : TestSystem) (system : System) (w : World) :
  TestsystemFactory_generate_testsystem F
    (SmallMoleculeVacuumOption (Some name) None) = Ok testsystem ->
  SystemFactory_initialize_system F nnp (topology testsystem) = Ok system ->
  DOF_definition !! "bond" = None ->
  run_DOF_scan E F D nnp nnp_name DOF_definition platform output_folder name
    bond_length_max w =
  (if bool_decide (is_Some (DOF_definition !! "angle"))
   then NotImplementedError "Angle DOF scans are not yet implemented."
   else if bool_decide (is_Some (DOF_definition !! "torsion"))
   then NotImplementedError "Torsion DOF scans are not yet implemented."
   else Finished (Raise (ValueError
          "Unsupported DOF type. Supported types are: 'bond', 'angle', 'torsion'.")),
   w).
Proof.
  intros Hts Hsys Hbond. unfold run_DOF_scan.
  erewrite bind_ok by (by apply lift_run). cbv beta.
  erewrite bind_ok by (by apply lift_run). cbv beta.
  unfold ret. rewrite Hbond.
  destruct (DOF_definition !! "angle") as [angle|].
  { by rewrite bool_decide_eq_true_2 by eauto. }
  rewrite bool_decide_eq_false_2 by (by intros [? ?]).
  destruct (DOF_definition !! "torsion") as [torsion|].
  { by rewrite bool_decide_eq_true_2 by eauto. }
  by rewrite bool_decide_eq_false_2 by (by intros [? ?]).
Qed.

Lemma DOF_scan_without_a_bond_witness :
  run_DOF_scan Sample.engine Scenario.factories Scenario.defaults "ani2x" "ani2x"
    (<["torsion" := [0; 1; 2; 3]]> (<["angle" := [0; 1; 2]]> ∅))
    (PlatformHandle 0) "out" "ethanol" 2 Scenario.world =
  (NotImplementedError "Angle DOF scans are not yet implemented.", Scenario.world).
Proof.
  assert (Hbond : (<["torsion" := [0; 1; 2; 3]]> (<["angle" := [0; 1; 2]]> ∅)
                   : gmap string (list Z)) !! "bond" = None)
    by (vm_compute; reflexivity).
  rewrite (DOF_scan_without_a_bond Sample.engine Scenario.factories Scenario.defaults
             "ani2x" "ani2x"
             (<["torsion" := [0; 1; 2; 3]]> (<["angle" := [0; 1; 2]]> ∅))
             (PlatformHandle 0) "out" "ethanol" 2
             Sample.diatomic (SystemHandle 0) Scenario.world eq_refl eq_refl Hbond).
  rewrite bool_decide_eq_true_2; [reflexivity|].
  exists [0; 1; 2]. vm_compute. reflexivity.
Defined.

(** X20.  A definition with the key [bond] is scanned as a bond whatever
    other keys it has.  When the parameters are built from the arguments
    (the bond of the definition among them) and the bond is a pair of
    atoms of the molecule, the scan succeeds: the 100 rows and frames are
    written to [{output_folder}/DOF_scan_{name}_{nnp_name}.csv] and
    [.dcd], and three records are logged, the second one quoting the bond
    as Python prints the list. *)
Theorem DOF_scan_run (E : Engine) (F : Factories)
    (D : CreateSimulationDefaults) (nnp nnp_name : string)
    (DOF_definition : gmap string (list Z)) (platform : Platform)
    (output_folder name : string) (bond_length_max : R)
    (testsystem : TestSystem) (system : System) (atom1 atom2 : Z) (k1 k2 : nat)
    (p1 p2 : vec3) (w : World) :
  let file := output_folder +:+ "/" +:+ "DOF_scan_" +:+ name +:+ "_" +:+ nnp_name in
  TestsystemFactory_generate_testsystem F
    (SmallMoleculeVacuumOption (Some name) None) = Ok testsystem ->
  SystemFactory_initialize_system F nnp (topology testsystem) = Ok system ->
  DOF_definition !! "bond" = Some [atom1; atom2] ->
  DOFTestParameters_init F system platform testsystem output_folder
    ("DOF_scan_" +:+ name +:+ "_" +:+ nnp_name) bond_length_max DOF_definition =
    Ok {| DOFTestParameters.system := system;
          DOFTestParameters.platform := platform;
          DOFTestParameters.testsystem := testsystem;
          DOFTestParameters.output_folder := output_folder;
          DOFTestParameters.log_file_name :=
            "DOF_scan_" +:+ name +:+ "_" +:+ nnp_name;
          DOFTestParameters.bond := [atom1; atom2];
          DOFTestParameters.bond_length_max := bond_length_max |} ->
  py_index (length (positions testsystem)) atom1 = Ok k1 ->
  py_index (length (positions testsystem)) atom2 = Ok k2 ->
  positions testsystem !! k1 = Some p1 ->
  positions testsystem !! k2 = Some p2 ->
  exists (files : scan_files) (logged : list string) (w' : World),
    run_DOF_scan E F D nnp nnp_name DOF_definition platform output_folder name
      bond_length_max w = (Finished (Ok (files, logged)), w') /\
    csv_file files = file +:+ ".csv" /\
    dcd_file files = file +:+ ".dcd" /\
    map fst (csv_rows files) = linspace 0 bond_length_max 100 /\
    length (dcd_frames files) = 100%nat /\
    logged = ["Initiating DOF scan for " +:+ name +:+ " using " +:+ nnp_name +:+ ".";
              "Performing bond scan with DOF definition: " +:+
              format_list [atom1; atom2];
              "Scan results saved to " +:+ output_folder].
Proof.
  intros file Hts Hsys Hbond Hinit H1 H2 Hp1 Hp2.
  pose proof (perform_scan_run E D
                {| DOFTestParameters.system := system;
                   DOFTestParameters.platform := platform;
                   DOFTestParameters.testsystem := testsystem;
                   DOFTestParameters.output_folder := output_folder;
                   DOFTestParameters.log_file_name :=
                     "DOF_scan_" +:+ name +:+ "_" +:+ nnp_name;
                   DOFTestParameters.bond := [atom1; atom2];
                   DOFTestParameters.bond_length_max := bond_length_max |}
                atom1 atom2 k1 k2 p1 p2 w eq_refl H1 H2 Hp1 Hp2) as Hrun.
  cbn [DOFTestParameters.output_folder DOFTestParameters.log_file_name
       DOFTestParameters.bond_length_max DOFTestParameters.testsystem] in Hrun.
  eexists _, _, _. split.
  { unfold run_DOF_scan.
    erewrite bind_ok by (by apply lift_run). cbv beta.
    erewrite bind_ok by (by apply lift_run). cbv beta.
    unfold ret at 1. rewrite Hbond.
    erewrite bind_ok by (by apply lift_run). cbv beta.
    erewrite bind_ok by exact Hrun. reflexivity. }
  cbn [csv_file dcd_file csv_rows dcd_frames].
  split; [reflexivity|]. split; [reflexivity|]. split; [|split].
  - rewrite map_map. apply map_id.
  - rewrite length_map. apply linspace_length.
  - reflexivity.
Qed.

Lemma DOF_scan_run_witness :
  exists (files : scan_files) (logged : list string) (w' : World),
    run_DOF_scan Sample.engine Scenario.factories Scenario.defaults "ani2x" "ani2x"
      (<["angle" := [0; 1; 2]]> (<["bond" := [0; 1]]> ∅))
      (PlatformHandle 0) "out" "ethanol" 2 Scenario.world =
    (Finished (Ok (files, logged)), w') /\
    csv_file files = "out/DOF_scan_ethanol_ani2x.csv" /\
    logged !! 1%nat = Some "Performing bond scan with DOF definition: [0, 1]".
Proof.
  assert (Hbond : (<["angle" := [0; 1; 2]]> (<["bond" := [0; 1]]> ∅)
                   : gmap string (list Z)) !! "bond" = Some [0; 1])
    by (vm_compute; reflexivity).
  destruct (DOF_scan_run Sample.engine Scenario.factories Scenario.defaults
              "ani2x" "ani2x" (<["angle" := [0; 1; 2]]> (<["bond" := [0; 1]]> ∅))
              (PlatformHandle 0) "out" "ethanol" 2
              Sample.diatomic (SystemHandle 0) 0 1 0%nat 1%nat
              (0, 0, 0)%R (1, 0, 0)%R Scenario.world eq_refl eq_refl Hbond)
    as (files & logged & w' & Hrun & Hcsv & _ & _ & _ & Hlogged).
  { cbn [DOFTestParameters_init Scenario.factories]. by rewrite Hbond. }
  { reflexivity. }
  { reflexivity. }
  { reflexivity. }
  { reflexivity. }
  exists files, logged, w'. split; [exact Hrun|]. split; [exact Hcsv|].
  rewrite Hlogged. reflexivity.
Defined.

(** ** The target count of the benchmark *)

(** The target is the exact count [nr_of_molecules * percentage / 100],
    rounded down, or one less. *)
Definition target_in_range (n p : Z) : bool :=
  match nr_of_molecules_to_test n (Int p) with
  | Ok t => (n * p / 100 - 1 <=? t) && (t <=? n * p / 100)
  | Raise _ => false
  end.

Lemma target_in_range_checked :
  forallb (fun n => forallb (fun p => target_in_range (Z.of_nat n) (Z.of_nat p))
                            (seq 0 101))
          (seq 0 201) = true.
Proof. vm_compute. reflexivity. Qed.

(** X21.  The target count [int(nr_of_molecules * (percentage / 100))] of
    the benchmark is computed in double precision.  For every database of
    up to 200 molecules and every whole percentage from 0 to 100 it is the
    exact count [nr_of_molecules * percentage / 100] rounded down, or one
    molecule less than that; it is never more, and so never more than the
    number of molecules. *)
Theorem target_count_bounds (n p : Z) :
  0 <= n <= 200 -> 0 <= p <= 100 ->
  exists t : Z,
    nr_of_molecules_to_test n (Int p) = Ok t /\
    n * p / 100 - 1 <= t <= n * p / 100 /\
    t <= n.
Proof.
  intros Hn Hp.
  pose proof target_in_range_checked as Hall.
  rewrite forallb_forall in Hall.
  specialize (Hall (Z.to_nat n)). rewrite forallb_forall in Hall.
  assert (Hcheck : target_in_range n p = true).
  { rewrite <- (Z2Nat.id n), <- (Z2Nat.id p) by lia.
    apply Hall; apply in_seq; lia. }
  unfold target_in_range in Hcheck.
  destruct (nr_of_molecules_to_test n (Int p)) as [t|e]; [|discriminate].
  exists t. split; [reflexivity|].
  apply andb_true_iff in Hcheck as [Hlo Hhi].
  apply Z.leb_le in Hlo, Hhi. split; [lia|].
  assert (n * p / 100 <= n); [|lia].
  apply Z.div_le_upper_bound; nia.
Qed.

Lemma target_count_bounds_witness :
  exists t : Z,
    nr_of_molecules_to_test 100 (Int 29) = Ok t /\ 28 <= t <= 29.
Proof.
  destruct (target_count_bounds 100 29 ltac:(lia) ltac:(lia)) as (t & Ht & Hb & _).
  exists t. split; [exact Ht|]. exact Hb.
Defined.

(** ** The names the benchmark derives from a path *)

(** Whether the character [c] occurs in [s]. *)
Fixpoint occurs (c : ascii) (s : string) : bool :=
  match s with
  | EmptyString => false
  | String x rest => Ascii.eqb x c || occurs c rest
  end.

Lemma split_nonempty (sep : ascii) (s : string) : split sep s <> [].
Proof.
  induction s as [|c s IH]; [done|]. simpl.
  destruct (Ascii.eqb c sep); [done|]. by destruct (split sep s).
Qed.

Lemma split_without (sep : ascii) (s : string) :
  occurs sep s = false -> split sep s = [s].
Proof.
  induction s as [|c s IH]; [done|]. simpl. intros Hocc.
  apply orb_false_elim in Hocc as [Hc Hs]. rewrite Hc, (IH Hs). reflexivity.
Qed.

Lemma split_at (sep : ascii) (a b : string) :
  split sep (a +:+ String sep b) = split sep a ++ split sep b.
Proof.
  induction a as [|c a IH]; simpl.
  - by rewrite Ascii.eqb_refl.
  - destruct (Ascii.eqb c sep); [by rewrite IH|].
    rewrite IH. pose proof (split_nonempty sep a) as Hne.
    by destruct (split sep a).
Qed.

Lemma last_app_nonempty {A : Type} (l k : list A) (d : A) :
  k <> [] -> List.last (l ++ k) d = List.last k d.
Proof.
  intros Hk. induction l as [|x l IH]; [done|].
  simpl. destruct (l ++ k) eqn:Heq; [|exact IH].
  by destruct l, k.
Qed.

Lemma substring_prefix (s t : string) : substring 0 (String.length s) (s +:+ t) = s.
Proof. induction s as [|c s IH]; simpl; [by destruct t|by rewrite IH]. Qed.

Lemma substring_all (t : string) : substring 0 (String.length t) t = t.
Proof. induction t as [|c t IH]; simpl; [done|by rewrite IH]. Qed.

Lemma substring_suffix (s t : string) :
  substring (String.length s) (String.length t) (s +:+ t) = t.
Proof. induction s as [|c s IH]; simpl; [apply substring_all|exact IH]. Qed.

Lemma removesuffix_app (s suffix : string) : removesuffix (s +:+ suffix) suffix = s.
Proof.
  unfold removesuffix. rewrite string_length_app.
  replace (String.length s + String.length suffix - String.length suffix)%nat
    with (String.length s) by lia.
  rewrite substring_suffix, String.eqb_refl, substring_prefix.
  replace (String.length suffix <=? String.length s + String.length suffix)%nat
    with true by (symmetry; apply Nat.leb_le; lia).
  reflexivity.
Qed.

Lemma string_app_assoc (a b c : string) : a +:+ b +:+ c = (a +:+ b) +:+ c.
Proof.
  induction a as [|x a IH]; [done|].
  change (String x (a +:+ b +:+ c) = String x ((a +:+ b) +:+ c)). by rewrite IH.
Qed.

Lemma occurs_app (c : ascii) (s t : string) :
  occurs c (s +:+ t) = occurs c s || occurs c t.
Proof. induction s as [|x s IH]; simpl; [done|]. by rewrite IH, orb_assoc. Qed.

(** X22.  The names [run_detect_minimum] derives from the path of a start
    file.  The molecule name is the file name without its directory and
    without the suffix [.xyz].  The SDF file is the path cut at its FIRST
    dot, with [.sdf] appended: the file beside the start file when no
    directory of the path contains a dot, and otherwise a path into the
    directory tree cut short at that dot (for a path that starts with
    [./], the file [.sdf]). *)
Theorem names_of_a_start_file :
  (forall directory base : string,
     occurs "/" base = false ->
     molecule_name (directory +:+ "/" +:+ base +:+ ".xyz") = base /\
     molecule_name (base +:+ ".xyz") = base) /\
  (forall before rest : string,
     occurs "." before = false ->
     sdf_file_of (before +:+ "." +:+ rest) = before +:+ ".sdf") /\
  (forall directory base : string,
     occurs "." directory = false -> occurs "." base = false ->
     sdf_file_of (directory +:+ "/" +:+ base +:+ ".xyz") =
     directory +:+ "/" +:+ base +:+ ".sdf") /\
  (forall rest : string, sdf_file_of ("./" +:+ rest) = ".sdf").
Proof.
  assert (Hname : forall base : string,
            occurs "/" base = false ->
            List.last (split "/" (removesuffix
                         (List.last (split "/" (base +:+ ".xyz")) EmptyString) ".xyz"))
                      EmptyString = base).
  { intros base Hbase. rewrite (split_without "/" (base +:+ ".xyz")).
    - simpl List.last. rewrite removesuffix_app. by rewrite split_without.
    - rewrite occurs_app, Hbase. reflexivity. }
  split; [|split; [|split]].
  - intros directory base Hbase. unfold molecule_name. split; [|by apply Hname].
    change (directory +:+ "/" +:+ base +:+ ".xyz")
      with (directory +:+ String "/" (base +:+ ".xyz")).
    rewrite split_at, last_app_nonempty by apply split_nonempty.
    by apply Hname.
  - intros before rest Hbefore. unfold sdf_file_of.
    change (before +:+ "." +:+ rest) with (before +:+ String "." rest).
    rewrite split_at, (split_without "." before Hbefore). reflexivity.
  - intros directory base Hdir Hbase. unfold sdf_file_of.
    assert (Heq : directory +:+ "/" +:+ base +:+ ".xyz" =
                  (directory +:+ "/" +:+ base) +:+ String "." "xyz").
    { by rewrite !string_app_assoc. }
    rewrite Heq, split_at, split_without.
    + simpl hd. by rewrite !string_app_assoc.
    + rewrite !occurs_app, Hdir, Hbase. reflexivity.
  - intros rest. reflexivity.
Qed.

Lemma names_of_a_start_file_witness :
  molecule_name "data/drugbank/DB00001.xyz" = "DB00001" /\
  sdf_file_of "data/drugbank/DB00001.xyz" = "data/drugbank/DB00001.sdf" /\
  sdf_file_of "data/v1.2/DB00001.xyz" = "data/v1.sdf".
Proof.
  destruct names_of_a_start_file as (Hname & Hfirst & Hbeside & _).
  split; [|split].
  - apply (Hname "data/drugbank" "DB00001"). reflexivity.
  - apply (Hbeside "data/drugbank" "DB00001"); reflexivity.
  - apply (Hfirst "data/v1" "2/DB00001.xyz"). reflexivity.
Defined.

(** ** The score of a molecule *)

(** The simulation the benchmark creates for a test system, with the
    positions it is given. *)
Definition benchmark_simulation (K : Toolkit) (nnp : string) (platform : Platform)
    (testsystem : TestSystem) (p : list vec3) : Simulation :=
  {| sim_system := initialize_system K nnp (topology testsystem);
     sim_topology := topology testsystem;
     sim_platform := platform;
     sim_env := default_env K;
     sim_device_index := default_device_index K;
     sim_ensemble := default_ensemble K;
     integrator_temperature := default_temperature K;
     context_positions := p |}.

(** X23.  How [run_detect_minimum] scores a molecule (when the defaults of
    the minimization parameters ask for no annealing).  Two simulations
    are created on the same topology: the first is given the
    DFT-minimized positions and is only evaluated, not minimized; the
    second is given the start positions and minimized once, with the
    default convergence criterion and at most 1000 iterations.  Each
    writes its final geometry, to [ref_{name}_{nnp}.pdb] (named after the
    potential itself) and to [minimize_{name}_{nnp_name}.pdb].  The score
    is the RMSD between the positions the minimization ends at and the
    DFT-minimized positions, with the absolute difference of the two
    potential energies, which is never negative. *)
Theorem score_of_a_molecule (E : Engine) (K : Toolkit) (nnp nnp_name : string)
    (openmm_platform : Platform) (output_folder name : string)
    (reference_testsystem : TestSystem) (e : entry) (w : World) :
  let reference :=
    benchmark_simulation K nnp openmm_platform reference_testsystem (minimized_position e) in
  let start :=
    benchmark_simulation K nnp openmm_platform reference_testsystem (start_position e) in
  let tolerance := default_convergence_criteria K in
  let final := minimized E start tolerance 1000 in
  let created :=
    create_simulation (initialize_system K nnp (topology reference_testsystem))
      (topology reference_testsystem) openmm_platform (default_temperature K)
      (default_env K) (default_device_index K) (default_ensemble K) in
  let ref_pdb :=
    (output_folder +:+ "/" +:+ "ref_" +:+ name +:+ "_" +:+ nnp) +:+ ".pdb" in
  let minimize_pdb :=
    (output_folder +:+ "/" +:+ "minimize_" +:+ name +:+ "_" +:+ nnp_name) +:+ ".pdb" in
  match default_simulated_annealing K with Some b => b | None => false end = false ->
  exists d_energy : R,
    score_molecule E K nnp nnp_name openmm_platform output_folder name
      reference_testsystem e w =
    (Ok (rmsd K final (minimized_position e), d_energy),
     add_calls w
       [created; setPositions (minimized_position e); getState true true;
        open_w ref_pdb;
        writeFile ref_pdb (topology reference_testsystem) (minimized_position e);
        created; setPositions (start_position e); minimizeEnergy tolerance 1000;
        getState true true; open_w minimize_pdb;
        writeFile minimize_pdb (topology reference_testsystem) final]) /\
    d_energy = Rabs (potential_energy E reference -
                     potential_energy E (with_positions start final)) /\
    (0 <= d_energy)%R.
Proof.
  intros reference start tolerance final created ref_pdb minimize_pdb Ha.
  eexists. split; [|split; [reflexivity|apply Rabs_pos]].
  unfold score_molecule. cbv zeta.
  unfold MinimizationProtocol.perform_stability_test, StabilityTest._setup_simulation.
  cbn [getattr_simulated_annealing MinimizationTestParameters_params
       MinimizationTestParameters_init MinimizationTestParameters.simulated_annealing
       system testsystem platform temperature env device_index ensemble
       MinimizationTestParameters.system MinimizationTestParameters.testsystem
       MinimizationTestParameters.platform MinimizationTestParameters.temperature
       MinimizationTestParameters.env MinimizationTestParameters.device_index
       MinimizationTestParameters.ensemble
       MinimizationTestParameters.convergence_criteria
       MinimizationTestParameters.output_folder
       MinimizationTestParameters.log_file_name
       with_testsystem_positions topology positions].
  rewrite Ha.
  erewrite bind_ok; cycle 1.
  { erewrite bind_ok; cycle 1.
    { mstep create_simulation_run. mstep setPositions_run. rewrite bind_ret.
      reflexivity. }
    cbv beta. mstep getState_run. unfold state_getPositions. cbn [getPositions].
    rewrite bind_ret. mstep writeFile_run. reflexivity. }
  cbv beta. unfold state_getPotentialEnergy at 1. cbn [getPotentialEnergy].
  rewrite bind_ret.
  erewrite bind_ok; cycle 1.
  { erewrite bind_ok; cycle 1.
    { mstep create_simulation_run. mstep setPositions_run.
      mstep minimizeEnergy_run. reflexivity. }
    cbv beta. mstep getState_run. unfold state_getPositions. cbn [getPositions].
    rewrite bind_ret. mstep writeFile_run. reflexivity. }
  cbv beta. unfold state_getPotentialEnergy, state_getPositions.
  cbn [getPotentialEnergy getPositions]. rewrite !bind_ret. unfold ret.
  rewrite !add_calls_app. reflexivity.
Qed.

Lemma score_of_a_molecule_witness :
  exists (d_energy : R) (w' : World),
    score_molecule Sample.engine Sample.toolkit "ani2x" "ani2x" (PlatformHandle 0)
      "out" "methane" Sample.diatomic (Sample.item "methane.xyz")
      Sample.empty_world =
    (Ok (0%R, d_energy), w') /\
    (0 <= d_energy)%R.
Proof.
  destruct (score_of_a_molecule Sample.engine Sample.toolkit "ani2x" "ani2x"
              (PlatformHandle 0) "out" "methane" Sample.diatomic
              (Sample.item "methane.xyz") Sample.empty_world eq_refl)
    as (d_energy & Hrun & _ & Hpos).
  exists d_energy. eexists. split; [exact Hrun|exact Hpos].
Defined.

(** ** The score table *)

Lemma dict_set_keys {V : Type} (d : list (string * V)) (name : string) (v : V) :
  map fst (dict_set d name v) =
  if bool_decide (name ∈ map fst d) then map fst d else map fst d ++ [name].
Proof.
  induction d as [|[k x] d IH]; [reflexivity|]. cbn [dict_set map fst].
  destruct (String.eqb k name) eqn:Hk.
  - apply String.eqb_eq in Hk as ->.
    rewrite bool_decide_eq_true_2 by apply list_elem_of_here. reflexivity.
  - apply String.eqb_neq in Hk. cbn [map fst]. rewrite IH.
    destruct (bool_decide (name ∈ map fst d)) eqn:Hin.
    + apply bool_decide_eq_true in Hin.
      rewrite bool_decide_eq_true_2 by (by apply list_elem_of_further). reflexivity.
    + apply bool_decide_eq_false in Hin.
      rewrite bool_decide_eq_false_2; [reflexivity|].
      intros [Heq|Hin']%elem_of_cons; [by destruct Hk|by destruct Hin].
Qed.

Lemma dict_set_NoDup {V : Type} (d : list (string * V)) (name : string) (v : V) :
  NoDup (map fst d) -> NoDup (map fst (dict_set d name v)).
Proof.
  intros Hd. rewrite dict_set_keys.
  destruct (bool_decide (name ∈ map fst d)) eqn:Hin; [exact Hd|].
  apply bool_decide_eq_false in Hin.
  apply NoDup_app. split; [exact Hd|]. split; [|apply NoDup_singleton].
  intros x Hx ->%list_elem_of_singleton. by destruct Hin.
Qed.

Lemma dict_set_length {V : Type} (d : list (string * V)) (name : string) (v : V) :
  (length d <= length (dict_set d name v) <= S (length d))%nat.
Proof.
  rewrite <- (length_map fst (dict_set d name v)), dict_set_keys.
  destruct (bool_decide _); rewrite ?length_app, length_map; simpl; lia.
Qed.

Section BenchmarkScore.
Context (E : Engine) (K : Toolkit).
Context (nnp nnp_name : string) (platform : Platform) (output_folder : string).
Context (threshold : Z).

(** The loop keeps the table a dict: its keys stay distinct, each key is
    the name of an item that was scored, and there are at most as many
    rows as the counter says. *)
Lemma minimization_loop_score (target : Z) (items : list entry) :
  default_annealing_fails K = false ->
  Forall (fun e => is_fatal K threshold e = false) items ->
  forall (score : list (string * (R * R))) (counter : Z) (w : World),
    NoDup (map fst score) ->
    Z.of_nat (length score) <= counter ->
    exists (score' : list (string * (R * R))) (counter' : Z) (w' : World),
      minimization_loop E K nnp nnp_name platform output_folder threshold
        target items score counter w = (Ok (score', counter'), w') /\
      NoDup (map fst score') /\
      Z.of_nat (length score') <= counter' /\
      forall name : string, name ∈ map fst score' ->
        name ∈ map fst score \/
        exists e : entry, e ∈ items /\ is_scored K threshold e = true /\
                          name = molecule_name (start_file e).
Proof.
  intros Hf Hitems. induction Hitems as [|e items He _ IH];
    intros score counter w Hnd Hlen.
  - exists score, counter, w. simpl. split; [reflexivity|]. split; [exact Hnd|].
    split; [exact Hlen|]. intros name Hname. by left.
  - simpl minimization_loop.
    destruct (not_fatal_cases K threshold e He) as [Hskip|Hscored].
    + destruct (minimization_test_skipped E K nnp nnp_name platform output_folder
                  threshold target score counter e Hskip) as (cs & _ & Hrun).
      mstep Hrun.
      destruct (IH score counter (add_calls w cs) Hnd Hlen)
        as (score' & counter' & w' & Hloop & Hnd' & Hlen' & Hnames).
      exists score', counter', w'. split; [exact Hloop|]. split; [exact Hnd'|].
      split; [exact Hlen'|]. intros name Hname.
      destruct (Hnames name Hname) as [Hin|(e' & He' & Hs' & ->)]; [by left|].
      right. exists e'. split; [by apply list_elem_of_further|done].
    + destruct (minimization_test_scored E K nnp nnp_name platform output_folder
                  threshold target score counter e Hf Hscored) as (s & cs & Hrun).
      mstep Hrun.
      pose proof (dict_set_NoDup score (molecule_name (start_file e)) s Hnd) as Hnd1.
      pose proof (dict_set_length score (molecule_name (start_file e)) s) as Hlen1.
      assert (Hkeys : forall name : string,
                name ∈ map fst (dict_set score (molecule_name (start_file e)) s) ->
                name ∈ map fst score \/ name = molecule_name (start_file e)).
      { intros name. rewrite dict_set_keys. destruct (bool_decide _); [by left|].
        intros [Hin|Hin%list_elem_of_singleton]%elem_of_app; [by left|by right]. }
      destruct (counter + 1 >=? target).
      * eexists _, _, _. split; [reflexivity|]. split; [exact Hnd1|].
        split; [lia|]. intros name Hname.
        destruct (Hkeys name Hname) as [Hin| ->]; [by left|].
        right. exists e. split; [apply list_elem_of_here|done].
      * destruct (IH (dict_set score (molecule_name (start_file e)) s)
                     (counter + 1) (add_calls w cs) Hnd1 ltac:(lia))
          as (score' & counter' & w' & Hloop & Hnd' & Hlen' & Hnames).
        exists score', counter', w'. split; [exact Hloop|]. split; [exact Hnd'|].
        split; [exact Hlen'|]. intros name Hname.
        destruct (Hnames name Hname) as [Hin|(e' & He' & Hs' & ->)].
        -- destruct (Hkeys name Hin) as [Hin'| ->]; [by left|].
           right. exists e. split; [apply list_elem_of_here|done].
        -- right. exists e'. split; [by apply list_elem_of_further|done].
Qed.

End BenchmarkScore.

Lemma print_rows_run (score : list (string * (R * R))) (w : World) :
  for_each (fun _ row => emit (print (Some row))) score tt w =
  (Ok tt, add_calls w (map (fun row => print (Some row)) score)).
Proof.
  revert w. induction score as [|row score IH]; intros w.
  - simpl. by rewrite add_calls_nil.
  - cbn [for_each map]. rewrite bind_emit, IH, add_calls_app. reflexivity.
Qed.

(** X24.  The table [run_detect_minimum] returns is keyed by molecule
    name: its keys are pairwise distinct, each is the name of a start
    file that was scored, and a molecule scored under a name that is
    already in the table overwrites that row, so the table can have fewer
    rows than the loop has counted (and never has more).  The run ends by
    printing the header and then one line per row of the table, in the
    order of the table. *)
Theorem benchmark_score_table (E : Engine) (K : Toolkit) (nnp nnp_name : string)
    (platform : Platform) (output_folder : string) (threshold : Z)
    (files : Files) (percentage : number) (target : Z) (w : World) :
  default_annealing_fails K = false ->
  Forall (fun e => is_fatal K threshold e = false) (entries files) ->
  nr_of_molecules_to_test (total_number_of_systems files) percentage = Ok target ->
  exists (score : list (string * (R * R))) (w' : World) (before : list call),
    run_detect_minimum E K nnp nnp_name platform output_folder threshold
      files percentage w = (Ok score, w') /\
    NoDup (map fst score) /\
    Z.of_nat (length score) <=
      Z.min (count_scored K threshold (entries files)) (Z.max 1 target) /\
    (forall name : string, name ∈ map fst score ->
       exists e : entry, e ∈ entries files /\ is_scored K threshold e = true /\
                         name = molecule_name (start_file e)) /\
    calls w' = before ++ print None :: map (fun row => print (Some row)) score.
Proof.
  intros Hf Hitems Htarget.
  set (w0 := add_calls w [log INFO (PerformingMinimization target nnp_name)]).
  destruct (minimization_loop_counter E K nnp nnp_name platform output_folder
              threshold target (entries files) Hf Hitems [] 0 w0)
    as (score & w1 & Hloop).
  destruct (minimization_loop_score E K nnp nnp_name platform output_folder
              threshold target (entries files) Hf Hitems [] 0 w0)
    as (score' & counter' & w1' & Hloop' & Hnd & Hlen & Hnames).
  { constructor. }
  { simpl. lia. }
  rewrite Hloop in Hloop'. injection Hloop' as <- <- <-.
  replace (target - 0) with target in Hlen by lia.
  eexists score, _, _. split.
  { unfold run_detect_minimum. rewrite Htarget.
    erewrite bind_ok by reflexivity. rewrite bind_emit. fold w0. mstep Hloop.
    cbn [fst]. rewrite bind_emit. mstep print_rows_run. reflexivity. }
  split; [exact Hnd|]. split; [lia|]. split.
  - intros name Hname. destruct (Hnames name Hname) as [Hin|Hin]; [|exact Hin].
    by apply elem_of_nil in Hin.
  - cbn [calls add_calls]. rewrite <- app_assoc. reflexivity.
Qed.

Lemma benchmark_score_table_witness :
  exists (score : list (string * (R * R))) (w' : World),
    run_detect_minimum Sample.engine Sample.toolkit "ani2x" "ani2x"
      (PlatformHandle 0) "out" 20
      {| total_number_of_systems := 2;
         entries := [Sample.item "methane.xyz"; Sample.item "methane.xyz"] |}
      (Int 100) Sample.empty_world = (Ok score, w') /\
    NoDup (map fst score).
Proof.
  destruct (benchmark_score_table Sample.engine Sample.toolkit "ani2x" "ani2x"
              (PlatformHandle 0) "out" 20
              {| total_number_of_systems := 2;
                 entries := [Sample.item "methane.xyz"; Sample.item "methane.xyz"] |}
              (Int 100) 2 Sample.empty_world)
    as (score & w' & before & Hrun & Hnd & _).
  { reflexivity. }
  { repeat constructor. }
  { vm_compute. reflexivity. }
  exists score, w'. split; [exact Hrun|exact Hnd].
Defined.

(** ** The water angles of [PropertyCalculator] *)

Section WaterAngles.
Import PropertyCalculator.

(** Two bonds that start in a water and have three atoms between them. *)
Definition share_one_atom (bond_1 bond_2 : Bond) : bool :=
  String.eqb (residue_name (atom1 bond_1)) "HOH" &&
  String.eqb (residue_name (atom1 bond_2)) "HOH" &&
  (size (water_of bond_1 bond_2) =? 3)%nat.

Definition int_has_no_element : error :=
  AttributeError "'int' object has no attribute 'element'".

Lemma extract_angles_inner_run (bond_1 bond_2 : Bond) (angle_list : list (list nat)) :
  String.eqb (residue_name (atom1 bond_1)) "HOH" = true ->
  _extract_angles_inner bond_1 angle_list bond_2 =
  if share_one_atom bond_1 bond_2 then Raised int_has_no_element else Done angle_list.
Proof.
  intros H1. unfold _extract_angles_inner, share_one_atom. rewrite H1.
  destruct (String.eqb (residue_name (atom1 bond_2)) "HOH"); [|reflexivity].
  destruct (size (water_of bond_1 bond_2) =? 3)%nat eqn:Hsize; [|reflexivity].
  cbn [negb andb]. apply Nat.eqb_eq in Hsize.
  destruct (map snd (map_to_list (water_of bond_1 bond_2))) as [|x l] eqn:Hvalues;
    [|reflexivity].
  apply (f_equal length) in Hvalues.
  rewrite length_map, length_map_to_list, Hsize in Hvalues. discriminate.
Qed.

Lemma extract_angles_inner_loop (bond_1 : Bond) (bonds : list Bond)
    (angle_list : list (list nat)) :
  String.eqb (residue_name (atom1 bond_1)) "HOH" = true ->
  for_loop (_extract_angles_inner bond_1) bonds angle_list =
  if existsb (share_one_atom bond_1) bonds
  then Raised int_has_no_element else Done angle_list.
Proof.
  intros H1. induction bonds as [|bond_2 bonds IH]; [reflexivity|].
  cbn [for_loop existsb]. rewrite extract_angles_inner_run by exact H1.
  destruct (share_one_atom bond_1 bond_2); [reflexivity|exact IH].
Qed.

Lemma extract_angles_outer_loop (all bonds : list Bond) (angle_list : list (list nat)) :
  for_loop (fun angle_list bond_1 =>
              if negb (String.eqb (residue_name (atom1 bond_1)) "HOH")
              then Done angle_list
              else for_loop (_extract_angles_inner bond_1) all angle_list)
           bonds angle_list =
  if existsb (fun bond_1 => existsb (share_one_atom bond_1) all) bonds
  then Raised int_has_no_element else Done angle_list.
Proof.
  induction bonds as [|bond_1 bonds IH]; [reflexivity|].
  cbn [for_loop existsb].
  destruct (String.eqb (residue_name (atom1 bond_1)) "HOH") eqn:H1; cbn [negb].
  - rewrite extract_angles_inner_loop by exact H1.
    destruct (existsb (share_one_atom bond_1) all); [reflexivity|exact IH].
  - replace (existsb (share_one_atom bond_1) all) with false; [exact IH|].
    symmetry. apply not_true_is_false. intros Hex.
    apply existsb_exists in Hex as (bond_2 & _ & Hshare).
    unfold share_one_atom in Hshare. by rewrite H1 in Hshare.
Qed.

(** X25.  [monitor_water_angle] never computes an angle.  Its helper
    [_extract_angles] looks at every pair of bonds that start in a residue
    [HOH]; at the first pair that has exactly three atoms between the two
    bonds it raises [AttributeError], because the values of its dict are
    atom indices, not atoms.  So it returns only when there is no such
    pair, and then with the empty list.  A topology that holds a water
    molecule (two bonds from the same atom of a residue [HOH] to two other
    atoms) always makes it raise. *)
Theorem water_angles_are_never_computed {Angles : Type}
    (monitor_angle_length : list (list nat) -> raised Angles) (bonds : list Bond) :
  _extract_angles bonds =
    (if existsb (fun bond_1 => existsb (share_one_atom bond_1) bonds) bonds
     then Raised int_has_no_element else Done []) /\
  (forall angle angles, _extract_angles bonds <> Done (angle :: angles)) /\
  (forall o h1 h2 : Atom,
     residue_name o = "HOH" ->
     index o <> index h1 -> index o <> index h2 -> index h1 <> index h2 ->
     {| atom1 := o; atom2 := h1 |} ∈ bonds ->
     {| atom1 := o; atom2 := h2 |} ∈ bonds ->
     monitor_water_angle monitor_angle_length bonds = Raised int_has_no_element).
Proof.
  assert (Hrun : _extract_angles bonds =
            if existsb (fun bond_1 => existsb (share_one_atom bond_1) bonds) bonds
            then Raised int_has_no_element else Done [])
    by apply extract_angles_outer_loop.
  split; [exact Hrun|]. split.
  - intros angle angles. rewrite Hrun. by destruct (existsb _ bonds).
  - intros o h1 h2 Ho Hoh1 Hoh2 Hh Hb1 Hb2.
    unfold monitor_water_angle. rewrite Hrun.
    replace (existsb (fun bond_1 => existsb (share_one_atom bond_1) bonds) bonds)
      with true; [reflexivity|].
    symmetry. apply existsb_exists. exists {| atom1 := o; atom2 := h1 |}.
    split; [by apply list_elem_of_In|].
    apply existsb_exists. exists {| atom1 := o; atom2 := h2 |}.
    split; [by apply list_elem_of_In|].
    unfold share_one_atom. cbn [atom1 atom2]. rewrite Ho.
    rewrite !String.eqb_refl. cbn [andb].
    apply Nat.eqb_eq. unfold water_of. cbn [fold_left atom1 atom2].
    rewrite map_size_insert_None.
    2: { rewrite !lookup_insert_ne by congruence. apply lookup_empty. }
    rewrite map_size_insert_Some.
    2: { rewrite lookup_insert_ne by congruence. rewrite lookup_insert_eq. eauto. }
    rewrite map_size_insert_None.
    2: { rewrite lookup_insert_ne by congruence. apply lookup_empty. }
    rewrite map_size_insert_None by apply lookup_empty.
    by rewrite map_size_empty.
Qed.

End WaterAngles.

(** One water molecule: the oxygen, atom 0, bound to two hydrogens. *)
Definition water_atom (index : nat) (element : string) : PropertyCalculator.Atom :=
  {| PropertyCalculator.index := index;
     PropertyCalculator.residue_name := "HOH";
     PropertyCalculator.element_symbol := element |}.

Definition water_bonds : list PropertyCalculator.Bond :=
  [{| PropertyCalculator.atom1 := water_atom 0 "O";
      PropertyCalculator.atom2 := water_atom 1 "H" |};
   {| PropertyCalculator.atom1 := water_atom 0 "O";
      PropertyCalculator.atom2 := water_atom 2 "H" |}].

Lemma water_angles_are_never_computed_witness :
  PropertyCalculator.monitor_water_angle
    (fun angle_list => PropertyCalculator.Done (length angle_list)) water_bonds =
  PropertyCalculator.Raised int_has_no_element.
Proof.
  destruct (water_angles_are_never_computed
              (fun angle_list => PropertyCalculator.Done (length angle_list))
              water_bonds) as (_ & _ & Hwater).
  apply (Hwater (water_atom 0 "O") (water_atom 1 "H") (water_atom 2 "H"));
    try reflexivity; try (simpl; lia).
  - apply list_elem_of_here.
  - apply list_elem_of_further, list_elem_of_here.
Defined.

(** ** The figure of [MonitoringPlotter.generate_summary] *)

Lemma next_cell (k : Z) :
  0 <= k ->
  (if k mod 3 + 1 >? 2 then (k / 3 + 1, 0) else (k / 3, k mod 3 + 1)) =
  ((k + 1) / 3, (k + 1) mod 3).
Proof.
  intros Hk. destruct (k mod 3 + 1 >? 2) eqn:Hcol.
  - apply Z.gtb_lt in Hcol. f_equal; Z.div_mod_to_equations; lia.
  - rewrite Z.gtb_ltb in Hcol. apply Z.ltb_ge in Hcol.
    f_equal; Z.div_mod_to_equations; lia.
Qed.

Lemma cells_from (labels : list string) :
  forall k : Z, 0 <= k ->
    MonitoringPlotter.cells labels (k / 3) (k mod 3) =
    (fst (MonitoringPlotter.cells labels (k / 3) (k mod 3)),
     ((k + Z.of_nat (length labels)) / 3, (k + Z.of_nat (length labels)) mod 3)) /\
    forall (i : nat) (l : string), labels !! i = Some l ->
      fst (MonitoringPlotter.cells labels (k / 3) (k mod 3)) !! i =
      Some (l, ((k + Z.of_nat i) / 3, (k + Z.of_nat i) mod 3)).
Proof.
  induction labels as [|l0 labels IH]; intros k Hk.
  - split; [|by intros i l]. simpl. by rewrite Z.add_0_r.
  - cbn [MonitoringPlotter.cells].
    assert (Hnext : (if k mod 3 + 1 >? 2
                     then MonitoringPlotter.cells labels (k / 3 + 1) 0
                     else MonitoringPlotter.cells labels (k / 3) (k mod 3 + 1)) =
                    MonitoringPlotter.cells labels ((k + 1) / 3) ((k + 1) mod 3)).
    { pose proof (next_cell k Hk) as Hcell.
      destruct (k mod 3 + 1 >? 2); injection Hcell as <- <-; reflexivity. }
    rewrite Hnext. destruct (IH (k + 1) ltac:(lia)) as [Hfinal Hplots].
    destruct (MonitoringPlotter.cells labels ((k + 1) / 3) ((k + 1) mod 3))
      as [plots final] eqn:Hcells.
    cbn [fst snd] in *. injection Hfinal as Hfinal. split.
    + f_equal. rewrite Hfinal. cbn [length].
      by replace (k + Z.of_nat (S (length labels)))
        with (k + 1 + Z.of_nat (length labels)) by lia.
    + intros [|i] l Hl.
      * injection Hl as ->. cbn. by rewrite Z.add_0_r.
      * etrans; [exact (Hplots i l Hl)|].
        by replace (k + Z.of_nat (S i)) with (k + 1 + Z.of_nat i) by lia.
Qed.

Definition subplot_rows_in_range (n : nat) : bool :=
  match MonitoringPlotter.subplot_rows (replicate n EmptyString) with
  | Ok rows => rows =? Z.max (Z.of_nat n / 3 + 1) 2
  | Raise _ => false
  end.

Lemma subplot_rows_checked : forallb subplot_rows_in_range (seq 0 301) = true.
Proof. vm_compute. reflexivity. Qed.

Lemma subplot_rows_ok (labels : list string) :
  (length labels <= 300)%nat ->
  MonitoringPlotter.subplot_rows labels =
  Ok (Z.max (Z.of_nat (length labels) / 3 + 1) 2).
Proof.
  intros Hn. pose proof subplot_rows_checked as Hall.
  rewrite forallb_forall in Hall.
  specialize (Hall (length labels) ltac:(apply in_seq; lia)).
  unfold subplot_rows_in_range, MonitoringPlotter.subplot_rows in *.
  rewrite length_replicate in Hall.
  destruct (Float64.to_int _) as [rows|e]; [|discriminate].
  cbn [result_bind] in *. apply Z.eqb_eq in Hall. by rewrite Hall.
Qed.

(** X26.  The figure [generate_summary] lays out for a run that is no
    bond scan (up to 300 observables, a data file with at least one
    frame): the grid has [max(n // 3 + 1, 2)] rows of 3 subplots for [n]
    labels; label [i] is drawn in row [i // 3], column [i % 3], so no two
    observables share a subplot; every cell the loop indexes lies inside
    the grid, and so does the cell the text box is put in after the loop,
    the one after the last plot.  No [IndexError] can come from the
    layout. *)
Theorem summary_grid_holds_every_plot (data : MonitoringPlotter.DataFrame)
    (labels : list string) :
  let n := Z.of_nat (length labels) in
  (length labels <= 300)%nat ->
  0 < MonitoringPlotter.nr_of_frames data ->
  exists fig : MonitoringPlotter.figure,
    MonitoringPlotter.summary_figure data labels = Ok fig /\
    MonitoringPlotter.grid_rows fig = Z.max (n / 3 + 1) 2 /\
    MonitoringPlotter.grid_columns fig = 3 /\
    length (MonitoringPlotter.plots fig) = length labels /\
    (forall (i : nat) (l : string), labels !! i = Some l ->
       MonitoringPlotter.plots fig !! i =
       Some (l, (Z.of_nat i / 3, Z.of_nat i mod 3))) /\
    (forall (l : string) (row column : Z),
       (l, (row, column)) ∈ MonitoringPlotter.plots fig ->
       0 <= row < MonitoringPlotter.grid_rows fig /\ 0 <= column < 3) /\
    MonitoringPlotter.text_box fig = (n / 3, n mod 3) /\
    0 <= n / 3 < MonitoringPlotter.grid_rows fig /\ 0 <= n mod 3 < 3.
Proof.
  intros n Hn Hframes.
  destruct (cells_from labels 0 ltac:(lia)) as [Hfinal Hplots].
  change (0 / 3) with 0 in *. change (0 mod 3) with 0 in *.
  destruct (MonitoringPlotter.cells labels 0 0) as [plots final] eqn:Hcells.
  cbn [fst snd] in *. injection Hfinal as Hfinal. rewrite Z.add_0_l in Hfinal.
  assert (Hlen : length plots = length labels).
  { apply Nat.le_antisymm.
    - destruct (decide (length plots <= length labels)%nat) as [|Hgt]; [done|].
      exfalso. clear -Hcells Hgt. revert plots final Hcells Hgt.
      generalize 0 at 1. generalize 0 at 1.
      induction labels as [|l0 labels IH]; intros c r plots final Hcells Hgt.
      + injection Hcells as <- _. simpl in Hgt. lia.
      + cbn [MonitoringPlotter.cells] in Hcells.
        destruct (c + 1 >? 2);
          destruct (MonitoringPlotter.cells labels _ _) as [plots' final'] eqn:Hrest;
          injection Hcells as <- _; apply (IH _ _ _ _ Hrest); simpl in Hgt; lia.
    - destruct (decide (length labels <= length plots)%nat) as [|Hgt]; [done|].
      exfalso. destruct (lookup_lt_is_Some_2 labels (length plots) ltac:(lia))
        as [l Hl].
      specialize (Hplots _ _ Hl). apply lookup_lt_Some in Hplots. lia. }
  eexists. split.
  { unfold MonitoringPlotter.summary_figure.
    replace (MonitoringPlotter.nr_of_frames data >? 0) with true
      by (symmetry; apply Z.gtb_lt; lia).
    rewrite subplot_rows_ok by exact Hn. cbn [result_bind]. rewrite Hcells.
    reflexivity. }
  cbn [MonitoringPlotter.grid_rows MonitoringPlotter.grid_columns
       MonitoringPlotter.plots MonitoringPlotter.text_box].
  split; [reflexivity|]. split; [reflexivity|]. split; [exact Hlen|].
  split.
  { intros i l Hl. rewrite (Hplots i l Hl). by rewrite !Z.add_0_l. }
  split.
  { intros l row column Hin. apply list_elem_of_lookup in Hin as [i Hi].
    pose proof (lookup_lt_Some _ _ _ Hi) as Hlt. rewrite Hlen in Hlt.
    destruct (lookup_lt_is_Some_2 labels i Hlt) as [l' Hl'].
    rewrite (Hplots i l' Hl') in Hi. injection Hi as _ <- <-.
    rewrite !Z.add_0_l. unfold n. split; Z.div_mod_to_equations; lia. }
  split; [by rewrite Hfinal|].
  unfold n. split; Z.div_mod_to_equations; lia.
Qed.

Lemma summary_grid_holds_every_plot_witness :
  exists fig : MonitoringPlotter.figure,
    MonitoringPlotter.summary_figure
      [(MonitoringPlotter.Step, [0; 1; 2]%R); ("Potential Energy (kJ/mole)", [5; 4; 3]%R)]
      ["Potential Energy (kJ/mole)"; "Temperature (K)"; "Density (g/mL)"] = Ok fig /\
    MonitoringPlotter.grid_rows fig = 2 /\
    MonitoringPlotter.text_box fig = (1, 0).
Proof.
  destruct (summary_grid_holds_every_plot
              [(MonitoringPlotter.Step, [0; 1; 2]%R);
               ("Potential Energy (kJ/mole)", [5; 4; 3]%R)]
              ["Potential Energy (kJ/mole)"; "Temperature (K)"; "Density (g/mL)"])
    as (fig & Hfig & Hrows & _ & _ & _ & _ & Hbox & _).
  { simpl. lia. }
  { reflexivity. }
  exists fig. split; [exact Hfig|]. split; [exact Hrows|exact Hbox].
Defined.
